(** * Emotional-cue extraction and abstract-image synthesis (app.py)

    A shallow embedding of the visualization pipeline of [app.py]:
    [extract_emotional_cues], [calculate_base_color],
    [draw_emotional_shapes], [apply_emotional_filters],
    [generate_abstract_visualization], [generate_fallback_image] and the
    [generate_emotion_image] handler.

    Modelling conventions.
    - Text is a [string] of 8-bit code points (the first 256 of Unicode);
      [Str.lower] is Python's [str.lower] on them.
    - A Python [int] is an integer, [inject_Z] of it where it meets a
      float.  A Python float is an IEEE-754 double, modelled as the rational
      number it denotes: every operation on floats returns the exact result
      rounded to the nearest double, ties to even, with 53 bits and gradual
      underflow ([Double.round]); a literal such as [0.3] is the double
      nearest to it ([Double.literal]); [int(x)] truncates toward zero.
      Infinities are not modelled: from cue values of the data model no
      operation of the pipeline comes near the largest double.  Module
      [Binary64] runs the same operations on the doubles of the machine, to
      check [Double] against them.  The one quotient of
      [get_fallback_analysis], of two counts of answers, is kept exact.
    - Exceptions are the [Raise] constructor of [result]; stateful code runs
      in the monad [M] over a [world] made of the state of the [random]
      module and the heap of Pillow images.
    - Pillow's rasteriser, its filters and its PNG encoder are not modelled:
      an image is its size, its initial fill and the history of the edits
      applied to it; the encoders are parameters.

    The text service is embedded as well: [get_fallback_questions],
    [get_fallback_analysis], [parse_questions_with_options] and the handlers
    [generate_questions] and [generate_analysis].  There the libraries [re]
    and [json], the API key and the outcome of the request to the API are
    parameters. *)

From Stdlib Require Import ZArith QArith Qround Qabs Qpower Bool List Ascii
  String Lia Lqa.
From Stdlib Require Floats Uint63.
Import ListNotations.

Set Warnings "-register-all".
Open Scope string_scope.

(** ** Exceptions *)

Inductive exn : Type :=
| ZeroDivisionError
| AttributeError
| TypeError
| OtherError (msg : string).

Inductive result (A : Type) : Type :=
| Ok (a : A)
| Raise (e : exn).
Arguments Ok {A} a.
Arguments Raise {A} e.

Definition rbind {A B : Type} (r : result A) (k : A -> result B) : result B :=
  match r with
  | Ok a => k a
  | Raise e => Raise e
  end.

(** ** Strings: [str.lower], [in] and [str.count] *)

Module Str.

(** [str.lower] on one code point below 256: the ASCII capitals and the
    Latin-1 capitals U+00C0..U+00DE (U+00D7, the multiplication sign, apart)
    move up by 32. *)
Definition lower_char (c : ascii) : ascii :=
  let n := nat_of_ascii c in
  if ((65 <=? n) && (n <=? 90)
      || (192 <=? n) && (n <=? 222) && negb (n =? 215))%nat
  then ascii_of_nat (n + 32)
  else c.

Fixpoint lower (s : string) : string :=
  match s with
  | EmptyString => EmptyString
  | String c s' => String (lower_char c) (lower s')
  end.

(** The other case of a letter whose two cases are single code points
    below 256; every other character is left as it is.  This is not
    [str.swapcase]: U+00DF, U+00B5 and U+00FF, whose upper case is not one
    code point below 256, stay as they are here. *)
Definition swap_char (c : ascii) : ascii :=
  let n := nat_of_ascii c in
  if ((65 <=? n) && (n <=? 90)
      || (192 <=? n) && (n <=? 222) && negb (n =? 215))%nat
  then ascii_of_nat (n + 32)
  else if ((97 <=? n) && (n <=? 122)
           || (224 <=? n) && (n <=? 254) && negb (n =? 247))%nat
  then ascii_of_nat (n - 32)
  else c.

(** A re-cased version of [s]: the case of the characters that [mask]
    selects is changed. *)
Fixpoint recase (mask : list bool) (s : string) {struct s} : string :=
  match s with
  | EmptyString => EmptyString
  | String c s' =>
      match mask with
      | [] => s
      | flip :: mask' =>
          String (if flip then swap_char c else c) (recase mask' s')
      end
  end.



(** [sub in s] *)
Fixpoint contains (sub s : string) : bool :=
  prefix sub s ||
  match s with
  | EmptyString => false
  | String _ s' => contains sub s'
  end.

(** The scan of [str.count] for a non-empty [sub]: [skip] characters are
    still covered by the last occurrence found, so that overlapping
    occurrences are not counted. *)
Fixpoint count_scan (sub : string) (skip : nat) (s : string) : nat :=
  match s with
  | EmptyString => 0
  | String _ s' =>
      match skip with
      | S k => count_scan sub k s'
      | O =>
          if prefix sub s
          then S (count_scan sub (length sub - 1) s')
          else count_scan sub 0 s'
      end
  end.

(** [s.count(sub)]; the empty [sub] occurs between all characters. *)
Definition count (s sub : string) : nat :=
  match sub with
  | EmptyString => S (length s)
  | _ => count_scan sub 0 s
  end.

End Str.

(** ** Doubles

    The finite doubles are the rationals [m * 2^q] with [|m| < 2^53] and
    [-1074 <= q]; an operation on floats is the exact operation followed by
    [round]. *)

Module Double.

Definition pow2 (e : Z) : Q := Qpower 2 e.

(** The integer part of the binary logarithm of [x > 0]. *)
Definition ilog2 (x : Q) : Z :=
  let e := (Z.log2 (Qnum x) - Z.log2 (Zpos (Qden x)))%Z in
  if Qle_bool (pow2 e) x then e else (e - 1)%Z.

(** The nearest integer, the even one of two that are equally near. *)
Definition rne (y : Q) : Z :=
  let f := Qfloor y in
  match Qcompare (y - inject_Z f) (1 # 2) with
  | Lt => f
  | Gt => (f + 1)%Z
  | Eq => if Z.even f then f else (f + 1)%Z
  end.

(** The exponent of the unit in the last place of the doubles around [x]:
    52 below the exponent of [x], and never below that of the subnormal
    doubles. *)
Definition exponent (x : Q) : Z := Z.max (ilog2 (Qabs x) - 52) (-1074).

(** The double nearest to [x]. *)
Definition round (x : Q) : Q :=
  let x := Qred x in
  if Qeq_bool x 0 then 0
  else Qred (inject_Z (rne (x / pow2 (exponent x))) * pow2 (exponent x)).

(** A float literal of the source. *)
Definition literal (x : Q) : Q := round x.

Definition add (x y : Q) : Q := round (x + y).
Definition mul (x y : Q) : Q := round (x * y).
Definition div (x y : Q) : Q := round (x / y).

End Double.

(** ** The cue vector *)

(** The dict [emotional_cues]: its six keys are fixed at creation and never
    change, so it is a record. *)
Record cues : Type := mkCues {
  positive : Q;
  negative : Q;
  energetic : Q;
  calm : Q;
  chaotic : Q;
  focused : Q
}.

Definition zero_cues : cues := mkCues 0 0 0 0 0 0.

Definition positive_terms : list string :=
  ["positive"; "happy"; "joy"; "content"; "satisfied"; "growth"; "improve";
   "good"; "well"; "better"].

Definition negative_terms : list string :=
  ["negative"; "sad"; "challenge"; "difficult"; "blocker"; "fatigue";
   "stress"; "anxious"; "overwhelm"; "hard"].

Definition energetic_terms : list string :=
  ["energy"; "active"; "dynamic"; "vibrant"; "excite"; "motivate"; "drive"].

Definition calm_terms : list string :=
  ["calm"; "peace"; "serene"; "tranquil"; "relax"; "balance"; "centered"].

(** One [for term in terms: if term in text: acc += text.count(term)]. *)
Definition scan_terms (text : string) (terms : list string) (acc : Z) : Z :=
  fold_left
    (fun acc term =>
       if Str.contains term text
       then (acc + Z.of_nat (Str.count text term))%Z
       else acc)
    terms acc.

(** [sum(emotional_cues.values())], in the order of the keys. *)
Definition sum_values (c : cues) : Q :=
  0 + positive c + negative c + energetic c + calm c + chaotic c + focused c.

Definition Qgtb (a b : Q) : bool := negb (Qle_bool a b).

(** [a / b] on two integers: the double nearest to the quotient; Python
    raises when the divisor is zero. *)
Definition truediv (a b : Q) : result Q :=
  if Qeq_bool b 0 then Raise ZeroDivisionError else Ok (Double.div a b).

(** The loop [for key in emotional_cues: emotional_cues[key] /= total]. *)
Definition normalize (c : cues) (total : Q) : result cues :=
  rbind (truediv (positive c) total) (fun p =>
  rbind (truediv (negative c) total) (fun n =>
  rbind (truediv (energetic c) total) (fun e =>
  rbind (truediv (calm c) total) (fun k =>
  rbind (truediv (chaotic c) total) (fun x =>
  rbind (truediv (focused c) total) (fun f =>
  Ok (mkCues p n e k x f))))))).

(** The term counts of the four scanned categories, before normalization. *)
Definition raw_cues (text : string) : cues :=
  mkCues (inject_Z (scan_terms text positive_terms 0))
         (inject_Z (scan_terms text negative_terms 0))
         (inject_Z (scan_terms text energetic_terms 0))
         (inject_Z (scan_terms text calm_terms 0))
         0 0.

Definition extract_emotional_cues (analysis : string) : result cues :=
  let text := Str.lower analysis in
  let emotional_cues := raw_cues text in
  let total := sum_values emotional_cues in
  if Qgtb total 0
  then normalize emotional_cues total
  else Ok emotional_cues.

(** ** Base colour *)

(** The six values added from left to right, each addition in doubles. *)
Definition double_sum_values (c : cues) : Q :=
  Double.add
    (Double.add
       (Double.add
          (Double.add (Double.add (Double.add 0 (positive c)) (negative c))
             (energetic c))
          (calm c))
       (chaotic c))
    (focused c).

(** [int(x)] on a number: truncation toward zero. *)
Definition int (x : Q) : Z := Z.quot (Qnum x) (Zpos (Qden x)).

(** [min(255, max(0, v))] *)
Definition clamp255 (v : Z) : Z := Z.min 255 (Z.max 0 v).

Definition rgb : Type := Z * Z * Z.
Definition rgba : Type := Z * Z * Z * Z.

Definition calculate_base_color (emotional_cues : cues) : rgb :=
  let r := int (Double.mul 255
                  (Double.add (positive emotional_cues)
                     (Double.mul (energetic emotional_cues)
                        (Double.literal (5 # 10))))) in
  let g := int (Double.mul 255
                  (Double.add
                     (Double.mul (positive emotional_cues)
                        (Double.literal (8 # 10)))
                     (Double.mul (calm emotional_cues)
                        (Double.literal (5 # 10))))) in
  let b := int (Double.mul 255
                  (Double.add (negative emotional_cues)
                     (calm emotional_cues))) in
  let r := clamp255 r in
  let g := clamp255 g in
  let b := clamp255 b in
  (r, g, b).

(** ** Pillow images *)

Definition point : Type := Z * Z.
Definition box : Type := Z * Z * Z * Z.

(** The calls on an [ImageDraw] object that the program makes. *)
Inductive draw_op : Type :=
| Ellipse (xy : box) (fill outline : option rgba) (width : Z)
| Rectangle (xy : box) (fill : option rgba)
| Polygon (xy : list point) (fill : option rgba)
| Line (xy : list point) (fill : option rgba) (width : Z).

Inductive image_filter : Type :=
| GaussianBlur (radius : Z)
| SMOOTH.

(** What has been done to the pixels of an image since [Image.new]. *)
Inductive edit : Type :=
| Paint (op : draw_op)
| Pass (f : image_filter).

Record image : Type := mkImage {
  img_mode : string;
  img_size : Z * Z;
  img_fill : rgb;
  img_edits : list edit
}.

(** ** The world: the [random] module and the heap of images *)

(** The generator is a tape of raw draws and a cursor on it; every call of
    the [random] module consumes one draw. *)
Record world : Type := mkWorld {
  tape : nat -> nat;
  cursor : nat;
  heap : list image
}.

Definition M (A : Type) : Type := world -> result A * world.

Definition ret {A : Type} (a : A) : M A := fun w => (Ok a, w).

Definition raise {A : Type} (e : exn) : M A := fun w => (Raise e, w).

Definition bind {A B : Type} (c : M A) (k : A -> M B) : M B :=
  fun w =>
    match c w with
    | (Ok a, w') => k a w'
    | (Raise e, w') => (Raise e, w')
    end.

Definition lift {A : Type} (r : result A) : M A := fun w => (r, w).

(** [try: body / except Exception as e: handler] *)
Definition try_except {A : Type} (body : M A) (handler : exn -> M A) : M A :=
  fun w =>
    match body w with
    | (Ok a, w') => (Ok a, w')
    | (Raise e, w') => handler e w'
    end.

Declare Scope monad_scope.
Delimit Scope monad_scope with monad.
Notation "x <- c ;; k" := (bind c (fun x => k))
  (at level 61, c at next level, right associativity) : monad_scope.
Notation "c ;;; k" := (bind c (fun _ => k))
  (at level 61, right associativity) : monad_scope.
Open Scope monad_scope.

(** [for _ in range(n): body], with the values of the iterations. *)
Fixpoint repeat_m {A : Type} (n : nat) (body : M A) : M (list A) :=
  match n with
  | O => ret []
  | S n' => a <- body ;; l <- repeat_m n' body ;; ret (a :: l)
  end.

(** [for i in range(lo, lo + n): body i] *)
Fixpoint for_range (lo : Z) (n : nat) (body : Z -> M unit) : M unit :=
  match n with
  | O => ret tt
  | S n' => body lo ;;; for_range (lo + 1) n' body
  end.

Module Random.

Definition draw : M nat :=
  fun w => (Ok (tape w (cursor w)), mkWorld (tape w) (S (cursor w)) (heap w)).

(** [random.randint(a, b)]: an integer of [a..b]; an empty range raises. *)
Definition randint (a b : Z) : M Z :=
  if (b <? a)%Z then raise (OtherError "ValueError")
  else n <- draw ;; ret (a + Z.of_nat n mod (b - a + 1))%Z.

(** [random.choice(seq)]; an empty sequence raises. *)
Definition choice {A : Type} (seq : list A) : M A :=
  match seq with
  | [] => raise (OtherError "IndexError")
  | x :: _ => n <- draw ;; ret (nth (n mod List.length seq) seq x)
  end.

End Random.

Definition ref : Type := nat.

Fixpoint update {A : Type} (l : list A) (i : nat) (f : A -> A) : list A :=
  match l, i with
  | [], _ => []
  | a :: l', O => f a :: l'
  | a :: l', S i' => a :: update l' i' f
  end.

Module Pillow.

(** [Image.new(mode, size, color)] allocates an image. *)
Definition new (mode : string) (size : Z * Z) (color : rgb) : M ref :=
  fun w =>
    (Ok (List.length (heap w)),
     mkWorld (tape w) (cursor w) (heap w ++ [mkImage mode size color []])).

Definition deref (r : ref) : M image :=
  fun w =>
    match nth_error (heap w) r with
    | Some i => (Ok i, w)
    | None => (Raise (OtherError "dangling image"), w)
    end.

(** [ImageDraw.Draw(image)]: the drawing object writes into [image]. *)
Definition Draw (im : ref) : M ref := ret im.

(** A drawing call changes the pixels of the image in place. *)
Definition paint (draw : ref) (op : draw_op) : M unit :=
  fun w =>
    (Ok tt,
     mkWorld (tape w) (cursor w)
       (update (heap w) draw
          (fun i => mkImage (img_mode i) (img_size i) (img_fill i)
                      (img_edits i ++ [Paint op])))).

(** [image.filter(f)] leaves [image] as it is and returns a new image. *)
Definition filter (im : ref) (f : image_filter) : M ref :=
  i <- deref im ;;
  fun w =>
    (Ok (List.length (heap w)),
     mkWorld (tape w) (cursor w)
       (heap w ++ [mkImage (img_mode i) (img_size i) (img_fill i)
                     (img_edits i ++ [Pass f])])).

End Pillow.

(** ** Drawing *)

Inductive shape_type : Type :=
| circle
| rectangle
| polygon
| chaos
| focused_rings.

(** What one iteration of the drawing loop decided.  The Python function
    returns [None]; the model returns the shapes of its iterations so that
    they can be counted. *)
Record shape : Type := mkShape {
  shape_kind : shape_type;
  shape_x : Z;
  shape_y : Z;
  shape_size : Z;
  shape_color : rgba
}.

(** The body of the loop of [draw_emotional_shapes]. *)
Definition draw_one_shape (draw : ref) (width height : Z)
    (emotional_cues : cues) (base_color : rgb) : M shape :=
  let '(base_r, base_g, base_b) := base_color in
  shape_type <-
    (if Qgtb (chaotic emotional_cues) (Double.literal (3 # 10))
     then ret chaos
     else if Qgtb (focused emotional_cues) (Double.literal (3 # 10))
     then ret focused_rings
     else Random.choice [circle; rectangle; polygon]) ;;
  x <- Random.randint 0 width ;;
  y <- Random.randint 0 height ;;
  size <- Random.randint 10 100 ;;
  let color_variation := 50%Z in
  dr <- Random.randint (- color_variation) color_variation ;;
  let r := clamp255 (base_r + dr) in
  dg <- Random.randint (- color_variation) color_variation ;;
  let g := clamp255 (base_g + dg) in
  db <- Random.randint (- color_variation) color_variation ;;
  let b := clamp255 (base_b + db) in
  a <- Random.randint 100 200 ;;
  let color : rgba := (r, g, b, a) in
  match shape_type with
  | circle =>
      Pillow.paint draw
        (Ellipse (x, y, x + size, y + size)%Z (Some color) None 1)
  | rectangle =>
      Pillow.paint draw
        (Rectangle (x, y, x + size, y + size)%Z (Some color))
  | polygon =>
      Pillow.paint draw
        (Polygon [(x, y); (x + size, y); (x + size / 2, y + size)]%Z
           (Some color))
  | chaos =>
      for_range 0 5 (fun _ =>
        dx <- Random.randint (-50) 50 ;;
        dy <- Random.randint (-50) 50 ;;
        w <- Random.randint 1 5 ;;
        Pillow.paint draw
          (Line [(x, y); (x + dx, y + dy)]%Z (Some color) w))
  | focused_rings =>
      for_range 0 3 (fun i =>
        Pillow.paint draw
          (Ellipse (x - i * 10, y - i * 10,
                    x + size + i * 10, y + size + i * 10)%Z
             None (Some color) 2))
  end ;;;
  ret (mkShape shape_type x y size color).

Definition num_shapes (emotional_cues : cues) : Z :=
  int (Double.add 10 (Double.mul 40 (energetic emotional_cues))).

Definition draw_emotional_shapes (draw : ref) (width height : Z)
    (emotional_cues : cues) (base_color : rgb) : M (list shape) :=
  repeat_m (Z.to_nat (num_shapes emotional_cues))
    (draw_one_shape draw width height emotional_cues base_color).

(** [image] is a local name of the function: binding it to the image that
    [filter] returns changes nothing outside, and the function returns
    [None]. *)
Definition apply_emotional_filters (image : ref) (emotional_cues : cues)
    : M unit :=
  image <-
    (if Qgtb (chaotic emotional_cues) (Double.literal (4 # 10))
     then Pillow.filter image (GaussianBlur 1)
     else ret image) ;;
  image <-
    (if Qgtb (calm emotional_cues) (Double.literal (6 # 10))
     then Pillow.filter image SMOOTH
     else ret image) ;;
  ret tt.

(** ** Requests and responses *)

(** The values [request.get_json()] can return. *)
Inductive json : Type :=
| JNull
| JBool (b : bool)
| JNum (n : Z)
| JStr (s : string)
| JList (l : list json)
| JObj (fields : list (string * json)).

Fixpoint assoc (key : string) (fields : list (string * json)) : option json :=
  match fields with
  | [] => None
  | (k, v) :: rest => if String.eqb k key then Some v else assoc key rest
  end.

(** [data.get(key, default)]; only a dict has the method. *)
Definition dict_get (data : json) (key : string) (default : json)
    : result json :=
  match data with
  | JObj fields =>
      Ok (match assoc key fields with Some v => v | None => default end)
  | _ => Raise AttributeError
  end.

(** [analysis.lower()] exists only on a string: the extraction applied to
    what the request holds. *)
Definition extract_emotional_cues_of (analysis : json) : result cues :=
  match analysis with
  | JStr s => extract_emotional_cues s
  | _ => Raise AttributeError
  end.

Record response : Type := mkResponse {
  imageData : string;
  description : string
}.

Definition fallback_description : string :=
  "Abstract representation of emotional state".

Section Encoders.

(** [image.save(buffered, format="PNG")] followed by [getvalue()], and
    [base64.b64encode(...).decode()]. *)
Variable png_encode : image -> string.
Variable b64encode : string -> string.

(** [str(v)] for the values other than strings, as an f-string shows them. *)
Variable py_str : json -> string.

Definition format_value (v : json) : string :=
  match v with
  | JStr s => s
  | _ => py_str v
  end.

Definition data_uri (im : image) : string :=
  "data:image/png;base64," ++ b64encode (png_encode im).

Definition save_png (im : ref) : M string :=
  i <- Pillow.deref im ;; ret (png_encode i).

Definition generate_abstract_visualization (emotional_cues : cues)
    : M string :=
  let '(width, height) := (400, 400)%Z in
  image <- Pillow.new "RGB" (width, height) (0, 0, 0)%Z ;;
  draw <- Pillow.Draw image ;;
  let base_color := calculate_base_color emotional_cues in
  draw_emotional_shapes draw width height emotional_cues base_color ;;;
  apply_emotional_filters image emotional_cues ;;;
  buffered <- save_png image ;;
  let img_str := b64encode buffered in
  ret ("data:image/png;base64," ++ img_str).

(** The same pipeline with the call of [apply_emotional_filters] taken out:
    the yardstick for what the filter stage contributes. *)
Definition visualization_without_filters (emotional_cues : cues)
    : M string :=
  let '(width, height) := (400, 400)%Z in
  image <- Pillow.new "RGB" (width, height) (0, 0, 0)%Z ;;
  draw <- Pillow.Draw image ;;
  let base_color := calculate_base_color emotional_cues in
  draw_emotional_shapes draw width height emotional_cues base_color ;;;
  buffered <- save_png image ;;
  let img_str := b64encode buffered in
  ret ("data:image/png;base64," ++ img_str).

(** The body of the loop of [generate_fallback_image]. *)
Definition draw_fallback_shape (draw : ref) (width height : Z) : M unit :=
  x <- Random.randint 0 width ;;
  y <- Random.randint 0 height ;;
  size <- Random.randint 20 80 ;;
  cr <- Random.randint 100 200 ;;
  cg <- Random.randint 100 200 ;;
  cb <- Random.randint 100 200 ;;
  let color : rgba := (cr, cg, cb, 150%Z) in
  c <- Random.choice [true; false] ;;
  if c : bool
  then Pillow.paint draw
         (Ellipse (x, y, x + size, y + size)%Z (Some color) None 1)
  else Pillow.paint draw
         (Rectangle (x, y, x + size, y + size)%Z (Some color)).

Definition generate_fallback_image : M string :=
  let '(width, height) := (400, 400)%Z in
  image <- Pillow.new "RGB" (width, height) (30, 30, 50)%Z ;;
  draw <- Pillow.Draw image ;;
  repeat_m 20 (draw_fallback_shape draw width height) ;;;
  buffered <- save_png image ;;
  let img_str := b64encode buffered in
  ret ("data:image/png;base64," ++ img_str).

(** The handler looks its two stages up in the module at the time of the
    call; they are variables here so that a failing stage can stand in
    their place. *)
Section Handler.

Variable extract_stage : json -> M cues.
Variable visualization_stage : cues -> M string.

(** The [try] block of [generate_emotion_image]; [body] is the outcome of
    [request.get_json()]. *)
Definition emotion_image_try (body : result json) : M response :=
  data <- lift body ;;
  analysis <- lift (dict_get data "analysis" (JStr "")) ;;
  life_area <- lift (dict_get data "lifeArea" (JStr "general life")) ;;
  emotional_cues <- extract_stage analysis ;;
  image_data <- visualization_stage emotional_cues ;;
  ret (mkResponse image_data
         ("Abstract visualization of your emotional state regarding "
          ++ format_value life_area)).

Definition emotion_image_except (e : exn) : M response :=
  image_data <- generate_fallback_image ;;
  ret (mkResponse image_data fallback_description).

Definition generate_emotion_image_with (body : result json) : M response :=
  try_except (emotion_image_try body) emotion_image_except.

End Handler.

Definition generate_emotion_image (body : result json) : M response :=
  generate_emotion_image_with
    (fun analysis => lift (extract_emotional_cues_of analysis))
    generate_abstract_visualization body.

End Encoders.

Definition example_text : string :=
  "You show positive growth and good energy, with some stress and difficulty.".

(** A text whose shares are sevenths. *)
Definition seventh_text : string := "good sad sad calm calm calm calm".

(** The double [0x1.9999999999999p-6], just below 0.025. *)
Definition below_fortieth : Q := 7205759403792793 # 288230376151711744.


(** The vector of the text ["good sad sad calm calm calm calm"]: the doubles
    nearest to 1/7, 2/7 and 4/7. *)
Definition seventh_cues : cues :=
  mkCues (Double.div 1 7) (Double.div 2 7) 0 (Double.div 4 7) 0 0.

(** A text is free of markers when no term of the four lists occurs in its
    lower-cased form. *)
Definition all_terms : list string :=
  positive_terms ++ negative_terms ++ energetic_terms ++ calm_terms.

Definition marker_free (analysis : string) : Prop :=
  forall term, In term all_terms ->
    Str.contains term (Str.lower analysis) = false.

(** The data model's cue vector: six non-negative numbers that are all zero
    or sum to one, within the tolerance that the rounding of six doubles
    calls for: one unit in the last place of 1.0. *)
Definition sum_tolerance : Q := Double.pow2 (-52).

Definition nonneg_cues (c : cues) : Prop :=
  0 <= positive c /\ 0 <= negative c /\ 0 <= energetic c /\
  0 <= calm c /\ 0 <= chaotic c /\ 0 <= focused c.

Definition all_zero (c : cues) : Prop :=
  positive c == 0 /\ negative c == 0 /\ energetic c == 0 /\
  calm c == 0 /\ chaotic c == 0 /\ focused c == 0.

Definition valid_cues (c : cues) : Prop :=
  nonneg_cues c /\
  (all_zero c \/ Qabs (sum_values c - 1) <= sum_tolerance).

(** ** The arithmetic on the doubles of the machine

    This module runs the operations of the program on primitive binary64
    values, from the same term counts, so that [Double] and the figures
    obtained with it can be checked against the hardware. *)

Module Binary64.

Import Floats Uint63.
#[local] Set Warnings "-inexact-float".

Record fcues : Type := mkFcues {
  fpositive : float;
  fnegative : float;
  fenergetic : float;
  fcalm : float;
  fchaotic : float;
  ffocused : float
}.

(** The double of a Python [int] (exact below 2^53). *)
Definition of_int (n : Z) : float := PrimFloat.of_uint63 (Uint63.of_Z n).

(** The rational that a finite double denotes. *)
Definition to_Q (f : float) : option Q :=
  match Prim2SF f with
  | S754_zero _ => Some 0%Q
  | S754_finite s m e =>
      Some (Qred ((if s then - inject_Z (Zpos m) else inject_Z (Zpos m))
                  * Double.pow2 e)%Q)
  | S754_infinity _ | S754_nan => None
  end.

(** The double [f] denotes the rational [q]. *)
Definition denotes (f : float) (q : Q) : bool :=
  match to_Q f with
  | Some a => Qeq_bool a q
  | None => false
  end.

Definition pairs (bound : nat) : list (Z * Z) :=
  list_prod (map Z.of_nat (seq 0 bound)) (map Z.of_nat (seq 1 bound)).

(** [Double.div], [Double.mul] and [Double.add] against the hardware, on
    quotients of integers and on products and sums of such quotients. *)
Definition div_agrees (bound : nat) : bool :=
  forallb (fun '(p, t) =>
             denotes (of_int p / of_int t)
               (Double.div (inject_Z p) (inject_Z t)))
    (pairs bound).

Definition mul_add_agree (bound : nat) : bool :=
  forallb (fun '(p, t) =>
             let f := (of_int p / of_int t)%float in
             let q := Double.div (inject_Z p) (inject_Z t) in
             denotes (f * 0.8) (Double.mul q (Double.literal (8 # 10)))
             && denotes (40 * f) (Double.mul 40 q)
             && denotes (10 + 40 * f)
                  (Double.add 10 (Double.mul 40 q))
             && denotes (f + f * 0.5)
                  (Double.add q (Double.mul q (Double.literal (5 # 10))))
             && denotes (- f - f * 0.3)
                  (Double.add (- q)
                     (- Double.mul q (Double.literal (3 # 10)))))
    (pairs bound).

(** [int(f)]: truncation toward zero; an infinity or a NaN raises. *)
Definition int (f : float) : option Z :=
  match Prim2SF f with
  | S754_zero _ => Some 0%Z
  | S754_finite s m e =>
      let v := match e with
               | Z0 => Zpos m
               | Zpos p => (Zpos m * 2 ^ Zpos p)%Z
               | Zneg p => (Zpos m / 2 ^ Zpos p)%Z
               end in
      Some (if s then (- v)%Z else v)
  | S754_infinity _ | S754_nan => None
  end.

(** The division of the six accumulators by the total [t > 0]. *)
Definition normalize (p n e k x f : Z) : fcues :=
  let t := (0 + p + n + e + k + x + f)%Z in
  mkFcues (of_int p / of_int t) (of_int n / of_int t)
    (of_int e / of_int t) (of_int k / of_int t)
    (of_int x / of_int t) (of_int f / of_int t).

Definition extract_emotional_cues (analysis : string) : fcues :=
  let text := Str.lower analysis in
  let p := scan_terms text positive_terms 0 in
  let n := scan_terms text negative_terms 0 in
  let e := scan_terms text energetic_terms 0 in
  let k := scan_terms text calm_terms 0 in
  if (0 <? 0 + p + n + e + k + 0 + 0)%Z
  then normalize p n e k 0 0
  else mkFcues (of_int p) (of_int n) (of_int e) (of_int k) 0 0.

Definition sum_values (c : fcues) : float :=
  0 + fpositive c + fnegative c + fenergetic c + fcalm c
  + fchaotic c + ffocused c.

Definition calculate_base_color (c : fcues) : option rgb :=
  match int (255 * (fpositive c + fenergetic c * 0.5)),
        int (255 * (fpositive c * 0.8 + fcalm c * 0.5)),
        int (255 * (fnegative c + fcalm c)) with
  | Some r, Some g, Some b => Some (clamp255 r, clamp255 g, clamp255 b)
  | _, _, _ => None
  end.

Definition num_shapes (c : fcues) : option Z :=
  int (10 + 40 * fenergetic c).

(** A double just below 0.025, as an energetic value. *)
Definition below_fortieth : float := 0x1.9999999999999p-6.

Definition below_fortieth_cues : fcues :=
  mkFcues 0 0 below_fortieth 0 0 0.

(** One unit in the last place of 1.0, and the double just below 1.0. *)
Definition ulp_one : float := 0x1p-52.
Definition below_one : float := 0x1.fffffffffffffp-1.

(** The sums of the normalized values for all counts below [bound]. *)
Definition counts (bound : nat) : list Z := map Z.of_nat (seq 0 bound).

Definition sum_close (tol : float) (p n e k : Z) : bool :=
  if (0 <? 0 + p + n + e + k + 0 + 0)%Z
  then PrimFloat.leb (abs (sum_values (normalize p n e k 0 0) - 1)) tol
  else true.

Definition sums_close (tol : float) (bound : nat) : bool :=
  forallb (fun p =>
  forallb (fun n =>
  forallb (fun e =>
  forallb (fun k => sum_close tol p n e k)
    (counts bound)) (counts bound)) (counts bound)) (counts bound).

End Binary64.

(** ** What a drawn shape is

    The description of one iteration of [draw_emotional_shapes]: the type
    of the shape, the ranges of its parameters, and the drawing calls it
    makes. *)

Definition trio (k : shape_type) : Prop :=
  k = circle \/ k = rectangle \/ k = polygon.

Definition expected_kind (c : cues) (k : shape_type) : Prop :=
  if Qgtb (chaotic c) (Double.literal (3 # 10)) then k = chaos
  else if Qgtb (focused c) (Double.literal (3 # 10)) then k = focused_rings
  else trio k.

Definition jitter (base v : Z) : Prop :=
  exists d : Z, (-50 <= d <= 50)%Z /\ v = clamp255 (base + d).

Definition shape_in_range (width height : Z) (base_color : rgb) (s : shape)
    : Prop :=
  let '(base_r, base_g, base_b) := base_color in
  let '(r, g, b, a) := shape_color s in
  (0 <= shape_x s <= width)%Z /\ (0 <= shape_y s <= height)%Z /\
  (10 <= shape_size s <= 100)%Z /\
  jitter base_r r /\ jitter base_g g /\ jitter base_b b /\
  (100 <= a <= 200)%Z.

Definition chaos_line (s : shape) (op : draw_op) : Prop :=
  exists dx dy w : Z,
    (-50 <= dx <= 50)%Z /\ (-50 <= dy <= 50)%Z /\ (1 <= w <= 5)%Z /\
    op = Line [(shape_x s, shape_y s);
               (shape_x s + dx, shape_y s + dy)%Z]
           (Some (shape_color s)) w.

Definition ring (s : shape) (i : Z) : draw_op :=
  Ellipse (shape_x s - i * 10, shape_y s - i * 10,
           shape_x s + shape_size s + i * 10,
           shape_y s + shape_size s + i * 10)%Z
    None (Some (shape_color s)) 2.

Definition square (s : shape) : box :=
  (shape_x s, shape_y s, shape_x s + shape_size s,
   shape_y s + shape_size s)%Z.

Definition renders (s : shape) (ops : list draw_op) : Prop :=
  match shape_kind s with
  | circle => ops = [Ellipse (square s) (Some (shape_color s)) None 1]
  | rectangle => ops = [Rectangle (square s) (Some (shape_color s))]
  | polygon =>
      ops = [Polygon [(shape_x s, shape_y s);
                      (shape_x s + shape_size s, shape_y s);
                      (shape_x s + shape_size s / 2,
                       shape_y s + shape_size s)]%Z
               (Some (shape_color s))]
  | chaos => List.length ops = 5%nat /\ Forall (chaos_line s) ops
  | focused_rings => ops = [ring s 0; ring s 1; ring s 2]
  end.

Definition drawn_shape (c : cues) (width height : Z) (base_color : rgb)
    (s : shape) (ops : list draw_op) : Prop :=
  expected_kind c (shape_kind s) /\
  shape_in_range width height base_color s /\
  renders s ops.

(** ** What the fallback image is *)

Definition fallback_op (op : draw_op) : Prop :=
  exists x y size r g b : Z,
    (0 <= x <= 400)%Z /\ (0 <= y <= 400)%Z /\ (20 <= size <= 80)%Z /\
    (100 <= r <= 200)%Z /\ (100 <= g <= 200)%Z /\ (100 <= b <= 200)%Z /\
    (op = Ellipse (x, y, x + size, y + size)%Z (Some (r, g, b, 150%Z)) None 1
     \/ op = Rectangle (x, y, x + size, y + size)%Z (Some (r, g, b, 150%Z))).

Definition fallback_picture (im : image) : Prop :=
  img_mode im = "RGB" /\ img_size im = (400, 400)%Z /\
  img_fill im = (30, 30, 50)%Z /\
  exists ops,
    img_edits im = map Paint ops /\
    List.length ops = 20%nat /\ Forall fallback_op ops.

(** The fallback image as a function of the random source.  [pick a b n]
    is the integer of [a..b] that [random.randint(a, b)] makes of the raw
    draw [n]; an iteration of the loop reads seven draws, in the order of
    its calls of the [random] module, and paints the shape
    [fallback_shape] of them. *)
Definition pick (a b : Z) (n : nat) : Z :=
  (a + Z.of_nat n mod (b - a + 1))%Z.

Definition fallback_shape (d : nat -> nat) : draw_op :=
  let x := pick 0 400 (d 0%nat) in
  let y := pick 0 400 (d 1%nat) in
  let size := pick 20 80 (d 2%nat) in
  let color : rgba :=
    (pick 100 200 (d 3%nat), pick 100 200 (d 4%nat),
     pick 100 200 (d 5%nat), 150%Z) in
  if Nat.even (d 6%nat)
  then Ellipse (x, y, x + size, y + size)%Z (Some color) None 1
  else Rectangle (x, y, x + size, y + size)%Z (Some color).

(** The shapes of [n] iterations that start at the cursor [c] of the tape
    [t]. *)
Definition fallback_shapes (t : nat -> nat) (c n : nat) : list draw_op :=
  map (fun k => fallback_shape (fun j => t (j + (7 * k + c))%nat))
    (seq 0 n).

Definition fallback_image (t : nat -> nat) (c : nat) : image :=
  mkImage "RGB" (400, 400)%Z (30, 30, 50)%Z
    (map Paint (fallback_shapes t c 20)).

(** Two runs of seven draws that agree modulo the number of values of each
    of the seven choices: 401 positions on each axis, 61 sizes, 101 values
    of each colour channel, 2 kinds of shape. *)
Definition same_residues (d d' : nat -> nat) : Prop :=
  (d 0 mod 401 = d' 0 mod 401 /\ d 1 mod 401 = d' 1 mod 401 /\
   d 2 mod 61 = d' 2 mod 61 /\ d 3 mod 101 = d' 3 mod 101 /\
   d 4 mod 101 = d' 4 mod 101 /\ d 5 mod 101 = d' 5 mod 101 /\
   d 6 mod 2 = d' 6 mod 2)%nat.

(** The copy of an image that [filter] returns. *)
Definition filtered (im : image) (f : image_filter) : image :=
  mkImage (img_mode im) (img_size im) (img_fill im)
    (img_edits im ++ [Pass f])%list.

(** ** A weakest-precondition calculus for drawing code

    [wp r c Q]: from every world in which [r] is an image, [c] returns
    normally, it has appended some drawing calls [ops] to the image [r] and
    nothing else, and [Q] holds of its value and of [ops]. *)

Definition add_paints (i : image) (ops : list draw_op) : image :=
  mkImage (img_mode i) (img_size i) (img_fill i)
    (img_edits i ++ map Paint ops)%list.

Definition wp {A : Type} (r : ref) (c : M A)
    (Q : A -> list draw_op -> Prop) : Prop :=
  forall w i, nth_error (heap w) r = Some i ->
    exists a ops w',
      c w = (Ok a, w') /\
      nth_error (heap w') r = Some (add_paints i ops) /\
      Q a ops.

(** The canvas of [generate_abstract_visualization] as [Image.new] makes
    it. *)
Definition blank_canvas : image := mkImage "RGB" (400, 400)%Z (0, 0, 0)%Z [].

(** ** More of Python: strings, integers, subscripts *)

Definition KeyError : exn := OtherError "KeyError".
Definition IndexError : exn := OtherError "IndexError".
Definition ValueError : exn := OtherError "ValueError".
Definition UnboundLocalError : exn := OtherError "UnboundLocalError".

Module Py.

Definition startswith (s prefix : string) : bool := String.prefix prefix s.

(** [s.find(sub)]: the index of the first occurrence, or -1. *)
Fixpoint find_from (sub s : string) (i : Z) : Z :=
  if prefix sub s then i
  else match s with
       | EmptyString => (-1)%Z
       | String _ s' => find_from sub s' (i + 1)%Z
       end.

Definition find (s sub : string) : Z := find_from sub s 0.

(** [s.rfind(sub)]: the index of the last occurrence, or -1. *)
Fixpoint rfind_from (sub s : string) (i : Z) : Z :=
  let later := match s with
               | EmptyString => (-1)%Z
               | String _ s' => rfind_from sub s' (i + 1)%Z
               end in
  if (0 <=? later)%Z then later
  else if prefix sub s then i else (-1)%Z.

Definition rfind (s sub : string) : Z := rfind_from sub s 0.

(** [s[start:stop]] for bounds that are not negative. *)
Definition slice (s : string) (start stop : Z) : string :=
  substring (Z.to_nat start) (Z.to_nat (stop - start)) s.

(** [s.replace(old, new)] for a non-empty [old]: the occurrences are
    found from the left and do not overlap. *)
Fixpoint replace_scan (old new : string) (skip : nat) (s : string) : string :=
  match s with
  | EmptyString => EmptyString
  | String c s' =>
      match skip with
      | S k => replace_scan old new k s'
      | O =>
          if prefix old s
          then new ++ replace_scan old new (String.length old - 1) s'
          else String c (replace_scan old new 0 s')
      end
  end.

Definition code (c : ascii) : nat := nat_of_ascii c.

(** The characters that [int] skips around a number.  Below 256 these are
    the ASCII white space (tab to carriage return, and the space) and
    U+0085 and U+00A0, which the conversion turns into spaces first.  The
    separators U+001C..U+001F are white space for [str.isspace] but not for
    [int], which refuses them. *)
Definition is_space (c : ascii) : bool :=
  ((9 <=? code c) && (code c <=? 13) || (code c =? 32)
   || (code c =? 133) || (code c =? 160))%nat.

(** The decimal digits below 256, and the characters on which [isdigit]
    holds: the decimal digits and the superscripts 1, 2 and 3. *)
Definition is_decimal (c : ascii) : bool :=
  ((48 <=? code c) && (code c <=? 57))%nat.

Definition is_digit (c : ascii) : bool :=
  (is_decimal c || (code c =? 178) || (code c =? 179) || (code c =? 185))%nat.

Fixpoint all_chars (p : ascii -> bool) (s : string) : bool :=
  match s with
  | EmptyString => true
  | String c s' => p c && all_chars p s'
  end.

(** [s.isdigit()] *)
Definition isdigit (s : string) : bool :=
  match s with
  | EmptyString => false
  | _ => all_chars is_digit s
  end.

(** What is left of [s] without the characters that [int] skips at its
    left end, and at its right end. *)
Fixpoint lstrip (s : string) : string :=
  match s with
  | EmptyString => EmptyString
  | String c s' => if is_space c then lstrip s' else s
  end.

Fixpoint rstrip (s : string) : string :=
  match s with
  | EmptyString => EmptyString
  | String c s' =>
      match rstrip s' with
      | EmptyString => if is_space c then EmptyString else String c EmptyString
      | r => String c r
      end
  end.

(** The digits of an integer literal: decimal digits, with single
    underscores between them. *)
Fixpoint parse_digits (s : string) (acc : Z) (need_digit : bool) : option Z :=
  match s with
  | EmptyString => if need_digit then None else Some acc
  | String c s' =>
      if is_decimal c
      then parse_digits s' (10 * acc + Z.of_nat (code c - 48))%Z false
      else if Ascii.eqb c "_"%char
      then if need_digit then None else parse_digits s' acc true
      else None
  end.

Fixpoint count_chars (p : ascii -> bool) (s : string) : nat :=
  match s with
  | EmptyString => 0
  | String c s' => (if p c then 1 else 0) + count_chars p s'
  end.

(** [int(s)] on a string.  [limit] is the interpreter's bound on the number
    of digits of the conversion ([sys.get_int_max_str_digits()]; 0 when
    there is none). *)
Definition int_of_str (limit : nat) (s : string) : result Z :=
  let t := rstrip (lstrip s) in
  let '(negative, digits) :=
    match t with
    | String "-"%char d => (true, d)
    | String "+"%char d => (false, d)
    | _ => (false, t)
    end in
  match parse_digits digits 0 true with
  | None => Raise ValueError
  | Some v =>
      if ((0 <? limit) && (limit <? count_chars is_decimal digits))%nat
      then Raise ValueError
      else Ok (if negative then (- v)%Z else v)
  end.

End Py.

(** [v[key]] for a string [key]. *)
Definition getitem_key (v : json) (key : string) : result json :=
  match v with
  | JObj fields =>
      match assoc key fields with
      | Some x => Ok x
      | None => Raise KeyError
      end
  | _ => Raise TypeError
  end.

(** [v[i]] for an integer [i]; a negative index counts from the end.  The
    keys of a JSON object are strings, so an integer is never one of
    them. *)
Definition getitem_index (v : json) (i : Z) : result json :=
  match v with
  | JList l =>
      let n := Z.of_nat (List.length l) in
      if ((- n <=? i) && (i <? n))%Z
      then match nth_error l (Z.to_nat (if (i <? 0)%Z then i + n else i)) with
           | Some x => Ok x
           | None => Raise IndexError
           end
      else Raise IndexError
  | JStr s =>
      let n := Z.of_nat (String.length s) in
      if ((- n <=? i) && (i <? n))%Z
      then match String.get (Z.to_nat (if (i <? 0)%Z then i + n else i)) s with
           | Some c => Ok (JStr (String c EmptyString))
           | None => Raise IndexError
           end
      else Raise IndexError
  | JObj _ => Raise KeyError
  | _ => Raise TypeError
  end.

(** [len(v)] *)
Definition py_len (v : json) : result Z :=
  match v with
  | JList l => Ok (Z.of_nat (List.length l))
  | JStr s => Ok (Z.of_nat (String.length s))
  | JObj fields => Ok (Z.of_nat (List.length fields))
  | _ => Raise TypeError
  end.

(** [key in q] for a string [key]: a key of a dict, a substring of a
    string, an element of a list; nothing else can be searched. *)
Definition contains_key (key : string) (q : json) : result bool :=
  match q with
  | JObj fields =>
      Ok (match assoc key fields with Some _ => true | None => false end)
  | JStr s => Ok (Str.contains key s)
  | JList l =>
      Ok (existsb (fun v => match v with
                            | JStr s => String.eqb s key
                            | _ => false
                            end) l)
  | _ => Raise TypeError
  end.

(** [v.items()]: only a dict has the method. *)
Definition dict_items (v : json) : result (list (string * json)) :=
  match v with
  | JObj fields => Ok fields
  | _ => Raise AttributeError
  end.

(** ** The fallback questions and the fallback analysis *)

Definition fallback_analysis_text (area sentiment : string) : string :=
  String.concat ""
    ["
    <h4>Emotional State Summary</h4>
    <p>Based on your responses about your ";
     area;
     ", you're experiencing a ";
     sentiment;
     " period. Your answers suggest you're aware of areas needing attention and have motivation for positive change.</p>

    <h4>Key Blockers</h4>
    <ul>
        <li>Uncertainty about next steps in your ";
     area;
     "</li>
        <li>Difficulty prioritizing needs amidst competing demands</li>
        <li>External pressures influencing your decisions about ";
     area;
     "</li>
    </ul>

    <h4>Emotional Fatigue Signs</h4>
    <p>Your responses suggest some emotional fatigue related to your ";
     area;
     ", which is common when evaluating important life areas. Be mindful of burnout symptoms like decreased motivation or irritability.</p>

    <h4>Growth Suggestions</h4>
    <ul>
        <li>Set small, achievable goals specifically for your ";
     area;
     " to build momentum</li>
        <li>Practice mindfulness to stay connected with your emotions about this area</li>
        <li>Seek support from trusted friends or mentors regarding your ";
     area;
     "</li>
        <li>Celebrate small victories along your journey with ";
     area;
     "</li>
    </ul>
    "].

Section Fallbacks.

Variable py_str : json -> string.

(** The bound of [int] on the digits of a string, see [Py.int_of_str]. *)
Variable int_max_str_digits : nat.

Definition question_entry (question : string) (options : list string)
    : json :=
  JObj [("question", JStr question); ("options", JList (map JStr options))].

Definition get_fallback_questions (life_area : json) : list json :=
  let area := format_value py_str life_area in
  [question_entry
     ("How satisfied are you with your " ++ area ++ " currently?")
     ["Very dissatisfied"; "Somewhat dissatisfied"; "Neutral";
      "Somewhat satisfied"; "Very satisfied"];
   question_entry
     ("What emotions arise when you think about your " ++ area ++ "?")
     ["Mostly negative"; "More negative than positive"; "Mixed emotions";
      "More positive than negative"; "Mostly positive"];
   question_entry
     ("How supported do you feel in improving your " ++ area ++ "?")
     ["Not supported at all"; "Minimally supported"; "Somewhat supported";
      "Well supported"; "Extremely supported"];
   question_entry
     ("What would you like to change about your " ++ area ++ "?")
     ["Everything needs change"; "Many aspects need change";
      "Some aspects need change"; "A few things need change";
      "Very little needs change"];
   question_entry
     ("How does your " ++ area ++ " affect your overall wellbeing?")
     ["Extremely negatively"; "Somewhat negatively";
      "No significant effect"; "Somewhat positively";
      "Extremely positively"]].

(** [value['answer'].isdigit() and int(value['answer']) >= 4] *)
Definition positive_answer (value : json) : result bool :=
  rbind (getitem_key value "answer") (fun answer =>
  match answer with
  | JStr s =>
      if Py.isdigit s
      then rbind (Py.int_of_str int_max_str_digits s)
             (fun n => Ok (4 <=? n)%Z)
      else Ok false
  | _ => Raise AttributeError
  end).

(** The loop of [get_fallback_analysis] over [responses.items()], on the
    pair of [positive_count] and [total_answers]. *)
Fixpoint count_answers (items : list (string * json))
    (positive_count total_answers : Z) : result (Z * Z) :=
  match items with
  | [] => Ok (positive_count, total_answers)
  | (key, value) :: rest =>
      if Py.startswith key "question"
      then
        let total_answers := (total_answers + 1)%Z in
        rbind (positive_answer value) (fun p =>
        count_answers rest
          (if p then positive_count + 1 else positive_count)%Z
          total_answers)
      else count_answers rest positive_count total_answers
  end.

Definition sentiment_of (positive_count total_answers : Z) : string :=
  let positivity_ratio :=
    if (0 <? total_answers)%Z
    then inject_Z positive_count / inject_Z total_answers
    else 5 # 10 in
  if Qgtb positivity_ratio (7 # 10) then "generally positive"
  else if Qgtb positivity_ratio (4 # 10) then "mixed"
  else "generally challenging".

Definition get_fallback_analysis (life_area responses questions_data : json)
    : result string :=
  rbind (dict_items responses) (fun items =>
  rbind (count_answers items 0 0) (fun '(positive_count, total_answers) =>
  Ok (fallback_analysis_text (format_value py_str life_area)
        (sentiment_of positive_count total_answers)))).

End Fallbacks.

(** ** The questions and the analysis: parsing and the two handlers *)

(** What [requests.post] returns: the status and the outcome of
    [response.json()]. *)
Record http_response : Type := mkHttpResponse {
  status_code : Z;
  response_json : result json
}.

Definition newline : string := String "010"%char EmptyString.

Section TextService.

Variable py_str : json -> string.
Variable int_max_str_digits : nat.

(** [re.sub(r'```json\s*|\s*```', '', s)] and [json.loads(s)], of the
    libraries [re] and [json]. *)
Variable re_sub_fences : string -> string.
Variable json_loads : string -> result json.

(** [os.environ.get('GEMINI_API_KEY')], read when the module is loaded. *)
Variable gemini_api_key : option string.

(** The outcome of [requests.post(GEMINI_API_URL, headers=headers,
    json=prompt)] for the prompt of the questions, built from the life
    area, and for the prompt of the analysis, built from the life area and
    the text of the questions and answers. *)
Variable post_questions_prompt : json -> result http_response.
Variable post_analysis_prompt : json -> string -> result http_response.

(** [not GEMINI_API_KEY] *)
Definition no_api_key : bool :=
  match gemini_api_key with
  | None => true
  | Some k => String.eqb k ""
  end.

(** [all('question' in q and 'options' in q for q in questions_data)] *)
Fixpoint all_have_keys (questions_data : list json) : result bool :=
  match questions_data with
  | [] => Ok true
  | q :: rest =>
      rbind (contains_key "question" q) (fun has_question =>
      if has_question
      then rbind (contains_key "options" q) (fun has_options =>
           if has_options then all_have_keys rest else Ok false)
      else Ok false)
  end.

(** The [try] block of [parse_questions_with_options]: [Some] is its
    [return], [None] is falling out of it. *)
Definition parse_questions_try (text : json) : result (option (list json)) :=
  match text with
  | JStr t =>
      let start := Py.find t "[" in
      let stop := (Py.rfind t "]" + 1)%Z in
      if negb (start =? -1)%Z && negb (stop =? -1)%Z
      then
        let json_str := Py.slice t start stop in
        let json_str := re_sub_fences json_str in
        rbind (json_loads json_str) (fun questions_data =>
        match questions_data with
        | JList l =>
            if (5 <=? List.length l)%nat
            then rbind (all_have_keys l) (fun valid =>
                 if valid then Ok (Some (firstn 5 l)) else Ok None)
            else Ok None
        | _ => Ok None
        end)
      else Ok None
  | _ => Raise AttributeError
  end.

Definition parse_questions_with_options (text : json) : list json :=
  match parse_questions_try text with
  | Ok (Some questions) => questions
  | Ok None | Raise _ =>
      get_fallback_questions py_str (JStr "selected area")
  end.

(** [response_data['candidates'][0]['content']['parts'][0]['text']] *)
Definition reply_text (response_data : json) : result json :=
  rbind (getitem_key response_data "candidates") (fun v =>
  rbind (getitem_index v 0) (fun v =>
  rbind (getitem_key v "content") (fun v =>
  rbind (getitem_key v "parts") (fun v =>
  rbind (getitem_index v 0) (fun v =>
  getitem_key v "text"))))).

(** The part of a [try] block after the request: the text of the reply
    when the status is 200, an exception otherwise. *)
Definition reply_of (response : http_response) : result json :=
  if (status_code response =? 200)%Z
  then rbind (response_json response) reply_text
  else Raise (OtherError ("API error: " ++ py_str (JNum (status_code response)))).

Definition jsonify (key : string) (v : json) : json := JObj [(key, v)].

(** [generate_questions]; [body] is the outcome of [request.get_json()].
    [life_area] is bound inside the [try] block: when the block raises
    before, the [except] block finds it unbound. *)
Definition generate_questions (body : result json) : result json :=
  match rbind body (fun data =>
          dict_get data "lifeArea" (JStr "general life")) with
  | Raise _ => Raise UnboundLocalError
  | Ok life_area =>
      let attempt :=
        if no_api_key
        then Ok (jsonify "questions"
                   (JList (get_fallback_questions py_str life_area)))
        else
          rbind (post_questions_prompt life_area) (fun response =>
          rbind (reply_of response) (fun questions_text =>
          let questions_data := parse_questions_with_options questions_text in
          Ok (jsonify "questions" (JList questions_data))))
      in
      match attempt with
      | Ok r => Ok r
      | Raise _ =>
          Ok (jsonify "questions"
                (JList (get_fallback_questions py_str life_area)))
      end
  end.

(** The loop of [generate_analysis] that writes the questions and the
    answers into [response_text]. *)
Fixpoint format_responses (items : list (string * json))
    (questions_data : json) (response_text : string) : result string :=
  match items with
  | [] => Ok response_text
  | (key, value) :: rest =>
      if Py.startswith key "question"
      then
        rbind (Py.int_of_str int_max_str_digits
                 (Py.replace_scan "question" "" 0 key)) (fun q_index =>
        rbind (py_len questions_data) (fun n =>
        if (q_index <? n)%Z
        then
          rbind (getitem_index questions_data q_index) (fun q =>
          rbind (getitem_key q "question") (fun question_text =>
          rbind (getitem_key value "answer") (fun answer =>
          format_responses rest questions_data
            (response_text ++ "Q: " ++ format_value py_str question_text
             ++ newline ++ "A: " ++ format_value py_str answer
             ++ newline ++ newline))))
        else format_responses rest questions_data response_text))
      else format_responses rest questions_data response_text
  end.

(** The three names that the [try] block of [generate_analysis] binds
    first. *)
Definition analysis_arguments (body : result json)
    : result (json * json * json) :=
  rbind body (fun data =>
  rbind (dict_get data "lifeArea" (JStr "general life")) (fun life_area =>
  rbind (dict_get data "responses" (JObj [])) (fun responses =>
  rbind (dict_get data "questionsData" (JList [])) (fun questions_data =>
  Ok (life_area, responses, questions_data))))).

Definition generate_analysis (body : result json) : result json :=
  match analysis_arguments body with
  | Raise _ => Raise UnboundLocalError
  | Ok (life_area, responses, questions_data) =>
      let fallback :=
        rbind (get_fallback_analysis py_str int_max_str_digits
                 life_area responses questions_data) (fun text =>
        Ok (jsonify "analysis" (JStr text))) in
      let attempt :=
        if no_api_key then fallback
        else
          rbind (dict_items responses) (fun items =>
          rbind (format_responses items questions_data
                   ("QUESTIONS AND ANSWERS:" ++ newline ++ newline))
            (fun response_text =>
          rbind (post_analysis_prompt life_area response_text)
            (fun response =>
          rbind (reply_of response) (fun analysis =>
          Ok (jsonify "analysis" analysis)))))
      in
      match attempt with
      | Ok r => Ok r
      | Raise _ => fallback
      end
  end.

End TextService.

(** ** Descriptions used by the further properties *)

Definition in_unit (c : cues) : Prop :=
  (0 <= positive c <= 1) /\ (0 <= negative c <= 1) /\
  (0 <= energetic c <= 1) /\ (0 <= calm c <= 1) /\
  (0 <= chaotic c <= 1) /\ (0 <= focused c <= 1).

(** The plain sum of the counts of the terms, without the test
    [if term in text]. *)
Definition sum_counts (text : string) (terms : list string) (acc : Z) : Z :=
  fold_left (fun acc term => (acc + Z.of_nat (Str.count text term))%Z)
    terms acc.

(** A filled ellipse, rectangle or triangle on the square of side 10..100
    at a position of the canvas. *)
Definition trio_op (width height : Z) (op : draw_op) : Prop :=
  exists x y size color,
    (0 <= x <= width)%Z /\ (0 <= y <= height)%Z /\ (10 <= size <= 100)%Z /\
    (op = Ellipse (x, y, x + size, y + size)%Z (Some color) None 1 \/
     op = Rectangle (x, y, x + size, y + size)%Z (Some color) \/
     op = Polygon [(x, y); (x + size, y); (x + size / 2, y + size)]%Z
            (Some color)).

(** The image of the main pipeline for a text: the black canvas with
    between 10 and 50 filled shapes. *)
Definition text_picture (im : image) : Prop :=
  img_mode im = "RGB" /\ img_size im = (400, 400)%Z /\
  img_fill im = (0, 0, 0)%Z /\
  exists ops,
    img_edits im = map Paint ops /\
    (10 <= List.length ops <= 50)%nat /\ Forall (trio_op 400 400) ops.

(** The requests that the [try] block of [generate_emotion_image] accepts:
    a JSON object whose [analysis], when present, is a string. *)
Definition well_formed_request (body : result json) : Prop :=
  exists fields,
    body = Ok (JObj fields) /\
    (assoc "analysis" fields = None \/
     exists s, assoc "analysis" fields = Some (JStr s)).

(** The text and the life area that a well-formed request carries, with
    the defaults of [data.get]. *)
Definition request_analysis (fields : list (string * json)) : json :=
  match assoc "analysis" fields with Some v => v | None => JStr "" end.

Definition request_life_area (fields : list (string * json)) : json :=
  match assoc "lifeArea" fields with
  | Some v => v
  | None => JStr "general life"
  end.

(** An entry that passes the two membership tests of the validation of
    [parse_questions_with_options]. *)
Definition has_both_keys (q : json) : Prop :=
  contains_key "question" q = Ok true /\ contains_key "options" q = Ok true.

(** The entries of [responses] under a key that starts with ["question"],
    and the test that such an entry is counted as positive. *)
Definition question_items (items : list (string * json))
    : list (string * json) :=
  List.filter (fun kv => Py.startswith (fst kv) "question") items.

Definition answered_high (limit : nat) (kv : string * json) : bool :=
  match positive_answer limit (snd kv) with
  | Ok true => true
  | _ => false
  end.

(** The sentiment by the counts, in integers. *)
Definition sentiment_by_counts (positive_count total_answers : Z) : string :=
  if (total_answers =? 0)%Z then "mixed"
  else if (7 * total_answers <? 10 * positive_count)%Z
  then "generally positive"
  else if (4 * total_answers <? 10 * positive_count)%Z then "mixed"
  else "generally challenging".

(** The arguments that a JSON-object request gives to the analysis, with
    the defaults of [data.get]. *)
Definition request_responses (fields : list (string * json)) : json :=
  match assoc "responses" fields with Some v => v | None => JObj [] end.

Definition request_questions (fields : list (string * json)) : json :=
  match assoc "questionsData" fields with
  | Some v => v
  | None => JList []
  end.

(** A filled ellipse, rectangle or triangle of the canvas whose colour is
    within 50 of black. *)
Definition dark_op (op : draw_op) : Prop :=
  exists x y size r g b a,
    (0 <= x <= 400)%Z /\ (0 <= y <= 400)%Z /\ (10 <= size <= 100)%Z /\
    (0 <= r <= 50)%Z /\ (0 <= g <= 50)%Z /\ (0 <= b <= 50)%Z /\
    (100 <= a <= 200)%Z /\
    (op = Ellipse (x, y, x + size, y + size)%Z (Some (r, g, b, a)) None 1 \/
     op = Rectangle (x, y, x + size, y + size)%Z (Some (r, g, b, a)) \/
     op = Polygon [(x, y); (x + size, y); (x + size / 2, y + size)]%Z
            (Some (r, g, b, a))).

(** ** Inputs of the concrete runs *)

Definition tape0 : nat -> nat := fun n => (7 * n + 3)%nat.
Definition world0 : world := mkWorld tape0 0 [].
Definition png0 : image -> string := fun _ => "PNG".
Definition b640 : string -> string := fun s => s.
Definition str0 : json -> string := fun _ => "None".

(** A request whose [analysis] is a number: [analysis.lower()] raises. *)
Definition bad_request : result json :=
  Ok (JObj [("analysis", JNum 3); ("lifeArea", JStr "work")]).

(** Stand-ins for the libraries and the API in the runs of the text
    service. *)
Definition sub0 : string -> string := fun s => s.

Definition entry0 : json := question_entry "How are you?" ["Fine"; "So-so"].

(** A parser that returns six entries, the last one without options. *)
Definition six_entries : list json :=
  [entry0; entry0; entry0; entry0; entry0;
   JObj [("question", JStr "And now?")]].

Definition loads_six : string -> result json :=
  fun _ => Ok (JList six_entries).

Definition post_down : json -> result http_response :=
  fun _ => Raise (OtherError "ConnectionError").

Definition post_analysis_down : json -> string -> result http_response :=
  fun _ _ => Raise (OtherError "ConnectionError").

(** A reply of the API with one candidate of one part. *)
Definition api_reply (text : string) : json :=
  JObj [("candidates",
         JList [JObj [("content",
                       JObj [("parts",
                              JList [JObj [("text", JStr text)]])])]])].

Definition post_analysis_up : json -> string -> result http_response :=
  fun _ _ => Ok (mkHttpResponse 200 (Ok (api_reply "All is well."))).

(** A question key with the separator U+001C before its number. *)
Definition separator_key : string :=
  "question" ++ String "028"%char "1".

Definition analysis_request (key : string) : result json :=
  Ok (JObj [("responses", JObj [(key, JObj [("answer", JStr "4")])]);
            ("questionsData", JList [entry0; entry0])]).

(** The superscript two, on which [isdigit] holds. *)
Definition superscript_two : string := String "178"%char EmptyString.

(** Three answers, two of them of 4 or more: 2/3 is above 0.4 and not
    above 0.7. *)
Definition three_answers : list (string * json) :=
  [("question0", JObj [("answer", JStr "5")]);
   ("note", JStr "not an answer");
   ("question1", JObj [("answer", JStr "2")]);
   ("question2", JObj [("answer", JStr "4")])].

(** * Properties *)

(** ** First runs *)

Example count_no_overlap : Str.count "aaaaa" "aa" = 2%nat.
Proof. reflexivity. Qed.

Example count_in_longer_word :
  Str.count "stress and difficulty." "difficult" = 1%nat.
Proof. reflexivity. Qed.

Example lower_example : Str.lower "You SHOW Good" = "you show good".
Proof. reflexivity. Qed.

Example recase_example :
  Str.recase [true; false; true; true] "Good day" = "goOD day".
Proof. reflexivity. Qed.

Example int_truncates : int (- (7 # 2)) = (-3)%Z /\ int (7 # 2) = 3%Z.
Proof. split; reflexivity. Qed.

Example extract_example :
  extract_emotional_cues example_text
  = Ok (mkCues (Double.div 3 6) (Double.div 2 6) (Double.div 1 6)
          (Double.div 0 6) (Double.div 0 6) (Double.div 0 6)).
Proof. vm_compute. reflexivity. Qed.

(** The doubles nearest to 1/3 and to the literal [0.4]: the first lies
    below the rational, the second above it. *)
Example round_examples :
  Double.round (1 # 3) = 6004799503160661 # 18014398509481984 /\
  Double.literal (4 # 10) = 3602879701896397 # 9007199254740992 /\
  Double.round (1 # 3) < 1 # 3 /\ 4 # 10 < Double.literal (4 # 10).
Proof. repeat split. Qed.

(** Ties go to the even neighbour, and the smallest doubles are the
    multiples of 2^-1074. *)
Example round_ties :
  Double.round (inject_Z (2 ^ 53 + 1)) == inject_Z (2 ^ 53) /\
  Double.round (inject_Z (2 ^ 53 + 3)) == inject_Z (2 ^ 53 + 4) /\
  Double.round (Double.pow2 (-1075)) == 0 /\
  Double.round (3 * Double.pow2 (-1075)) == Double.pow2 (-1073).
Proof. repeat split; vm_compute; reflexivity. Qed.

(** Rounding shows in the results.  The shares of [seventh_text] are the
    doubles nearest to 1/7, 2/7 and 4/7, and the green channel of its base
    colour is 101, where the exact sevenths give 102.  An energetic value
    just below 0.025 gives 11 iterations of the drawing loop, where exact
    arithmetic gives 10.  The machine agrees in both cases. *)
Example seventh_text_color :
  extract_emotional_cues seventh_text = Ok seventh_cues /\
  calculate_base_color seventh_cues = (36, 101, 218)%Z /\
  int (255 * ((4 # 5) * (1 # 7) + (1 # 2) * (4 # 7))) = 102%Z /\
  Binary64.calculate_base_color (Binary64.extract_emotional_cues seventh_text)
  = Some (36, 101, 218)%Z.
Proof. repeat split; vm_compute; reflexivity. Qed.

Example num_shapes_rounds :
  Binary64.denotes Binary64.below_fortieth below_fortieth = true /\
  num_shapes (mkCues 0 0 below_fortieth 0 0 0) = 11%Z /\
  Qfloor (10 + 40 * below_fortieth) = 10%Z /\
  Binary64.num_shapes Binary64.below_fortieth_cues = Some 11%Z.
Proof. repeat split; vm_compute; reflexivity. Qed.

(** The comparisons are with the doubles of the literals: a chaotic value
    of [0.4] is above 4/10 and not above the literal [0.4]. *)
Example threshold_at_literal :
  4 # 10 < Double.literal (4 # 10) /\
  Qgtb (Double.literal (4 # 10)) (Double.literal (4 # 10)) = false /\
  Qgtb (Double.literal (3 # 10)) (Double.literal (3 # 10)) = false.
Proof. repeat split; vm_compute; reflexivity. Qed.

(** [Double] against the doubles of the machine: the quotients of all
    integers below 32, and products and sums of them with the constants of
    the program, come out the same. *)
Lemma double_div_agrees : Binary64.div_agrees 32 = true.
Proof. vm_compute. reflexivity. Qed.

Lemma double_mul_add_agree : Binary64.mul_add_agree 32 = true.
Proof. vm_compute. reflexivity. Qed.

(** A failing request is answered, with the fallback description. *)
Example bad_request_description :
  match fst (generate_emotion_image png0 b640 str0 bad_request world0) with
  | Ok r => description r = fallback_description
  | Raise _ => False
  end.
Proof. vm_compute. reflexivity. Qed.

(** A well-formed request gets the description of its life area. *)
Example good_request_description :
  match fst (generate_emotion_image png0 b640 str0
               (Ok (JObj [("analysis", JStr example_text);
                          ("lifeArea", JStr "work")])) world0) with
  | Ok r =>
      description r
      = "Abstract visualization of your emotional state regarding work"
  | Raise _ => False
  end.
Proof. vm_compute. reflexivity. Qed.

(** In doubles the six values of the example do not sum to 1.0 exactly:
    the sum is the double just below it. *)
Example binary64_sum_example :
  Binary64.sum_values (Binary64.extract_emotional_cues example_text)
  = Binary64.below_one.
Proof. vm_compute. reflexivity. Qed.

(** For all counts below 32 in each scanned category, the doubles sum to
    1.0 within one unit in the last place. *)
Lemma binary64_sums_close :
  Binary64.sums_close Binary64.ulp_one 32 = true.
Proof. vm_compute. reflexivity. Qed.

(** ** Strings *)



(** ** Rounding to the nearest double *)

Lemma pow2_pos (e : Z) : 0 < Double.pow2 e.
Proof. apply Qpower_0_lt. reflexivity. Qed.

Lemma pow2_add (a b : Z) :
  Double.pow2 (a + b) == Double.pow2 a * Double.pow2 b.
Proof. apply Qpower_plus. discriminate. Qed.

Lemma pow2_le (a b : Z) : (a <= b)%Z -> Double.pow2 a <= Double.pow2 b.
Proof. intros H. apply Qpower_le_compat_l; [exact H|discriminate]. Qed.

Lemma pow2_lt_inv (a b : Z) : Double.pow2 a < Double.pow2 b -> (a < b)%Z.
Proof. intros H. apply (Qpower_lt_compat_l_inv 2); [exact H|reflexivity]. Qed.

Lemma pow2_Z (e : Z) : (0 <= e)%Z -> Double.pow2 e == inject_Z (2 ^ e).
Proof. intros H. unfold Double.pow2. now rewrite Zpower_Qpower. Qed.

Lemma pow2_succ (a : Z) : Double.pow2 (a + 1) == 2 * Double.pow2 a.
Proof. rewrite pow2_add. change (Double.pow2 1) with 2. ring. Qed.

(** [ilog2 x] is the exponent of [x]. *)
Lemma ilog2_spec (x : Q) :
  0 < x ->
  Double.pow2 (Double.ilog2 x) <= x /\ x < Double.pow2 (Double.ilog2 x + 1).
Proof.
  intros Hx. destruct x as [n d]. unfold Double.ilog2. cbn [Qnum Qden].
  assert (Hn : (0 < n)%Z) by (unfold Qlt in Hx; simpl in Hx; lia).
  pose proof (Z.log2_spec n Hn) as [Hn1 Hn2].
  pose proof (Z.log2_spec (Zpos d) eq_refl) as [Hd1 Hd2].
  pose proof (Z.log2_nonneg n) as Hln.
  pose proof (Z.log2_nonneg (Zpos d)) as Hld.
  set (ln := Z.log2 n) in *. set (ld := Z.log2 (Zpos d)) in *.
  assert (Ex : n # d == inject_Z n / inject_Z (Zpos d)) by apply Qmake_Qdiv.
  assert (Hdpos : 0 < inject_Z (Zpos d)) by reflexivity.
  assert (Qn1 : Double.pow2 ln <= inject_Z n)
    by (rewrite pow2_Z by lia; now rewrite <- Zle_Qle).
  assert (Qn2 : inject_Z n < Double.pow2 (ln + 1))
    by (rewrite pow2_Z by lia; now rewrite <- Zlt_Qlt).
  assert (Qd1 : Double.pow2 ld <= inject_Z (Zpos d))
    by (rewrite pow2_Z by lia; now rewrite <- Zle_Qle).
  assert (Qd2 : inject_Z (Zpos d) < Double.pow2 (ld + 1))
    by (rewrite pow2_Z by lia; now rewrite <- Zlt_Qlt).
  pose proof (pow2_pos ln) as Pn. pose proof (pow2_pos ld) as Pd.
  pose proof (pow2_pos (ln - ld)) as Pe.
  assert (Eln : Double.pow2 ln == Double.pow2 (ln - ld) * Double.pow2 ld)
    by (rewrite <- pow2_add; now replace (ln - ld + ld)%Z with ln by lia).
  rewrite pow2_succ in Qn2, Qd2.
  destruct (Qle_bool (Double.pow2 (ln - ld)) (n # d)) eqn:E.
  - apply Qle_bool_iff in E. split; [exact E|].
    rewrite pow2_succ, Ex.
    apply Qlt_shift_div_r; [exact Hdpos|]. nra.
  - assert (Hlt : n # d < Double.pow2 (ln - ld)).
    { apply Qnot_le_lt. intros H. apply Qle_bool_iff in H. congruence. }
    replace (ln - ld - 1 + 1)%Z with (ln - ld)%Z by lia.
    split; [|exact Hlt].
    assert (E1 : Double.pow2 (ln - ld) == 2 * Double.pow2 (ln - ld - 1)).
    { rewrite <- pow2_succ.
      now replace (ln - ld - 1 + 1)%Z with (ln - ld)%Z by lia. }
    pose proof (pow2_pos (ln - ld - 1)) as Pe1.
    rewrite Ex. apply Qle_shift_div_l; [exact Hdpos|]. nra.
Qed.

Lemma ilog2_le (x : Q) (k : Z) :
  0 < x -> x < Double.pow2 (k + 1) -> (Double.ilog2 x <= k)%Z.
Proof.
  intros Hx Hk. destruct (ilog2_spec x Hx) as [H1 _].
  assert (H : (Double.ilog2 x < k + 1)%Z); [|lia].
  apply pow2_lt_inv. lra.
Qed.

Lemma ilog2_ge (x : Q) (k : Z) :
  Double.pow2 k <= x -> (k <= Double.ilog2 x)%Z.
Proof.
  intros Hk. pose proof (pow2_pos k) as Pk.
  destruct (ilog2_spec x ltac:(lra)) as [_ H2].
  assert (H : (k < Double.ilog2 x + 1)%Z); [|lia].
  apply pow2_lt_inv. lra.
Qed.

Lemma rne_cases (y : Q) :
  let f := Qfloor y in
  (Double.rne y = f /\ y - inject_Z f <= 1 # 2) \/
  (Double.rne y = (f + 1)%Z /\ 1 # 2 <= y - inject_Z f).
Proof.
  intros f. unfold Double.rne. fold f.
  destruct (Qcompare (y - inject_Z f) (1 # 2)) eqn:E.
  - apply Qeq_alt in E. destruct (Z.even f); [left|right]; split; trivial; lra.
  - apply Qlt_alt in E. left. split; [reflexivity|lra].
  - apply Qgt_alt in E. right. split; [reflexivity|lra].
Qed.

(** The nearest integer is at most one half away. *)
Lemma rne_error (y : Q) : Qabs (inject_Z (Double.rne y) - y) <= 1 # 2.
Proof.
  pose proof (Qfloor_le y) as H1. pose proof (Qlt_floor y) as H2.
  rewrite inject_Z_plus in H2. change (inject_Z 1) with 1 in H2.
  apply Qabs_Qle_condition.
  destruct (rne_cases y) as [[-> H]|[-> H]];
    rewrite ?inject_Z_plus; change (inject_Z 1) with 1; split; lra.
Qed.

Lemma rne_le (y : Q) (N : Z) : y <= inject_Z N -> (Double.rne y <= N)%Z.
Proof.
  intros H. pose proof (Qfloor_le y) as H1.
  pose proof (Qfloor_resp_le _ _ H) as H3. rewrite Qfloor_Z in H3.
  destruct (rne_cases y) as [[-> _]|[-> Hr]]; [exact H3|].
  destruct (Z.eq_dec (Qfloor y) N) as [E|E]; [|lia].
  exfalso. rewrite E in Hr. lra.
Qed.

Lemma rne_ge (y : Q) (N : Z) : inject_Z N <= y -> (N <= Double.rne y)%Z.
Proof.
  intros H. pose proof (Qfloor_resp_le _ _ H) as H3. rewrite Qfloor_Z in H3.
  destruct (rne_cases y) as [[-> _]|[-> _]]; lia.
Qed.

Lemma rne_proper (y y' : Q) : y == y' -> Double.rne y = Double.rne y'.
Proof.
  intros E. unfold Double.rne. rewrite (Qfloor_comp _ _ E).
  assert (E2 : y - inject_Z (Qfloor y') == y' - inject_Z (Qfloor y'))
    by now rewrite E.
  now rewrite (Qcompare_comp _ _ E2 (1 # 2) (1 # 2) (Qeq_refl _)).
Qed.

(** Equal numbers have the same double, whatever fraction writes them. *)
Lemma round_proper (x y : Q) : x == y -> Double.round x = Double.round y.
Proof. intros H. unfold Double.round. now rewrite (Qred_complete _ _ H). Qed.

Lemma round_zero (x : Q) : x == 0 -> Double.round x = 0.
Proof. intros H. now rewrite (round_proper _ _ H). Qed.

(** The double of a number that is not zero: an integer of units in the
    last place. *)
Lemma round_value (x : Q) :
  ~ x == 0 ->
  exists q m,
    q = Double.exponent (Qred x) /\ m = Double.rne (x / Double.pow2 q) /\
    Double.round x == inject_Z m * Double.pow2 q.
Proof.
  intros Hx. unfold Double.round. cbv zeta.
  destruct (Qeq_bool (Qred x) 0) eqn:E.
  - apply Qeq_bool_iff in E. rewrite Qred_correct in E. contradiction.
  - eexists _, _. split; [reflexivity|]. split; [reflexivity|].
    etransitivity; [apply Qred_correct|].
    rewrite (rne_proper (Qred x / Double.pow2 (Double.exponent (Qred x)))
               (x / Double.pow2 (Double.exponent (Qred x)))); [reflexivity|].
    apply Qdiv_comp; [apply Qred_correct|reflexivity].
Qed.

(** The rounding error is at most half a unit in the last place. *)
Lemma round_error_ulp (x : Q) :
  ~ x == 0 ->
  Qabs (Double.round x - x)
  <= (1 # 2) * Double.pow2 (Double.exponent (Qred x)).
Proof.
  intros Hx. destruct (round_value x Hx) as (q & m & Eq & Em & E).
  rewrite <- Eq. pose proof (pow2_pos q) as Hq.
  pose proof (rne_error (x / Double.pow2 q)) as Hr. rewrite <- Em in Hr.
  apply Qabs_Qle_condition in Hr. destruct Hr as [Hr1 Hr2].
  assert (Ex : x == (x / Double.pow2 q) * Double.pow2 q) by (field; lra).
  set (y := x / Double.pow2 q) in *.
  apply Qabs_Qle_condition. rewrite E. split; nra.
Qed.

Lemma Qabs_Qred (x : Q) : Qabs (Qred x) == Qabs x.
Proof. apply Qabs_wd. apply Qred_correct. Qed.

Lemma Qabs_pos_lt (x : Q) : ~ x == 0 -> 0 < Qabs x.
Proof.
  intros H. apply Qabs_case; intros Hx.
  - destruct (Qlt_le_dec 0 x); [assumption|]. exfalso. apply H. lra.
  - destruct (Qlt_le_dec x 0); [lra|]. exfalso. apply H. lra.
Qed.

Lemma exponent_le (x : Q) (k : Z) :
  ~ x == 0 -> Qabs x < Double.pow2 (k + 1) -> (-1022 <= k)%Z ->
  (Double.exponent (Qred x) <= k - 52)%Z.
Proof.
  intros Hx Hk Hmin. unfold Double.exponent.
  assert (H : (Double.ilog2 (Qabs (Qred x)) <= k)%Z); [|lia].
  apply ilog2_le; rewrite Qabs_Qred; [now apply Qabs_pos_lt|exact Hk].
Qed.

(** The rounding error of a number below [2^(k+1)] is at most
    [2^(k-53)]. *)
Lemma round_error (x : Q) (k : Z) :
  Qabs x < Double.pow2 (k + 1) -> (-1022 <= k)%Z ->
  Qabs (Double.round x - x) <= Double.pow2 (k - 53).
Proof.
  intros Hk Hmin. destruct (Qeq_dec x 0) as [E|Hx].
  - rewrite (round_zero x E), E. pose proof (pow2_pos (k - 53)).
    apply Qabs_Qle_condition. split; lra.
  - eapply Qle_trans; [now apply round_error_ulp|].
    pose proof (exponent_le x k Hx Hk Hmin) as He.
    pose proof (pow2_le _ _ He) as Hp.
    assert (E : Double.pow2 (k - 52) == 2 * Double.pow2 (k - 53)).
    { rewrite <- pow2_succ.
      now replace (k - 53 + 1)%Z with (k - 52)%Z by lia. }
    lra.
Qed.

Lemma round_near (x : Q) (k : Z) :
  (-1022 <= k)%Z -> - Double.pow2 (k + 1) < x < Double.pow2 (k + 1) ->
  x - Double.pow2 (k - 53) <= Double.round x <= x + Double.pow2 (k - 53).
Proof.
  intros Hk Hx.
  assert (Ha : Qabs x < Double.pow2 (k + 1))
    by (apply Qabs_Qlt_condition; exact Hx).
  pose proof (round_error x k Ha Hk) as H.
  apply Qabs_Qle_condition in H. lra.
Qed.

(** The error bounds of the magnitudes that occur in the program. *)
Lemma round_near_1 (x : Q) :
  -1 < x < 1 ->
  x - (1 # 18014398509481984) <= Double.round x
  <= x + (1 # 18014398509481984).
Proof. intros H. exact (round_near x (-1) ltac:(lia) H). Qed.

Lemma round_near_2 (x : Q) :
  -2 < x < 2 ->
  x - (1 # 9007199254740992) <= Double.round x <= x + (1 # 9007199254740992).
Proof. intros H. exact (round_near x 0 ltac:(lia) H). Qed.

Lemma round_near_64 (x : Q) :
  -64 < x < 64 ->
  x - (1 # 281474976710656) <= Double.round x <= x + (1 # 281474976710656).
Proof. intros H. exact (round_near x 5 ltac:(lia) H). Qed.

Lemma round_near_512 (x : Q) :
  -512 < x < 512 ->
  x - (1 # 35184372088832) <= Double.round x <= x + (1 # 35184372088832).
Proof. intros H. exact (round_near x 8 ltac:(lia) H). Qed.

(** A bound that is itself a multiple of the unit in the last place of [x]
    is kept by the rounding. *)
Lemma round_le_grid (x : Q) (N j : Z) :
  ~ x == 0 -> (Double.exponent (Qred x) <= j)%Z ->
  x <= inject_Z N * Double.pow2 j ->
  Double.round x <= inject_Z N * Double.pow2 j.
Proof.
  intros Hx Hj Hb. destruct (round_value x Hx) as (q & m & Eq & Em & E).
  rewrite <- Eq in Hj. pose proof (pow2_pos q) as Hq.
  assert (Ej : Double.pow2 j == inject_Z (2 ^ (j - q)) * Double.pow2 q).
  { rewrite <- pow2_Z by lia. rewrite <- pow2_add.
    now replace (j - q + q)%Z with j by lia. }
  assert (Hm : (m <= N * 2 ^ (j - q))%Z).
  { rewrite Em. apply rne_le. rewrite inject_Z_mult.
    apply Qle_shift_div_r; [exact Hq|]. rewrite Ej in Hb. lra. }
  rewrite E, Ej, Qmult_assoc. rewrite Zle_Qle, inject_Z_mult in Hm.
  apply Qmult_le_compat_r; [exact Hm|lra].
Qed.

Lemma round_ge_grid (x : Q) (N j : Z) :
  ~ x == 0 -> (Double.exponent (Qred x) <= j)%Z ->
  inject_Z N * Double.pow2 j <= x ->
  inject_Z N * Double.pow2 j <= Double.round x.
Proof.
  intros Hx Hj Hb. destruct (round_value x Hx) as (q & m & Eq & Em & E).
  rewrite <- Eq in Hj. pose proof (pow2_pos q) as Hq.
  assert (Ej : Double.pow2 j == inject_Z (2 ^ (j - q)) * Double.pow2 q).
  { rewrite <- pow2_Z by lia. rewrite <- pow2_add.
    now replace (j - q + q)%Z with j by lia. }
  assert (Hm : (N * 2 ^ (j - q) <= m)%Z).
  { rewrite Em. apply rne_ge. rewrite inject_Z_mult.
    apply Qle_shift_div_l; [exact Hq|]. rewrite Ej in Hb. lra. }
  rewrite E, Ej, Qmult_assoc. rewrite Zle_Qle, inject_Z_mult in Hm.
  apply Qmult_le_compat_r; [exact Hm|lra].
Qed.

(** Below [2^53] every integer is a double: an integer bound is kept. *)
Lemma round_le_Z (x : Q) (B : Z) :
  - Double.pow2 53 < x < Double.pow2 53 -> x <= inject_Z B ->
  Double.round x <= inject_Z B.
Proof.
  intros Hk Hb. destruct (Qeq_dec x 0) as [E|Hx].
  - rewrite (round_zero x E). lra.
  - pose proof (round_le_grid x B 0 Hx) as H.
    change (Double.pow2 0) with 1 in H. rewrite Qmult_1_r in H.
    apply H; [|exact Hb].
    apply Qabs_Qlt_condition in Hk.
    pose proof (exponent_le x 52 Hx Hk). lia.
Qed.

Lemma round_ge_Z (x : Q) (B : Z) :
  - Double.pow2 53 < x < Double.pow2 53 -> inject_Z B <= x ->
  inject_Z B <= Double.round x.
Proof.
  intros Hk Hb. destruct (Qeq_dec x 0) as [E|Hx].
  - rewrite (round_zero x E). lra.
  - pose proof (round_ge_grid x B 0 Hx) as H.
    change (Double.pow2 0) with 1 in H. rewrite Qmult_1_r in H.
    apply H; [|exact Hb].
    apply Qabs_Qlt_condition in Hk.
    pose proof (exponent_le x 52 Hx Hk). lia.
Qed.

Lemma round_nonneg (x : Q) : 0 <= x -> 0 <= Double.round x.
Proof.
  intros H. destruct (Qeq_dec x 0) as [E|Hx].
  - rewrite (round_zero x E). lra.
  - destruct (round_value x Hx) as (q & m & Eq & Em & E).
    pose proof (pow2_pos q) as Hq.
    assert (Hm : (0 <= m)%Z).
    { rewrite Em. apply rne_ge. apply Qle_shift_div_l; [exact Hq|].
      change (inject_Z 0) with 0. lra. }
    rewrite E. rewrite Zle_Qle in Hm.
    apply Qmult_le_0_compat; [exact Hm|lra].
Qed.

(** The double of a number that is at least a power of two of the range
    is at least that power. *)
Lemma round_ge_pow2 (x : Q) (k : Z) :
  (-1074 <= k)%Z -> Double.pow2 k <= x -> Double.pow2 k <= Double.round x.
Proof.
  intros Hk Hx. pose proof (pow2_pos k) as Pk.
  assert (Hne : ~ x == 0) by lra.
  assert (He : (k <= Double.ilog2 (Qabs (Qred x)))%Z).
  { apply ilog2_ge. rewrite Qabs_Qred, Qabs_pos by lra. exact Hx. }
  destruct (ilog2_spec (Qabs (Qred x))) as [Hlo _].
  { rewrite Qabs_Qred. now apply Qabs_pos_lt. }
  set (e := Double.ilog2 (Qabs (Qred x))) in *.
  rewrite Qabs_Qred, Qabs_pos in Hlo by lra.
  set (q := Double.exponent (Qred x)).
  assert (Hq : (q <= e)%Z) by (unfold q, Double.exponent; fold e; lia).
  assert (Ee : Double.pow2 e == inject_Z (2 ^ (e - q)) * Double.pow2 q).
  { rewrite <- pow2_Z by lia. rewrite <- pow2_add.
    now replace (e - q + q)%Z with e by lia. }
  apply Qle_trans with (Double.pow2 e); [now apply pow2_le|].
  rewrite Ee. apply round_ge_grid; [exact Hne|unfold q; lia|].
  now rewrite <- Ee.
Qed.

(** The product of doubles does not depend on the order of its factors. *)
Lemma mul_comm (x y : Q) : Double.mul x y = Double.mul y x.
Proof. apply round_proper. ring. Qed.

Lemma literal_nonneg (x : Q) : 0 <= x -> 0 <= Double.literal x.
Proof. apply round_nonneg. Qed.

(** ** Extraction *)

Lemma scan_terms_ge (text : string) (terms : list string) (acc : Z) :
  (acc <= scan_terms text terms acc)%Z.
Proof.
  unfold scan_terms. revert acc.
  induction terms as [|t ts IH]; intros acc; simpl; [lia|].
  destruct (Str.contains t text).
  - etransitivity; [|apply IH]. lia.
  - apply IH.
Qed.

Lemma scan_terms_free (text : string) (terms : list string) (acc : Z) :
  (forall t, In t terms -> Str.contains t text = false) ->
  scan_terms text terms acc = acc.
Proof.
  unfold scan_terms. revert acc.
  induction terms as [|t ts IH]; intros acc H; simpl; [reflexivity|].
  rewrite (H t) by now left.
  apply IH. intros u Hu. apply H. now right.
Qed.

Lemma Qgtb_true (a b : Q) : Qgtb a b = true <-> b < a.
Proof.
  unfold Qgtb. rewrite negb_true_iff.
  split; intros H.
  - apply Qnot_le_lt. intros Hle. apply Qle_bool_iff in Hle. congruence.
  - destruct (Qle_bool a b) eqn:E; [|reflexivity].
    apply Qle_bool_iff in E. exfalso. apply (Qlt_not_le _ _ H E).
Qed.

Lemma Qgtb_false (a b : Q) : Qgtb a b = false <-> a <= b.
Proof.
  unfold Qgtb. rewrite negb_false_iff. apply Qle_bool_iff.
Qed.

Lemma truediv_ok (a b : Q) : 0 < b -> truediv a b = Ok (Double.div a b).
Proof.
  intros H. unfold truediv.
  destruct (Qeq_bool b 0) eqn:E; [|reflexivity].
  apply Qeq_bool_iff in E. rewrite E in H. now apply Qlt_irrefl in H.
Qed.

Lemma normalize_ok (c : cues) (total : Q) :
  0 < total ->
  normalize c total
  = Ok (mkCues (Double.div (positive c) total) (Double.div (negative c) total)
          (Double.div (energetic c) total) (Double.div (calm c) total)
          (Double.div (chaotic c) total) (Double.div (focused c) total)).
Proof.
  intros H. unfold normalize. now rewrite !truediv_ok.
Qed.

Lemma raw_cues_nonneg (text : string) : nonneg_cues (raw_cues text).
Proof.
  unfold nonneg_cues, raw_cues.
  cbn [positive negative energetic calm chaotic focused].
  repeat split; try apply Qle_refl;
    rewrite <- (Zle_Qle 0); apply scan_terms_ge.
Qed.

(** The outcome of the extraction, by the sign of the total. *)
Lemma extract_cases (analysis : string) :
  let raw := raw_cues (Str.lower analysis) in
  let total := sum_values raw in
  (total <= 0 /\ extract_emotional_cues analysis = Ok raw) \/
  (0 < total /\
   extract_emotional_cues analysis
   = Ok (mkCues (Double.div (positive raw) total)
           (Double.div (negative raw) total)
           (Double.div (energetic raw) total) (Double.div (calm raw) total)
           (Double.div (chaotic raw) total)
           (Double.div (focused raw) total))).
Proof.
  intros raw total. unfold extract_emotional_cues.
  fold raw. fold total.
  destruct (Qgtb total 0) eqn:E.
  - right. apply Qgtb_true in E. split; [exact E|]. now apply normalize_ok.
  - left. apply Qgtb_false in E. now split.
Qed.

Lemma nonneg_sum_zero (c : cues) :
  nonneg_cues c -> sum_values c <= 0 -> all_zero c.
Proof.
  unfold nonneg_cues, sum_values, all_zero.
  destruct c as [p n e k x f].
  cbn [positive negative energetic calm chaotic focused].
  intros (Hp & Hn & He & Hk & Hx & Hf) H.
  repeat split; lra.
Qed.

Lemma Qdiv_nonneg (a t : Q) : 0 <= a -> 0 < t -> 0 <= a / t.
Proof.
  intros Ha Ht. unfold Qdiv.
  apply Qmult_le_0_compat; [exact Ha|].
  apply Qlt_le_weak, Qinv_lt_0_compat, Ht.
Qed.

(** A share of the total, as a double: it lies between 0 and 1, within
    2^-54 of the exact share. *)
Lemma share_bounds (a t : Q) :
  0 <= a -> a <= t -> 0 < t ->
  0 <= Double.div a t <= 1 /\
  a / t - (1 # 18014398509481984) <= Double.div a t
  <= a / t + (1 # 18014398509481984).
Proof.
  intros Ha Hat Ht. unfold Double.div.
  assert (H0 : 0 <= a / t) by now apply Qdiv_nonneg.
  assert (H1 : a / t <= 1) by (apply Qle_shift_div_r; [exact Ht|lra]).
  split.
  - split; [now apply round_nonneg|].
    apply (round_le_Z (a / t) 1); [|exact H1].
    change (Double.pow2 53) with 9007199254740992. lra.
  - destruct (Qlt_le_dec (a / t) 1) as [Hlt|Hge].
    + apply round_near_1. lra.
    + assert (E : a / t == 1) by lra.
      rewrite (round_proper _ _ E), E.
      change (Double.round 1) with 1. lra.
Qed.

Lemma share_zero (a t : Q) : a == 0 -> Double.div a t = 0.
Proof.
  intros E. unfold Double.div. apply round_zero.
  rewrite E. unfold Qdiv. apply Qmult_0_l.
Qed.

(** The six doubles of a normalized vector lie between 0 and 1, and their
    sum is within 2^-52 of 1 when only four of them are not zero. *)
Lemma normalized_sum (c : cues) :
  nonneg_cues c -> chaotic c == 0 -> focused c == 0 -> 0 < sum_values c ->
  let n :=
    mkCues (Double.div (positive c) (sum_values c))
      (Double.div (negative c) (sum_values c))
      (Double.div (energetic c) (sum_values c))
      (Double.div (calm c) (sum_values c))
      (Double.div (chaotic c) (sum_values c))
      (Double.div (focused c) (sum_values c)) in
  (0 <= positive n <= 1 /\ 0 <= negative n <= 1 /\ 0 <= energetic n <= 1 /\
   0 <= calm n <= 1 /\ chaotic n = 0 /\ focused n = 0) /\
  Qabs (sum_values n - 1) <= sum_tolerance.
Proof.
  intros (Hp & Hn & He & Hk & Hx & Hf) Ex Ef Ht. cbv zeta.
  cbn [positive negative energetic calm chaotic focused].
  set (t := sum_values c) in *.
  assert (Et : t == positive c + negative c + energetic c + calm c).
  { unfold t, sum_values. rewrite Ex, Ef. ring. }
  destruct (share_bounds (positive c) t Hp ltac:(lra) Ht) as [Bp Np].
  destruct (share_bounds (negative c) t Hn ltac:(lra) Ht) as [Bn Nn].
  destruct (share_bounds (energetic c) t He ltac:(lra) Ht) as [Be Ne].
  destruct (share_bounds (calm c) t Hk ltac:(lra) Ht) as [Bk Nk].
  rewrite (share_zero (chaotic c) t Ex), (share_zero (focused c) t Ef).
  split; [repeat split; tauto|].
  unfold sum_values.
  cbn [positive negative energetic calm chaotic focused].
  assert (Es : positive c / t + negative c / t + energetic c / t + calm c / t
               == 1).
  { transitivity ((positive c + negative c + energetic c + calm c) / t).
    - field. lra.
    - rewrite <- Et. field. lra. }
  change sum_tolerance with (1 # 4503599627370496).
  apply Qabs_Qle_condition. split; lra.
Qed.

Lemma raw_cues_untouched (text : string) :
  chaotic (raw_cues text) == 0 /\ focused (raw_cues text) == 0.
Proof. split; reflexivity. Qed.

(** The extraction never raises and returns a cue vector of the data
    model, with every value between 0 and 1. *)
Lemma extract_valid (analysis : string) :
  exists c,
    extract_emotional_cues analysis = Ok c /\ valid_cues c /\ in_unit c /\
    chaotic c == 0 /\ focused c == 0.
Proof.
  pose proof (raw_cues_nonneg (Str.lower analysis)) as Hnn.
  destruct (raw_cues_untouched (Str.lower analysis)) as [Ex Ef].
  destruct (extract_cases analysis) as [[Ht E]|[Ht E]];
    rewrite E; eexists; (split; [reflexivity|]).
  - pose proof (nonneg_sum_zero _ Hnn Ht) as Hz.
    split; [split; [exact Hnn|now left]|].
    split; [|split; assumption].
    destruct Hz as (Zp & Zn & Ze & Zk & Zx & Zf).
    unfold in_unit. rewrite Zp, Zn, Ze, Zk, Zx, Zf.
    repeat split; discriminate.
  - destruct (normalized_sum _ Hnn Ex Ef Ht) as [Hu Hs]. cbv zeta in Hu, Hs.
    cbn [positive negative energetic calm chaotic focused] in Hu.
    destruct Hu as (Hp & Hn & He & Hk & Hx & Hf).
    split; [split|split; [|split]].
    + unfold nonneg_cues.
      cbn [positive negative energetic calm chaotic focused].
      rewrite Hx, Hf. repeat split; try tauto; discriminate.
    + right. exact Hs.
    + unfold in_unit.
      cbn [positive negative energetic calm chaotic focused].
      rewrite Hx, Hf. repeat split; try tauto; discriminate.
    + cbn [chaotic]. now rewrite Hx.
    + cbn [focused]. now rewrite Hf.
Qed.

(** ** The rules of the calculus *)

Open Scope list_scope.

Lemma add_paints_nil (i : image) : add_paints i [] = i.
Proof. destruct i. unfold add_paints. simpl. now rewrite app_nil_r. Qed.

Lemma add_paints_app (i : image) (o1 o2 : list draw_op) :
  add_paints (add_paints i o1) o2 = add_paints i (o1 ++ o2).
Proof.
  unfold add_paints. simpl. now rewrite map_app, app_assoc.
Qed.

Lemma nth_error_update {A : Type} (l : list A) (n : nat) (f : A -> A) (a : A) :
  nth_error l n = Some a -> nth_error (update l n f) n = Some (f a).
Proof.
  revert n. induction l as [|b l IH]; intros [|n] H; simpl in *;
    try discriminate.
  - now inversion H.
  - now apply IH.
Qed.

Section WpRules.

Context {A B : Type} (r : ref).

Lemma wp_ret (a : A) (Q : A -> list draw_op -> Prop) :
  Q a [] -> wp r (ret a) Q.
Proof.
  intros H w i Hi. exists a, [], w.
  rewrite add_paints_nil. auto.
Qed.

Lemma wp_bind (c : M A) (k : A -> M B) (Q : B -> list draw_op -> Prop) :
  wp r c (fun a ops1 => wp r (k a) (fun b ops2 => Q b (ops1 ++ ops2))) ->
  wp r (bind c k) Q.
Proof.
  intros H w i Hi.
  destruct (H w i Hi) as (a & ops1 & w1 & E1 & H1 & Hk).
  destruct (Hk w1 _ H1) as (b & ops2 & w2 & E2 & H2 & HQ).
  exists b, (ops1 ++ ops2), w2.
  unfold bind. rewrite E1, E2, <- add_paints_app. auto.
Qed.

Lemma wp_conseq (c : M A) (P Q : A -> list draw_op -> Prop) :
  wp r c P -> (forall a ops, P a ops -> Q a ops) -> wp r c Q.
Proof.
  intros H HPQ w i Hi.
  destruct (H w i Hi) as (a & ops & w' & E & Hh & HP).
  exists a, ops, w'. auto.
Qed.

Lemma wp_choice (seq : list A) (Q : A -> list draw_op -> Prop) :
  seq <> [] -> (forall v, In v seq -> Q v []) -> wp r (Random.choice seq) Q.
Proof.
  intros Hne H w i Hi.
  destruct seq as [|x seq']; [congruence|].
  set (seq := x :: seq') in *.
  exists (nth (tape w (cursor w) mod List.length seq) seq x), [],
    (mkWorld (tape w) (S (cursor w)) (heap w)).
  rewrite add_paints_nil. repeat split; trivial.
  apply H, nth_In, Nat.mod_upper_bound. discriminate.
Qed.

End WpRules.

Lemma wp_randint (r : ref) (a b : Z) (Q : Z -> list draw_op -> Prop) :
  (a <= b)%Z ->
  (forall v, (a <= v <= b)%Z -> Q v []) ->
  wp r (Random.randint a b) Q.
Proof.
  intros Hab H w i Hi.
  unfold Random.randint.
  destruct (b <? a)%Z eqn:E; [apply Z.ltb_lt in E; lia|].
  eexists _, [], _. rewrite add_paints_nil.
  split; [reflexivity|]. split; [exact Hi|].
  apply H.
  pose proof (Z.mod_pos_bound (Z.of_nat (tape w (cursor w))) (b - a + 1)).
  lia.
Qed.

Lemma wp_paint (r : ref) (op : draw_op) (Q : unit -> list draw_op -> Prop) :
  Q tt [op] -> wp r (Pillow.paint r op) Q.
Proof.
  intros H w i Hi. eexists tt, [op], _.
  split; [reflexivity|]. split; [|exact H].
  exact (nth_error_update _ _
           (fun j => mkImage (img_mode j) (img_size j) (img_fill j)
                       (img_edits j ++ [Paint op])) _ Hi).
Qed.

(** The calls of a loop are the calls of its iterations, in order. *)
Lemma wp_repeat {A : Type} (r : ref) (n : nat) (body : M A)
    (P : A -> list draw_op -> Prop) :
  wp r body P ->
  wp r (repeat_m n body)
    (fun l ops => exists opss,
       ops = List.concat opss /\ Forall2 P l opss /\ List.length l = n).
Proof.
  intros Hbody. induction n as [|n IH]; simpl.
  - apply wp_ret. exists []. auto.
  - apply wp_bind. eapply wp_conseq; [exact Hbody|].
    intros a ops1 Ha. apply wp_bind.
    eapply wp_conseq; [exact IH|].
    intros l ops2 (opss & -> & HF & Hlen).
    apply wp_ret. exists (ops1 :: opss). simpl.
    rewrite app_nil_r. auto.
Qed.

Lemma wp_for_range (r : ref) (n : nat) (lo : Z) (body : Z -> M unit)
    (P : Z -> list draw_op -> Prop) :
  (forall i, wp r (body i) (fun _ ops => P i ops)) ->
  wp r (for_range lo n body)
    (fun _ ops => exists opss,
       ops = List.concat opss /\
       Forall2 P (map (fun k => lo + Z.of_nat k)%Z (seq 0 n)) opss).
Proof.
  intros Hbody. revert lo. induction n as [|n IH]; intros lo; simpl.
  - apply wp_ret. exists []. auto.
  - apply wp_bind. eapply wp_conseq; [apply Hbody|].
    intros u ops1 H1.
    eapply wp_conseq; [apply (IH (lo + 1)%Z)|].
    intros u' ops2 (opss & -> & HF).
    exists (ops1 :: opss). split; [reflexivity|].
    constructor; [now rewrite Z.add_0_r|].
    rewrite <- seq_shift, map_map.
    erewrite map_ext; [exact HF|].
    intros k. simpl. lia.
Qed.

(** ** The literals of the comparisons *)

(** The doubles of [0.3] and [0.6] lie below the rationals, the double of
    [0.4] above. *)
Lemma literal_values :
  Double.literal (3 # 10) = 5404319552844595 # 18014398509481984 /\
  Double.literal (4 # 10) = 3602879701896397 # 9007199254740992 /\
  Double.literal (6 # 10) = 5404319552844595 # 9007199254740992 /\
  Double.literal (5 # 10) = 1 # 2 /\
  Double.literal (8 # 10) = 3602879701896397 # 4503599627370496.
Proof. repeat split. Qed.

Lemma gt_literal_3 (x : Q) :
  3 # 10 < x -> Qgtb x (Double.literal (3 # 10)) = true.
Proof.
  intros H. apply Qgtb_true.
  destruct literal_values as (-> & _). lra.
Qed.

Lemma gt_literal_6 (x : Q) :
  6 # 10 < x -> Qgtb x (Double.literal (6 # 10)) = true.
Proof.
  intros H. apply Qgtb_true.
  destruct literal_values as (_ & _ & -> & _). lra.
Qed.

Lemma zero_below_literal (x l : Q) :
  x == 0 -> 0 <= l -> Qgtb x (Double.literal l) = false.
Proof.
  intros E Hl. apply Qgtb_false. rewrite E. now apply literal_nonneg.
Qed.

(** ** The drawing loop *)

Lemma concat_singletons {A : Type} (P : A -> Prop) (n : nat)
    (opss : list (list A)) :
  List.length opss = n ->
  Forall (fun ops => exists op, ops = [op] /\ P op) opss ->
  List.length (List.concat opss) = n /\ Forall P (List.concat opss).
Proof.
  intros <- H. induction H as [|ops opss (op & -> & Hop) _ [IH1 IH2]]; simpl.
  - split; [reflexivity|constructor].
  - split; [now rewrite IH1|now constructor].
Qed.

Lemma draw_one_shape_spec (r : ref) (width height : Z) (c : cues)
    (base_color : rgb) :
  (0 <= width)%Z -> (0 <= height)%Z ->
  wp r (draw_one_shape r width height c base_color)
    (drawn_shape c width height base_color).
Proof.
  intros Hw Hh. unfold draw_one_shape.
  destruct base_color as [[base_r base_g] base_b].
  apply wp_bind.
  apply wp_conseq
    with (P := fun k ops => ops = [] /\ expected_kind c k).
  { unfold expected_kind.
    destruct (Qgtb (chaotic c) (Double.literal (3 # 10))); [now apply wp_ret|].
    destruct (Qgtb (focused c) (Double.literal (3 # 10))); [now apply wp_ret|].
    apply wp_choice; [discriminate|].
    intros v Hv. split; [reflexivity|]. unfold trio.
    destruct Hv as [<-|[<-|[<-|[]]]]; auto. }
  intros k ops0 [-> Hk].
  apply wp_bind, wp_randint; [lia|intros x Hx].
  apply wp_bind, wp_randint; [lia|intros y Hy].
  apply wp_bind, wp_randint; [lia|intros size Hsize].
  apply wp_bind, wp_randint; [lia|intros dr Hdr].
  apply wp_bind, wp_randint; [lia|intros dg Hdg].
  apply wp_bind, wp_randint; [lia|intros db Hdb].
  apply wp_bind, wp_randint; [lia|intros a Ha].
  apply wp_bind.
  assert (Hrange : shape_in_range width height (base_r, base_g, base_b)
            (mkShape k x y size
               (clamp255 (base_r + dr), clamp255 (base_g + dg),
                clamp255 (base_b + db), a))).
  { unfold shape_in_range, jitter. simpl. repeat split; eauto; lia. }
  destruct k.
  - apply wp_paint, wp_ret. cbn [app].
    split; [exact Hk|split; [exact Hrange|reflexivity]].
  - apply wp_paint, wp_ret. cbn [app].
    split; [exact Hk|split; [exact Hrange|reflexivity]].
  - apply wp_paint, wp_ret. cbn [app].
    split; [exact Hk|split; [exact Hrange|reflexivity]].
  - eapply wp_conseq.
    + apply wp_for_range
        with (P := fun (_ : Z) ops => exists op, ops = [op] /\
                chaos_line (mkShape chaos x y size
                  (clamp255 (base_r + dr), clamp255 (base_g + dg),
                   clamp255 (base_b + db), a)) op).
      intros i.
      apply wp_bind, wp_randint; [lia|intros dx Hdx].
      apply wp_bind, wp_randint; [lia|intros dy Hdy].
      apply wp_bind, wp_randint; [lia|intros w Hw'].
      apply wp_paint. simpl. eexists. split; [reflexivity|].
      exists dx, dy, w. auto.
    + intros u ops (opss & -> & HF).
      apply wp_ret. cbn [app]. rewrite app_nil_r.
      split; [exact Hk|split; [exact Hrange|]].
      unfold renders; cbn [shape_kind].
      apply (concat_singletons _ 5).
      * now rewrite <- (Forall2_length HF).
      * clear -HF. remember (map _ _) as idx eqn:E. clear E.
        induction HF; constructor; auto.
  - eapply wp_conseq.
    + apply wp_for_range
        with (P := fun (i : Z) ops =>
                ops = [ring (mkShape focused_rings x y size
                  (clamp255 (base_r + dr), clamp255 (base_g + dg),
                   clamp255 (base_b + db), a)) i]).
      intros i. now apply wp_paint.
    + intros u ops (opss & -> & HF).
      apply wp_ret. cbn [app]. rewrite app_nil_r.
      split; [exact Hk|split; [exact Hrange|]].
      unfold renders; cbn [shape_kind]. simpl in HF.
      repeat match goal with
             | H : Forall2 _ (_ :: _) _ |- _ => inversion H; subst; clear H
             | H : Forall2 _ [] _ |- _ => inversion H; subst; clear H
             end.
      reflexivity.
Qed.

Lemma draw_emotional_shapes_spec (r : ref) (width height : Z) (c : cues)
    (base_color : rgb) :
  (0 <= width)%Z -> (0 <= height)%Z ->
  wp r (draw_emotional_shapes r width height c base_color)
    (fun shapes ops =>
       List.length shapes = Z.to_nat (num_shapes c) /\
       exists opss,
         ops = List.concat opss /\
         Forall2 (drawn_shape c width height base_color) shapes opss).
Proof.
  intros Hw Hh. unfold draw_emotional_shapes.
  eapply wp_conseq.
  - apply wp_repeat, draw_one_shape_spec; assumption.
  - intros shapes ops (opss & -> & HF & Hlen). eauto.
Qed.

(** ** Truncation *)

Lemma int_nonneg (x : Q) : 0 <= x -> int x = Qfloor x.
Proof.
  destruct x as [n d]. unfold Qle, int, Qfloor. simpl.
  intros H. apply Z.quot_div_nonneg; lia.
Qed.

Lemma clamp255_range (v : Z) : (0 <= clamp255 v <= 255)%Z.
Proof. unfold clamp255. lia. Qed.

Lemma clamp255_id (v : Z) : (0 <= v <= 255)%Z -> clamp255 v = v.
Proof. unfold clamp255. lia. Qed.

(** ** Markers and the total *)

Lemma count_scan_pos (sub s : string) :
  sub <> EmptyString -> Str.contains sub s = true ->
  (0 < Str.count_scan sub 0 s)%nat.
Proof.
  intros Hne. induction s as [|ch s IH]; intros H.
  - destruct sub; [congruence|discriminate].
  - cbn [Str.contains] in H. cbn [Str.count_scan].
    destruct (prefix sub (String ch s)); [lia|].
    apply IH. exact H.
Qed.

Lemma count_pos (sub s : string) :
  Str.contains sub s = true -> (0 < Str.count s sub)%nat.
Proof.
  intros H. destruct sub as [|ch sub]; [simpl; lia|].
  apply count_scan_pos; [discriminate|exact H].
Qed.

Lemma scan_terms_pos (text : string) (terms : list string) (acc : Z) :
  (exists t, In t terms /\ Str.contains t text = true) ->
  (acc < scan_terms text terms acc)%Z.
Proof.
  unfold scan_terms. revert acc.
  induction terms as [|u us IH]; intros acc (t & Hin & Ht).
  - destruct Hin.
  - cbn [fold_left]. destruct Hin as [->|Hin].
    + rewrite Ht. pose proof (count_pos _ _ Ht).
      eapply Z.lt_le_trans; [|apply scan_terms_ge]. lia.
    + eapply Z.le_lt_trans; [|apply IH; eauto].
      destruct (Str.contains u text); lia.
Qed.

Lemma marker_free_raw (analysis : string) :
  marker_free analysis -> raw_cues (Str.lower analysis) = zero_cues.
Proof.
  intros H. unfold raw_cues, zero_cues.
  rewrite !scan_terms_free; [reflexivity| | | |];
    intros t Ht; apply H; unfold all_terms; rewrite !in_app_iff; auto.
Qed.

Lemma marked_total (analysis : string) :
  ~ marker_free analysis -> 0 < sum_values (raw_cues (Str.lower analysis)).
Proof.
  intros H. set (text := Str.lower analysis).
  assert (Hex : exists t, In t all_terms /\ Str.contains t text = true).
  { destruct (existsb (fun t => Str.contains t text) all_terms) eqn:E.
    - apply existsb_exists in E. exact E.
    - exfalso. apply H. intros t Ht.
      destruct (Str.contains t (Str.lower analysis)) eqn:Et; [|reflexivity].
      rewrite <- E. symmetry. apply existsb_exists. eauto. }
  destruct Hex as (t & Hin & Ht).
  pose proof (scan_terms_ge text positive_terms 0) as Hp.
  pose proof (scan_terms_ge text negative_terms 0) as Hn.
  pose proof (scan_terms_ge text energetic_terms 0) as He.
  pose proof (scan_terms_ge text calm_terms 0) as Hk.
  assert (Hsum : (0 < scan_terms text positive_terms 0
                    + scan_terms text negative_terms 0
                    + scan_terms text energetic_terms 0
                    + scan_terms text calm_terms 0)%Z).
  { unfold all_terms in Hin. rewrite !in_app_iff in Hin.
    destruct Hin as [Hin|[Hin|[Hin|Hin]]];
      [pose proof (scan_terms_pos text positive_terms 0) as Hq
      |pose proof (scan_terms_pos text negative_terms 0) as Hq
      |pose proof (scan_terms_pos text energetic_terms 0) as Hq
      |pose proof (scan_terms_pos text calm_terms 0) as Hq];
      specialize (Hq (ex_intro _ t (conj Hin Ht))); lia. }
  unfold sum_values, raw_cues.
  cbn [positive negative energetic calm chaotic focused].
  rewrite !Qplus_0_r, Qplus_0_l, <- !inject_Z_plus.
  now rewrite <- (Zlt_Qlt 0).
Qed.

Lemma marker_free_total (analysis : string) :
  marker_free analysis -> sum_values (raw_cues (Str.lower analysis)) == 0.
Proof.
  intros H. rewrite (marker_free_raw _ H). reflexivity.
Qed.

Lemma marker_free_decidable (analysis : string) :
  marker_free analysis \/ ~ marker_free analysis.
Proof.
  destruct (existsb (fun t => Str.contains t (Str.lower analysis)) all_terms)
    eqn:E.
  - right. intros H. apply existsb_exists in E.
    destruct E as (t & Hin & Ht). rewrite (H t Hin) in Ht. discriminate.
  - left. intros t Ht.
    destruct (Str.contains t (Str.lower analysis)) eqn:Et; [|reflexivity].
    rewrite <- E. symmetry. apply existsb_exists. eauto.
Qed.

(** * The claims *)

(** The six doubles added from left to right: each of the six additions
    rounds once more. *)
Lemma double_sum_close (c : cues) :
  in_unit c -> Qabs (sum_values c - 1) <= sum_tolerance ->
  Qabs (double_sum_values c - 1) <= Double.pow2 (-50).
Proof.
  unfold in_unit, sum_values, double_sum_values, Double.add.
  destruct c as [p n e k x f].
  cbn [positive negative energetic calm chaotic focused].
  intros (Hp & Hn & He & Hk & Hx & Hf) Hs.
  change sum_tolerance with (1 # 4503599627370496) in Hs.
  change (Double.pow2 (-50)) with (1 # 1125899906842624).
  apply Qabs_Qle_condition in Hs. apply Qabs_Qle_condition.
  pose proof (round_near_2 (0 + p) ltac:(lra)) as H1.
  set (s1 := Double.round (0 + p)) in *.
  pose proof (round_near_2 (s1 + n) ltac:(lra)) as H2.
  set (s2 := Double.round (s1 + n)) in *.
  pose proof (round_near_2 (s2 + e) ltac:(lra)) as H3.
  set (s3 := Double.round (s2 + e)) in *.
  pose proof (round_near_2 (s3 + k) ltac:(lra)) as H4.
  set (s4 := Double.round (s3 + k)) in *.
  pose proof (round_near_2 (s4 + x) ltac:(lra)) as H5.
  set (s5 := Double.round (s4 + x)) in *.
  pose proof (round_near_2 (s5 + f) ltac:(lra)) as H6.
  set (s6 := Double.round (s5 + f)) in *.
  lra.
Qed.

(** C2.  For every input text the extraction returns normally.  When no
    marker term occurs in the lower-cased text, the six values are 0 and
    so is their sum.  Otherwise every accumulator has been divided by the
    total, in doubles, and the six doubles sum to 1.0 within the tolerance
    of the rounding: their exact sum is within 2^-52 of 1, and their sum
    in doubles, added from left to right, within 2^-50. *)
Theorem cue_sum_zero_or_one (analysis : string) :
  exists c,
    extract_emotional_cues analysis = Ok c /\
    ((marker_free analysis /\ c = zero_cues /\ sum_values c == 0 /\
      double_sum_values c == 0) \/
     (~ marker_free analysis /\
      c = (let raw := raw_cues (Str.lower analysis) in
           let total := sum_values raw in
           mkCues (Double.div (positive raw) total)
             (Double.div (negative raw) total)
             (Double.div (energetic raw) total)
             (Double.div (calm raw) total)
             (Double.div (chaotic raw) total)
             (Double.div (focused raw) total)) /\
      Qabs (sum_values c - 1) <= Double.pow2 (-52) /\
      Qabs (double_sum_values c - 1) <= Double.pow2 (-50))).
Proof.
  destruct (marker_free_decidable analysis) as [Hfree|Hmark].
  - exists zero_cues. split; [|left; repeat split; trivial].
    unfold extract_emotional_cues. now rewrite (marker_free_raw _ Hfree).
  - pose proof (marked_total _ Hmark) as Ht.
    pose proof (raw_cues_nonneg (Str.lower analysis)) as Hnn.
    destruct (raw_cues_untouched (Str.lower analysis)) as [Ex Ef].
    destruct (extract_cases analysis) as [[Hle _]|[_ E]].
    + exfalso. apply (Qlt_not_le _ _ Ht Hle).
    + destruct (normalized_sum _ Hnn Ex Ef Ht) as [Hu Hs].
      cbv zeta in Hu, Hs.
      eexists. split; [exact E|]. right.
      split; [exact Hmark|]. split; [reflexivity|].
      split; [exact Hs|]. apply double_sum_close; [|exact Hs].
      unfold in_unit.
      cbn [positive negative energetic calm chaotic focused] in Hu |- *.
      destruct Hu as (Hp & Hn & He & Hk & Hx & Hf).
      rewrite Hx, Hf. repeat split; try tauto; discriminate.
Qed.

Lemma marker_free_check (analysis : string) :
  existsb (fun t => Str.contains t (Str.lower analysis)) all_terms = false ->
  marker_free analysis.
Proof.
  intros E t Ht.
  destruct (Str.contains t (Str.lower analysis)) eqn:Et; [|reflexivity].
  rewrite <- E. symmetry. apply existsb_exists. eauto.
Qed.

(** C8.  A text in which no marker term of the four lists occurs, the empty
    text among them, gives the vector of six zeros; the division is not
    reached, and it would have raised had it been: dividing these
    accumulators by their total raises [ZeroDivisionError]. *)
Theorem marker_free_all_zero (analysis : string) :
  marker_free analysis ->
  extract_emotional_cues analysis = Ok zero_cues /\
  normalize (raw_cues (Str.lower analysis))
    (sum_values (raw_cues (Str.lower analysis)))
  = Raise ZeroDivisionError.
Proof.
  intros H. split.
  - unfold extract_emotional_cues. rewrite (marker_free_raw _ H). reflexivity.
  - rewrite (marker_free_raw _ H). reflexivity.
Qed.

Lemma marker_free_all_zero_witness :
  marker_free "" /\
  (extract_emotional_cues "" = Ok zero_cues /\
   normalize (raw_cues (Str.lower ""))
     (sum_values (raw_cues (Str.lower "")))
   = Raise ZeroDivisionError).
Proof.
  assert (H : marker_free "").
  { apply marker_free_check. vm_compute. reflexivity. }
  split; [exact H|apply (marker_free_all_zero "" H)].
Defined.






(** The truncations of two numbers that are not negative and less than 1
    apart are at most 1 apart. *)
Lemma int_near (v v' : Q) :
  0 <= v -> 0 <= v' -> v - 1 <= v' <= v + 1 ->
  (Z.abs (int v' - int v) <= 1)%Z.
Proof.
  intros Hv Hv' H. rewrite !int_nonneg by assumption.
  pose proof (Qfloor_le v) as L1. pose proof (Qlt_floor v) as U1.
  pose proof (Qfloor_le v') as L2. pose proof (Qlt_floor v') as U2.
  rewrite inject_Z_plus in U1, U2. change (inject_Z 1) with 1 in U1, U2.
  assert (A : (Qfloor v' < Qfloor v + 2)%Z).
  { rewrite Zlt_Qlt, inject_Z_plus. change (inject_Z 2) with 2. lra. }
  assert (B : (Qfloor v < Qfloor v' + 2)%Z).
  { rewrite Zlt_Qlt, inject_Z_plus. change (inject_Z 2) with 2. lra. }
  lia.
Qed.

(** A channel: the truncation of a double that is not negative and lies
    below 256, within 1 of the exact value. *)
Lemma channel_bounds (v v' : Q) :
  0 <= v -> 0 <= v' -> v' < 256 -> v - 1 <= v' <= v + 1 ->
  (0 <= int v' <= 255)%Z /\ (Z.abs (int v' - int v) <= 1)%Z.
Proof.
  intros Hv Hv' Hlt H. split; [|now apply int_near].
  rewrite int_nonneg by assumption.
  pose proof (Qfloor_le v') as L. split.
  - apply (Qfloor_resp_le 0). exact Hv'.
  - assert (A : (Qfloor v' < 256)%Z); [|lia].
    rewrite Zlt_Qlt. change (inject_Z 256) with 256. lra.
Qed.

(** The sum of the values of a vector of the data model is at most one
    unit in the last place above 1. *)
Lemma valid_cues_sum (c : cues) :
  valid_cues c -> sum_values c <= 1 + (1 # 4503599627370496).
Proof.
  intros [_ [(Zp & Zn & Ze & Zk & Zx & Zf)|Hs]].
  - unfold sum_values. rewrite Zp, Zn, Ze, Zk, Zx, Zf. discriminate.
  - change sum_tolerance with (1 # 4503599627370496) in Hs.
    apply Qabs_Qle_condition in Hs. lra.
Qed.

(** C5.  For every cue vector of the data model the base colour is the
    triple of R = 255 (positive + 0.5 energetic),
    G = 255 (0.8 positive + 0.5 calm) and B = 255 (negative + calm), each
    truncated to an integer and clamped.  The formulas are evaluated as
    the program evaluates them, in doubles and in the order in which they
    are written.  Every channel lies in 0..255, on such a vector the clamp
    changes nothing, and every channel is within 1 of the truncation of
    the formula in exact arithmetic. *)
Theorem base_color_formula (c : cues) :
  valid_cues c ->
  let R :=
    Double.mul 255
      (Double.add (positive c)
         (Double.mul (Double.literal (5 # 10)) (energetic c))) in
  let G :=
    Double.mul 255
      (Double.add (Double.mul (Double.literal (8 # 10)) (positive c))
         (Double.mul (Double.literal (5 # 10)) (calm c))) in
  let B := Double.mul 255 (Double.add (negative c) (calm c)) in
  calculate_base_color c
  = (clamp255 (int R), clamp255 (int G), clamp255 (int B)) /\
  calculate_base_color c = (int R, int G, int B) /\
  (0 <= int R <= 255)%Z /\ (0 <= int G <= 255)%Z /\ (0 <= int B <= 255)%Z /\
  (Z.abs (int R - int (255 * (positive c + (1 # 2) * energetic c))) <= 1)%Z /\
  (Z.abs (int G - int (255 * ((4 # 5) * positive c + (1 # 2) * calm c)))
   <= 1)%Z /\
  (Z.abs (int B - int (255 * (negative c + calm c))) <= 1)%Z.
Proof.
  intros Hv R G B.
  pose proof (valid_cues_sum c Hv) as Hsum.
  destruct Hv as [(Hp & Hn & He & Hk & Hx & Hf) _].
  unfold sum_values in Hsum.
  assert (E : calculate_base_color c
              = (clamp255 (int R), clamp255 (int G), clamp255 (int B))).
  { unfold calculate_base_color. cbv zeta. subst R G B.
    now rewrite (mul_comm (energetic c)), (mul_comm (positive c)),
      (mul_comm (calm c)). }
  assert (HR : (0 <= int R <= 255)%Z /\
               (Z.abs (int R - int (255 * (positive c + (1 # 2) * energetic c)))
                <= 1)%Z).
  { subst R. unfold Double.mul, Double.add.
    destruct literal_values as (_ & _ & _ & -> & _).
    pose proof (round_near_1 ((1 # 2) * energetic c) ltac:(lra)) as N1.
    pose proof (round_nonneg ((1 # 2) * energetic c) ltac:(lra)) as P1.
    set (a := Double.round ((1 # 2) * energetic c)) in *.
    pose proof (round_near_2 (positive c + a) ltac:(lra)) as N2.
    pose proof (round_nonneg (positive c + a) ltac:(lra)) as P2.
    set (b := Double.round (positive c + a)) in *.
    pose proof (round_near_512 (255 * b) ltac:(lra)) as N3.
    pose proof (round_nonneg (255 * b) ltac:(lra)) as P3.
    set (r := Double.round (255 * b)) in *.
    apply channel_bounds; lra. }
  assert (HG : (0 <= int G <= 255)%Z /\
               (Z.abs (int G - int (255 * ((4 # 5) * positive c
                                           + (1 # 2) * calm c)))
                <= 1)%Z).
  { subst G. unfold Double.mul, Double.add.
    destruct literal_values as (_ & _ & _ & -> & ->).
    pose proof (round_near_1
                  ((3602879701896397 # 4503599627370496) * positive c)
                  ltac:(lra)) as N0.
    pose proof (round_nonneg
                  ((3602879701896397 # 4503599627370496) * positive c)
                  ltac:(lra)) as P0.
    set (a0 := Double.round
                 ((3602879701896397 # 4503599627370496) * positive c)) in *.
    pose proof (round_near_1 ((1 # 2) * calm c) ltac:(lra)) as N1.
    pose proof (round_nonneg ((1 # 2) * calm c) ltac:(lra)) as P1.
    set (a := Double.round ((1 # 2) * calm c)) in *.
    pose proof (round_near_2 (a0 + a) ltac:(lra)) as N2.
    pose proof (round_nonneg (a0 + a) ltac:(lra)) as P2.
    set (b := Double.round (a0 + a)) in *.
    pose proof (round_near_512 (255 * b) ltac:(lra)) as N3.
    pose proof (round_nonneg (255 * b) ltac:(lra)) as P3.
    set (g := Double.round (255 * b)) in *.
    apply channel_bounds; lra. }
  assert (HB : (0 <= int B <= 255)%Z /\
               (Z.abs (int B - int (255 * (negative c + calm c))) <= 1)%Z).
  { subst B. unfold Double.mul, Double.add.
    pose proof (round_near_2 (negative c + calm c) ltac:(lra)) as N2.
    pose proof (round_nonneg (negative c + calm c) ltac:(lra)) as P2.
    set (b := Double.round (negative c + calm c)) in *.
    pose proof (round_near_512 (255 * b) ltac:(lra)) as N3.
    pose proof (round_nonneg (255 * b) ltac:(lra)) as P3.
    set (r := Double.round (255 * b)) in *.
    apply channel_bounds; lra. }
  split; [exact E|]. split; [|tauto].
  rewrite E. now rewrite !clamp255_id by tauto.
Qed.

Lemma base_color_formula_witness :
  valid_cues seventh_cues /\
  calculate_base_color seventh_cues = (36, 101, 218)%Z.
Proof.
  assert (H : valid_cues seventh_cues).
  { split; [repeat split; vm_compute; discriminate|]. right.
    vm_compute. discriminate. }
  split; [exact H|].
  exact (proj1 (proj2 (base_color_formula seventh_cues H))).
Defined.

Lemma Forall2_left {A B : Type} (P : A -> B -> Prop) (Q : A -> Prop)
    (l : list A) (l' : list B) :
  (forall a b, P a b -> Q a) -> Forall2 P l l' -> Forall Q l.
Proof.
  intros H HF. induction HF; constructor; eauto.
Qed.

Lemma Forall2_weaken {A B : Type} (P Q : A -> B -> Prop)
    (l : list A) (l' : list B) :
  (forall a b, P a b -> Q a b) -> Forall2 P l l' -> Forall2 Q l l'.
Proof.
  intros H HF. induction HF; constructor; eauto.
Qed.

Lemma floor_near (v v' : Q) :
  v - 1 <= v' <= v + 1 -> (Z.abs (Qfloor v' - Qfloor v) <= 1)%Z.
Proof.
  intros H.
  pose proof (Qfloor_le v) as L1. pose proof (Qlt_floor v) as U1.
  pose proof (Qfloor_le v') as L2. pose proof (Qlt_floor v') as U2.
  rewrite inject_Z_plus in U1, U2. change (inject_Z 1) with 1 in U1, U2.
  assert (A : (Qfloor v' < Qfloor v + 2)%Z).
  { rewrite Zlt_Qlt, inject_Z_plus. change (inject_Z 2) with 2. lra. }
  assert (B : (Qfloor v < Qfloor v' + 2)%Z).
  { rewrite Zlt_Qlt, inject_Z_plus. change (inject_Z 2) with 2. lra. }
  lia.
Qed.

(** The number of iterations, for an energetic value that is not
    negative. *)
Lemma num_shapes_floor (c : cues) :
  0 <= energetic c ->
  num_shapes c = Qfloor (Double.add 10 (Double.mul 40 (energetic c))) /\
  (0 <= num_shapes c)%Z /\
  (energetic c == 0 -> num_shapes c = 10%Z) /\
  (energetic c == 1 -> num_shapes c = 50%Z) /\
  (energetic c <= 1 ->
   (10 <= num_shapes c <= 50)%Z /\
   (Z.abs (num_shapes c - Qfloor (10 + 40 * energetic c)) <= 1)%Z).
Proof.
  intros He. unfold num_shapes, Double.add, Double.mul.
  pose proof (round_nonneg (40 * energetic c) ltac:(lra)) as Pm.
  set (m := Double.round (40 * energetic c)) in *.
  pose proof (round_nonneg (10 + m) ltac:(lra)) as Pa.
  rewrite int_nonneg by exact Pa.
  split; [reflexivity|]. split; [now apply (Qfloor_resp_le 0)|].
  split; [|split].
  - intros E. unfold m.
    rewrite (round_zero (40 * energetic c)) by (rewrite E; reflexivity).
    reflexivity.
  - intros E. unfold m.
    rewrite (round_proper (40 * energetic c) 40) by (rewrite E; reflexivity).
    reflexivity.
  - intros H1.
    assert (B53 : Double.pow2 53 == 9007199254740992) by reflexivity.
    pose proof (round_le_Z (40 * energetic c) 40
                  ltac:(rewrite B53; lra) ltac:(change (inject_Z 40) with 40; lra))
      as Um.
    fold m in Um. change (inject_Z 40) with 40 in Um.
    pose proof (round_le_Z (10 + m) 50
                  ltac:(rewrite B53; lra) ltac:(change (inject_Z 50) with 50; lra))
      as Ua.
    pose proof (round_ge_Z (10 + m) 10
                  ltac:(rewrite B53; lra) ltac:(change (inject_Z 10) with 10; lra))
      as La.
    pose proof (round_near_64 (40 * energetic c) ltac:(lra)) as Nm.
    fold m in Nm.
    pose proof (round_near_64 (10 + m) ltac:(lra)) as Na.
    set (a := Double.round (10 + m)) in *.
    split.
    + split.
      * rewrite <- (Qfloor_Z 10). now apply Qfloor_resp_le.
      * rewrite <- (Qfloor_Z 50). now apply Qfloor_resp_le.
    + apply floor_near. lra.
Qed.

(** C6.  The drawing loop runs floor(10 + 40 energetic) times, the
    expression being evaluated in doubles as the program evaluates it, and
    every iteration draws one shape: the calls on the canvas are those of
    the shapes of the iterations, in order.  So the loop draws 10 shapes
    when energetic is 0 and 50 when it is 1, whatever the random source;
    for an energetic value up to 1 the number lies between 10 and 50 and
    is within 1 of floor(10 + 40 energetic) in exact arithmetic.  The cue
    values of the data model are not negative: there the truncation of
    [int] is the floor.  The energetic value is at most 2^1018: beyond,
    40 times it is no finite double. *)
Theorem shape_count (draw : ref) (width height : Z) (c : cues)
    (base_color : rgb) :
  0 <= energetic c <= Double.pow2 1018 ->
  (0 <= width)%Z -> (0 <= height)%Z ->
  wp draw (draw_emotional_shapes draw width height c base_color)
    (fun shapes ops =>
       exists opss,
         ops = List.concat opss /\
         Forall2 (drawn_shape c width height base_color) shapes opss /\
         Z.of_nat (List.length opss)
         = Qfloor (Double.add 10 (Double.mul 40 (energetic c))) /\
         (energetic c == 0 -> List.length opss = 10%nat) /\
         (energetic c == 1 -> List.length opss = 50%nat) /\
         (energetic c <= 1 ->
          (10 <= List.length opss <= 50)%nat /\
          (Z.abs (Z.of_nat (List.length opss)
                  - Qfloor (10 + 40 * energetic c)) <= 1)%Z)).
Proof.
  intros [He _] Hw Hh.
  eapply wp_conseq; [now apply draw_emotional_shapes_spec|].
  intros shapes ops (Hlen & opss & -> & HF).
  destruct (num_shapes_floor c He) as (Hn & H0 & Hz & Ho & Hu).
  assert (Hl : Z.of_nat (List.length opss) = num_shapes c).
  { rewrite <- (Forall2_length HF), Hlen. lia. }
  exists opss. split; [reflexivity|]. split; [exact HF|].
  split; [now rewrite Hl|]. split; [|split].
  - intros E. specialize (Hz E). lia.
  - intros E. specialize (Ho E). lia.
  - intros E. destruct (Hu E) as [Hr Hd]. split; [lia|now rewrite Hl].
Qed.

Lemma shape_count_witness :
  (0 <= energetic (mkCues 0 0 1 0 0 0) <= Double.pow2 1018 /\
   (0 <= 400)%Z /\ (0 <= 400)%Z) /\
  wp 0%nat
    (draw_emotional_shapes 0%nat 400 400 (mkCues 0 0 1 0 0 0) (127, 0, 0)%Z)
    (fun shapes ops =>
       exists opss,
         ops = List.concat opss /\
         Forall2 (drawn_shape (mkCues 0 0 1 0 0 0) 400 400 (127, 0, 0)%Z)
           shapes opss /\
         Z.of_nat (List.length opss)
         = Qfloor (Double.add 10
                     (Double.mul 40 (energetic (mkCues 0 0 1 0 0 0)))) /\
         (energetic (mkCues 0 0 1 0 0 0) == 0 ->
          List.length opss = 10%nat) /\
         (energetic (mkCues 0 0 1 0 0 0) == 1 ->
          List.length opss = 50%nat) /\
         (energetic (mkCues 0 0 1 0 0 0) <= 1 ->
          (10 <= List.length opss <= 50)%nat /\
          (Z.abs (Z.of_nat (List.length opss)
                  - Qfloor (10 + 40 * energetic (mkCues 0 0 1 0 0 0)))
           <= 1)%Z)).
Proof.
  split.
  - repeat split; vm_compute; discriminate.
  - apply (shape_count 0%nat 400 400 (mkCues 0 0 1 0 0 0) (127, 0, 0)%Z);
      try split; vm_compute; discriminate.
Defined.

(** C7.  When chaotic exceeds 0.3 every shape of the pass is of the chaos
    type, a bundle of five lines from its position, whatever the random
    source and whatever the value of focused: the chaotic test comes first. *)
Theorem chaotic_wins (draw : ref) (width height : Z) (c : cues)
    (base_color : rgb) :
  3 # 10 < chaotic c -> (0 <= width)%Z -> (0 <= height)%Z ->
  wp draw (draw_emotional_shapes draw width height c base_color)
    (fun shapes ops =>
       Forall (fun s => shape_kind s = chaos) shapes /\
       exists opss,
         ops = List.concat opss /\
         Forall2 (fun s o => List.length o = 5%nat /\ Forall (chaos_line s) o)
           shapes opss).
Proof.
  intros Hc Hw Hh.
  eapply wp_conseq; [now apply draw_emotional_shapes_spec|].
  intros shapes ops (_ & opss & -> & HF).
  assert (Hkind : forall s o,
            drawn_shape c width height base_color s o ->
            shape_kind s = chaos).
  { intros s o (Hk & _). unfold expected_kind in Hk.
    apply gt_literal_3 in Hc. now rewrite Hc in Hk. }
  split.
  - eapply Forall2_left; [|exact HF]. exact Hkind.
  - exists opss. split; [reflexivity|].
    eapply Forall2_weaken; [|exact HF].
    intros s o Hs. pose proof (Hkind _ _ Hs) as Ek.
    destruct Hs as (_ & _ & Hr). unfold renders in Hr.
    now rewrite Ek in Hr.
Qed.

Lemma chaotic_wins_witness :
  (3 # 10 < chaotic (mkCues 0 0 0 0 (1 # 2) (1 # 2))
   /\ (0 <= 400)%Z /\ (0 <= 400)%Z) /\
  wp 0%nat (draw_emotional_shapes 0%nat 400 400 (mkCues 0 0 0 0 (1 # 2) (1 # 2))
          (0, 0, 0)%Z)
    (fun shapes ops =>
       Forall (fun s => shape_kind s = chaos) shapes /\
       exists opss,
         ops = List.concat opss /\
         Forall2 (fun s o => List.length o = 5%nat /\ Forall (chaos_line s) o)
           shapes opss).
Proof.
  split.
  - simpl. repeat split; discriminate.
  - apply (chaotic_wins 0%nat 400 400 (mkCues 0 0 0 0 (1 # 2) (1 # 2))
             (0, 0, 0)%Z); simpl; try discriminate. reflexivity.
Defined.

Lemma trio_when_quiet (c : cues) (width height : Z) (base_color : rgb)
    (shapes : list shape) (opss : list (list draw_op)) :
  chaotic c <= Double.literal (3 # 10) ->
  focused c <= Double.literal (3 # 10) ->
  Forall2 (drawn_shape c width height base_color) shapes opss ->
  Forall (fun s => trio (shape_kind s)) shapes.
Proof.
  intros Hc Hf. apply Forall2_left.
  intros s o (Hk & _). unfold expected_kind in Hk.
  apply Qgtb_false in Hc, Hf. now rewrite Hc, Hf in Hk.
Qed.

(** The two dimensions that the scan of the text leaves alone. *)
Lemma extract_chaotic_focused (analysis : string) :
  exists c, extract_emotional_cues analysis = Ok c /\
            chaotic c == 0 /\ focused c == 0.
Proof.
  destruct (extract_valid analysis) as (c & E & _ & _ & Hc & Hf). eauto.
Qed.

(** C9.  The vector extracted from a text has chaotic and focused equal to
    0; so, when the pipeline draws from it, every shape is a circle, a
    rectangle or a polygon, never the chaos or the focused variant, and the
    condition of the blur in [apply_emotional_filters] is false. *)
Theorem text_path_never_chaotic (analysis : string) :
  exists c,
    extract_emotional_cues analysis = Ok c /\
    chaotic c == 0 /\ focused c == 0 /\
    (forall draw,
        wp draw
          (draw_emotional_shapes draw 400 400 c (calculate_base_color c))
          (fun shapes _ =>
             Forall (fun s => shape_kind s <> chaos
                              /\ shape_kind s <> focused_rings) shapes)) /\
    Qgtb (chaotic c) (Double.literal (3 # 10)) = false /\
    Qgtb (focused c) (Double.literal (3 # 10)) = false /\
    Qgtb (chaotic c) (Double.literal (4 # 10)) = false.
Proof.
  destruct (extract_chaotic_focused analysis) as (c & E & Hc & Hf).
  exists c. split; [exact E|]. split; [exact Hc|]. split; [exact Hf|].
  split;
    [|repeat split; apply zero_below_literal; trivial; discriminate].
  intros draw.
  eapply wp_conseq; [apply draw_emotional_shapes_spec; lia|].
  intros shapes ops (_ & opss & _ & HF).
  assert (Ht : Forall (fun s => trio (shape_kind s)) shapes).
  { eapply trio_when_quiet; [| |exact HF].
    - rewrite Hc. apply literal_nonneg. discriminate.
    - rewrite Hf. apply literal_nonneg. discriminate. }
  eapply Forall_impl; [|exact Ht].
  intros s [H|[H|H]]; rewrite H; split; discriminate.
Qed.

(** The calls of a pass without the chaos and the focused variants: one
    filled ellipse, rectangle or triangle for every shape. *)
Lemma trio_calls (c : cues) (width height : Z) (base_color : rgb)
    (shapes : list shape) (opss : list (list draw_op)) :
  chaotic c <= Double.literal (3 # 10) ->
  focused c <= Double.literal (3 # 10) ->
  Forall2 (drawn_shape c width height base_color) shapes opss ->
  List.length (List.concat opss) = List.length shapes /\
  Forall (trio_op width height) (List.concat opss).
Proof.
  intros Hc Hf HF. apply Qgtb_false in Hc, Hf.
  apply concat_singletons; [symmetry; exact (Forall2_length HF)|].
  clear -Hc Hf HF.
  induction HF as [|s o shapes opss (Hk & Hr & Ho) _ IH]; constructor;
    [|exact IH].
  unfold expected_kind in Hk. rewrite Hc, Hf in Hk.
  unfold shape_in_range in Hr. destruct base_color as [[br bg] bb].
  destruct (shape_color s) as [[[r g] b] a] eqn:Ecol.
  destruct Hr as (Hx & Hy & Hs & _).
  unfold renders in Ho.
  destruct Hk as [Hk|[Hk|Hk]]; rewrite Hk in Ho; subst o;
    (eexists; split; [reflexivity|]);
    exists (shape_x s), (shape_y s), (shape_size s), (shape_color s);
    unfold square; auto 8.
Qed.

(** C3.  On the example text the extraction counts 3 positive, 2 negative,
    1 energetic and 0 calm hits and returns the vector of the doubles
    nearest to 1/2, 1/3 and 1/6, and of three zeros; the base colour of
    that vector is (148, 102, 85); the drawing loop runs 16 times and
    draws exactly 16 shapes on the canvas, one call each: a filled
    ellipse, rectangle or triangle.  The doubles of the machine give the
    same colour and the same count. *)
Theorem end_to_end_example :
  let text := Str.lower example_text in
  scan_terms text positive_terms 0 = 3%Z /\
  scan_terms text negative_terms 0 = 2%Z /\
  scan_terms text energetic_terms 0 = 1%Z /\
  scan_terms text calm_terms 0 = 0%Z /\
  exists c,
    extract_emotional_cues example_text = Ok c /\
    (positive c == 1 # 2 /\
     negative c = Double.round (1 # 3) /\
     energetic c = Double.round (1 # 6) /\
     Qabs (negative c - (1 # 3)) <= Double.pow2 (-55) /\
     Qabs (energetic c - (1 # 6)) <= Double.pow2 (-56) /\
     calm c == 0 /\ chaotic c == 0 /\ focused c == 0) /\
    calculate_base_color c = (148, 102, 85)%Z /\
    num_shapes c = 16%Z /\
    (forall draw,
        wp draw
          (draw_emotional_shapes draw 400 400 c (calculate_base_color c))
          (fun shapes ops =>
             List.length shapes = 16%nat /\
             Forall (fun s => trio (shape_kind s)) shapes /\
             (exists opss,
                 ops = List.concat opss /\
                 Forall2 (drawn_shape c 400 400 (148, 102, 85)%Z)
                   shapes opss) /\
             List.length ops = 16%nat /\
             Forall (trio_op 400 400) ops)) /\
    Binary64.calculate_base_color
      (Binary64.extract_emotional_cues example_text)
    = Some (148, 102, 85)%Z /\
    Binary64.num_shapes (Binary64.extract_emotional_cues example_text)
    = Some 16%Z.
Proof.
  cbv zeta.
  repeat (split; [vm_compute; reflexivity|]).
  eexists. split; [vm_compute; reflexivity|].
  match goal with |- context [num_shapes ?c = 16%Z] => set (cv := c) end.
  assert (Hcol : calculate_base_color cv = (148, 102, 85)%Z)
    by (vm_compute; reflexivity).
  assert (Hnum : num_shapes cv = 16%Z) by (vm_compute; reflexivity).
  split.
  { repeat split; try (vm_compute; reflexivity);
      vm_compute; discriminate. }
  split; [exact Hcol|]. split; [exact Hnum|].
  split; [|split; vm_compute; reflexivity].
  intros draw. rewrite Hcol.
  eapply wp_conseq; [apply draw_emotional_shapes_spec; lia|].
  intros shapes ops (Hlen & opss & -> & HF). rewrite Hnum in Hlen.
  assert (Hc : forall x : Q, x == 0 -> x <= Double.literal (3 # 10)).
  { intros x ->. apply literal_nonneg. discriminate. }
  split; [exact Hlen|].
  split.
  { eapply trio_when_quiet; [| |exact HF]; apply Hc; reflexivity. }
  split; [exists opss; split; [reflexivity|exact HF]|].
  destruct (trio_calls cv 400 400 _ shapes opss
              (Hc (chaotic cv) ltac:(reflexivity))
              (Hc (focused cv) ltac:(reflexivity)) HF)
    as [Hl Hops].
  split; [now rewrite Hl|exact Hops].
Qed.

(** ** The heap *)

Lemma new_spec (mode : string) (size : Z * Z) (color : rgb) (w : world) :
  exists w',
    Pillow.new mode size color w = (Ok (List.length (heap w)), w') /\
    nth_error (heap w') (List.length (heap w))
    = Some (mkImage mode size color []).
Proof.
  eexists. split; [reflexivity|]. simpl.
  now rewrite nth_error_app2, Nat.sub_diag by lia.
Qed.

Lemma nth_error_snoc {A : Type} (l : list A) (a : A) :
  nth_error (l ++ [a]) (List.length l) = Some a.
Proof. now rewrite nth_error_app2, Nat.sub_diag by lia. Qed.

Lemma filter_spec (r : ref) (f : image_filter) (w : world) (i : image) :
  nth_error (heap w) r = Some i ->
  Pillow.filter r f w
  = (Ok (List.length (heap w)),
     mkWorld (tape w) (cursor w) (heap w ++ [filtered i f])).
Proof.
  intros H. unfold Pillow.filter, bind, Pillow.deref. now rewrite H.
Qed.

(** The filter stage allocates the filtered copies and leaves every image
    that existed before as it was. *)
Lemma apply_emotional_filters_spec (r : ref) (c : cues) (w : world)
    (i : image) :
  nth_error (heap w) r = Some i ->
  let blurred :=
    if Qgtb (chaotic c) (Double.literal (4 # 10))
    then [filtered i (GaussianBlur 1)]
    else [] in
  let last := match blurred with b :: _ => b | [] => i end in
  let smoothed :=
    if Qgtb (calm c) (Double.literal (6 # 10))
    then [filtered last SMOOTH]
    else [] in
  apply_emotional_filters r c w
  = (Ok tt, mkWorld (tape w) (cursor w) (heap w ++ blurred ++ smoothed)).
Proof.
  intros H. unfold apply_emotional_filters.
  pose proof (filter_spec (List.length (heap w)) SMOOTH
                (mkWorld (tape w) (cursor w)
                   (heap w ++ [filtered i (GaussianBlur 1)]))
                (filtered i (GaussianBlur 1))
                (nth_error_snoc (heap w) _)) as H2.
  cbn [heap tape cursor] in H2.
  destruct (Qgtb (chaotic c) (Double.literal (4 # 10))),
    (Qgtb (calm c) (Double.literal (6 # 10)));
    cbv zeta; unfold bind at 1.
  - rewrite (filter_spec _ _ _ _ H). unfold bind.
    rewrite H2. unfold ret. now rewrite <- app_assoc.
  - rewrite (filter_spec _ _ _ _ H).
    unfold bind, ret. now rewrite app_nil_r.
  - unfold ret at 1. unfold bind.
    rewrite (filter_spec _ SMOOTH _ _ H). reflexivity.
  - unfold bind, ret. rewrite !app_nil_r. now destruct w.
Qed.

Section Pipeline.

Variable png_encode : image -> string.
Variable b64encode : string -> string.
Variable py_str : json -> string.

(** The run of the pipeline, with and without its filter stage. *)
Lemma visualization_runs (c : cues) (w : world) :
  exists ops w2,
    let im := add_paints blank_canvas ops in
    let blurred :=
      if Qgtb (chaotic c) (Double.literal (4 # 10))
      then [filtered im (GaussianBlur 1)]
      else [] in
    let last := match blurred with b :: _ => b | [] => im end in
    let smoothed :=
      if Qgtb (calm c) (Double.literal (6 # 10))
      then [filtered last SMOOTH]
      else [] in
    generate_abstract_visualization png_encode b64encode c w
    = (Ok (data_uri png_encode b64encode im),
       mkWorld (tape w2) (cursor w2) (heap w2 ++ blurred ++ smoothed)) /\
    visualization_without_filters png_encode b64encode c w
    = (Ok (data_uri png_encode b64encode im), w2) /\
    nth_error (heap w2) (List.length (heap w)) = Some im.
Proof.
  destruct (new_spec "RGB" (400, 400)%Z (0, 0, 0)%Z w) as (w1 & E1 & H1).
  destruct (draw_emotional_shapes_spec (List.length (heap w)) 400 400 c
              (calculate_base_color c) ltac:(lia) ltac:(lia) w1 _ H1)
    as (shapes & ops & w2 & E2 & H2 & _).
  pose proof (apply_emotional_filters_spec _ c w2 _ H2) as E3.
  cbv zeta in E3.
  exists ops, w2. cbv zeta.
  assert (Hlt : (List.length (heap w) < List.length (heap w2))%nat).
  { apply nth_error_Some. rewrite H2. discriminate. }
  repeat split.
  - unfold generate_abstract_visualization, Pillow.Draw.
    unfold bind at 1. rewrite E1.
    unfold bind at 1. unfold ret at 1.
    unfold bind at 1. rewrite E2.
    unfold bind at 1. fold blank_canvas in E3. rewrite E3.
    unfold bind at 1. unfold save_png, bind, Pillow.deref.
    cbn [heap]. rewrite nth_error_app1, H2 by exact Hlt.
    reflexivity.
  - unfold visualization_without_filters, Pillow.Draw.
    unfold bind at 1. rewrite E1.
    unfold bind at 1. unfold ret at 1.
    unfold bind at 1. rewrite E2.
    unfold bind at 1. unfold save_png, bind, Pillow.deref.
    rewrite H2. reflexivity.
  - exact H2.
Qed.

(** C1 (what the program does).  With chaotic above 0.4 the filter stage
    builds the blurred copy of the canvas, but the copy is bound to a local
    name only: the image that is encoded is the canvas as the drawing loop
    left it, with no filter pass in its history, and the data URI is the one
    of the pipeline without the filter stage. *)
Theorem blur_not_encoded (c : cues) (w : world) :
  Double.literal (4 # 10) < chaotic c ->
  exists im w1 w2,
    generate_abstract_visualization png_encode b64encode c w
    = (Ok (data_uri png_encode b64encode im), w1) /\
    visualization_without_filters png_encode b64encode c w
    = (Ok (data_uri png_encode b64encode im), w2) /\
    (exists ops, img_edits im = map Paint ops) /\
    nth_error (heap w1) (List.length (heap w)) = Some im /\
    In (filtered im (GaussianBlur 1)) (heap w1).
Proof.
  intros Hc. apply Qgtb_true in Hc.
  destruct (visualization_runs c w) as (ops & w2 & Hrun).
  cbv zeta in Hrun. rewrite Hc in Hrun.
  destruct Hrun as (E1 & E2 & H2).
  eexists _, _, w2. split; [exact E1|]. split; [exact E2|].
  split; [exists ops; reflexivity|].
  cbn [heap]. split.
  - rewrite nth_error_app1; [exact H2|].
    apply nth_error_Some. rewrite H2. discriminate.
  - apply in_or_app. right. now left.
Qed.

(** ** The fallback image *)

Lemma draw_fallback_shape_spec (r : ref) :
  wp r (draw_fallback_shape r 400 400)
    (fun _ ops => exists op, ops = [op] /\ fallback_op op).
Proof.
  unfold draw_fallback_shape.
  apply wp_bind, wp_randint; [lia|intros x Hx].
  apply wp_bind, wp_randint; [lia|intros y Hy].
  apply wp_bind, wp_randint; [lia|intros size Hsize].
  apply wp_bind, wp_randint; [lia|intros cr Hr].
  apply wp_bind, wp_randint; [lia|intros cg Hg].
  apply wp_bind, wp_randint; [lia|intros cb Hb].
  apply wp_bind, wp_choice; [discriminate|intros ch _].
  destruct ch; apply wp_paint; cbn [app];
    (eexists; split; [reflexivity|]);
    exists x, y, size, cr, cg, cb; repeat split; try lia; auto.
Qed.

(** The fallback renderer returns from every world. *)
Lemma generate_fallback_image_spec (w : world) :
  exists im w',
    generate_fallback_image png_encode b64encode w
    = (Ok (data_uri png_encode b64encode im), w') /\
    fallback_picture im.
Proof.
  destruct (new_spec "RGB" (400, 400)%Z (30, 30, 50)%Z w) as (w1 & E1 & H1).
  destruct (wp_repeat (List.length (heap w)) 20 _ _
              (draw_fallback_shape_spec _) w1 _ H1)
    as (us & ops & w2 & E2 & H2 & opss & -> & HF & Hlen).
  exists (add_paints (mkImage "RGB" (400, 400)%Z (30, 30, 50)%Z [])
            (List.concat opss)), w2.
  split.
  - unfold generate_fallback_image, Pillow.Draw.
    unfold bind at 1. rewrite E1.
    unfold bind at 1. unfold ret at 1.
    unfold bind at 1. rewrite E2.
    unfold bind at 1. unfold save_png, bind, Pillow.deref.
    rewrite H2. reflexivity.
  - unfold fallback_picture. cbn [add_paints img_mode img_size img_fill
                                  img_edits app].
    repeat split. exists (List.concat opss). split; [reflexivity|].
    apply concat_singletons.
    + now rewrite <- (Forall2_length HF).
    + clear -HF. induction HF; constructor; auto.
Qed.

(** *** The fallback image as a function of the draws *)

Lemma choice_even (n : nat) : nth (n mod 2) [true; false] true = Nat.even n.
Proof.
  rewrite (Nat.div_mod_eq n 2) at 2.
  rewrite Nat.add_comm, Nat.even_add_mul_2.
  pose proof (Nat.mod_upper_bound n 2 ltac:(discriminate)) as H.
  destruct (n mod 2)%nat as [|[|k]]; [reflexivity|reflexivity|lia].
Qed.

Lemma even_mod (n m : nat) :
  Nat.even n = Nat.even m <-> (n mod 2 = m mod 2)%nat.
Proof.
  rewrite <- !choice_even.
  pose proof (Nat.mod_upper_bound n 2 ltac:(discriminate)) as Hn.
  pose proof (Nat.mod_upper_bound m 2 ltac:(discriminate)) as Hm.
  destruct (n mod 2)%nat as [|[|k]], (m mod 2)%nat as [|[|l]];
    simpl; split; intros H; try reflexivity; try discriminate; lia.
Qed.

Lemma pick_range (a b : Z) (n : nat) : (a <= b)%Z -> (a <= pick a b n <= b)%Z.
Proof.
  intros H. unfold pick.
  pose proof (Z.mod_pos_bound (Z.of_nat n) (b - a + 1)). lia.
Qed.

(** Every integer of the range is picked, from the draw that is its
    distance from the lower bound. *)
Lemma pick_hit (a b v : Z) :
  (a <= v <= b)%Z -> pick a b (Z.to_nat (v - a)) = v.
Proof.
  intros H. unfold pick. rewrite Z2Nat.id by lia.
  rewrite Z.mod_small by lia. lia.
Qed.

(** Two draws pick the same integer exactly when they agree modulo the
    number of integers of the range. *)
Lemma pick_same (a b : Z) (m n n' : nat) :
  (b - a + 1)%Z = Z.of_nat m -> m <> 0%nat ->
  pick a b n = pick a b n' <-> (n mod m = n' mod m)%nat.
Proof.
  intros Hm Hne. unfold pick. rewrite Hm, <- !Nat2Z.inj_mod.
  split; intros H; [apply Nat2Z.inj; lia|now rewrite H].
Qed.

Lemma fallback_shape_ext (d d' : nat -> nat) :
  (forall j, d j = d' j) -> fallback_shape d = fallback_shape d'.
Proof. intros H. unfold fallback_shape. now rewrite !H. Qed.

Lemma fallback_shapes_step (t : nat -> nat) (c n : nat) :
  fallback_shapes t c (S n)
  = fallback_shape (fun j => t (j + c)%nat) :: fallback_shapes t (7 + c) n.
Proof.
  unfold fallback_shapes. cbn [seq map].
  rewrite <- seq_shift, map_map. f_equal.
  apply map_ext. intros k. apply fallback_shape_ext.
  intros j. f_equal. lia.
Qed.

(** One iteration reads seven draws and paints their shape. *)
Lemma draw_fallback_shape_run (r : ref) (w : world) :
  draw_fallback_shape r 400 400 w
  = Pillow.paint r (fallback_shape (fun j => tape w (j + cursor w)%nat))
      (mkWorld (tape w) (7 + cursor w) (heap w)).
Proof.
  unfold draw_fallback_shape, fallback_shape, pick,
    Random.randint, Random.choice, Random.draw.
  cbn [Z.ltb Z.compare Pos.compare Pos.compare_cont].
  unfold bind, ret.
  cbn [tape cursor heap List.length Nat.add].
  rewrite choice_even.
  destruct (Nat.even (tape w (S (S (S (S (S (S (cursor w)))))))));
    reflexivity.
Qed.

(** The loop paints the shapes of its iterations, seven draws each. *)
Lemma fallback_loop (r : ref) (n : nat) (w : world) (i : image) :
  nth_error (heap w) r = Some i ->
  exists w',
    repeat_m n (draw_fallback_shape r 400 400) w
    = (Ok (List.repeat tt n), w') /\
    tape w' = tape w /\ cursor w' = (7 * n + cursor w)%nat /\
    nth_error (heap w') r
    = Some (add_paints i (fallback_shapes (tape w) (cursor w) n)).
Proof.
  revert w i. induction n as [|n IH]; intros w i Hi.
  - exists w. cbn [repeat_m List.repeat]. unfold ret.
    rewrite add_paints_nil. auto.
  - set (op := fallback_shape (fun j => tape w (j + cursor w)%nat)).
    pose proof (nth_error_update (heap w) r
                  (fun j => mkImage (img_mode j) (img_size j) (img_fill j)
                              (img_edits j ++ [Paint op])) i Hi) as Hu.
    destruct (IH (mkWorld (tape w) (7 + cursor w)
                    (update (heap w) r
                       (fun j => mkImage (img_mode j) (img_size j)
                                   (img_fill j)
                                   (img_edits j ++ [Paint op]))))
                 _ Hu)
      as (w' & E & Ht & Hc & Hh).
    cbn [tape cursor heap] in E, Ht, Hc, Hh.
    exists w'. split; [|split; [exact Ht|split; [rewrite Hc; lia|]]].
    + cbn [repeat_m List.repeat]. unfold bind.
      rewrite draw_fallback_shape_run. unfold Pillow.paint. fold op.
      cbn [tape cursor heap]. rewrite E. reflexivity.
    + rewrite Hh, fallback_shapes_step. fold op.
      f_equal. unfold add_paints. cbn [img_mode img_size img_fill img_edits].
      now rewrite <- app_assoc.
Qed.

(** The fallback renderer returns from every world: the image of the 140
    draws that follow the cursor. *)
Lemma generate_fallback_image_run (w : world) :
  exists w',
    generate_fallback_image png_encode b64encode w
    = (Ok (data_uri png_encode b64encode
             (fallback_image (tape w) (cursor w))), w') /\
    tape w' = tape w /\ cursor w' = (140 + cursor w)%nat.
Proof.
  destruct (fallback_loop (List.length (heap w)) 20
              (mkWorld (tape w) (cursor w)
                 (heap w ++ [mkImage "RGB" (400, 400)%Z (30, 30, 50)%Z []]))
              _ (nth_error_snoc (heap w) _))
    as (w' & E & Ht & Hc & Hh).
  cbn [tape cursor heap] in E, Ht, Hc, Hh.
  exists w'. split; [|split; [exact Ht|exact Hc]].
  unfold generate_fallback_image, Pillow.Draw, Pillow.new.
  unfold bind at 1. unfold bind at 1. unfold ret at 1.
  unfold bind at 1. rewrite E.
  unfold bind at 1. unfold save_png, bind, Pillow.deref.
  rewrite Hh. reflexivity.
Qed.

(** The shapes of the fallback image are the ellipses and rectangles of
    the stated ranges, all of them. *)
Lemma fallback_shape_onto (op : draw_op) :
  fallback_op op <-> exists d, fallback_shape d = op.
Proof.
  split.
  - intros (x & y & size & r & g & b & Hx & Hy & Hs & Hr & Hg & Hb & Hop).
    destruct Hop as [->| ->];
      [exists (fun j => match j with
                        | 0 => Z.to_nat (x - 0)
                        | 1 => Z.to_nat (y - 0)
                        | 2 => Z.to_nat (size - 20)
                        | 3 => Z.to_nat (r - 100)
                        | 4 => Z.to_nat (g - 100)
                        | 5 => Z.to_nat (b - 100)
                        | _ => 0
                        end)%nat
      |exists (fun j => match j with
                        | 0 => Z.to_nat (x - 0)
                        | 1 => Z.to_nat (y - 0)
                        | 2 => Z.to_nat (size - 20)
                        | 3 => Z.to_nat (r - 100)
                        | 4 => Z.to_nat (g - 100)
                        | 5 => Z.to_nat (b - 100)
                        | _ => 1
                        end)%nat];
      unfold fallback_shape; cbn [Nat.even];
      now rewrite !pick_hit by assumption.
  - intros (d & <-). unfold fallback_op, fallback_shape.
    exists (pick 0 400 (d 0%nat)), (pick 0 400 (d 1%nat)),
      (pick 20 80 (d 2%nat)), (pick 100 200 (d 3%nat)),
      (pick 100 200 (d 4%nat)), (pick 100 200 (d 5%nat)).
    repeat (split; [apply pick_range; lia|]).
    destruct (Nat.even (d 6%nat)); auto.
Qed.

(** A shape of the fallback image shows its seven parameters. *)
Lemma shape_parameters (k k' : bool) (x y s r g b x' y' s' r' g' b' : Z) :
  (if k
   then Ellipse (x, y, x + s, y + s)%Z (Some (r, g, b, 150%Z)) None 1
   else Rectangle (x, y, x + s, y + s)%Z (Some (r, g, b, 150%Z)))
  = (if k'
     then Ellipse (x', y', x' + s', y' + s')%Z (Some (r', g', b', 150%Z))
            None 1
     else Rectangle (x', y', x' + s', y' + s')%Z (Some (r', g', b', 150%Z)))
  ->
  x = x' /\ y = y' /\ s = s' /\ r = r' /\ g = g' /\ b = b' /\ k = k'.
Proof.
  destruct k, k'; intros H; try discriminate H;
    injection H; intros; repeat split; trivial; lia.
Qed.

(** Two runs of draws give the same shape exactly when they agree modulo
    the number of values of each choice: the shape is a one-to-one
    function of the seven residues. *)
Lemma fallback_shape_one_to_one (d d' : nat -> nat) :
  fallback_shape d = fallback_shape d' <-> same_residues d d'.
Proof.
  unfold same_residues.
  rewrite <- (pick_same 0 400 401 (d 0%nat) (d' 0%nat))
    by (reflexivity || discriminate).
  rewrite <- (pick_same 0 400 401 (d 1%nat) (d' 1%nat))
    by (reflexivity || discriminate).
  rewrite <- (pick_same 20 80 61 (d 2%nat) (d' 2%nat))
    by (reflexivity || discriminate).
  rewrite <- (pick_same 100 200 101 (d 3%nat) (d' 3%nat))
    by (reflexivity || discriminate).
  rewrite <- (pick_same 100 200 101 (d 4%nat) (d' 4%nat))
    by (reflexivity || discriminate).
  rewrite <- (pick_same 100 200 101 (d 5%nat) (d' 5%nat))
    by (reflexivity || discriminate).
  rewrite <- even_mod.
  unfold fallback_shape. split.
  - intros H. apply shape_parameters in H. tauto.
  - intros (-> & -> & -> & -> & -> & -> & ->). reflexivity.
Qed.

Lemma fallback_image_picture (t : nat -> nat) (c : nat) :
  fallback_picture (fallback_image t c).
Proof.
  unfold fallback_picture, fallback_image.
  cbn [img_mode img_size img_fill img_edits].
  repeat split. exists (fallback_shapes t c 20).
  split; [reflexivity|]. split.
  - unfold fallback_shapes. now rewrite length_map, length_seq.
  - unfold fallback_shapes. apply Forall_forall. intros op Hop.
    apply in_map_iff in Hop. destruct Hop as (k & <- & _).
    apply fallback_shape_onto. eauto.
Qed.

(** C4.  When a step of the [try] block raises, whatever the step and the
    error, the handler returns normally: its response pairs the fixed
    description with the data URI of the fallback image, and the fallback
    renderer returns from every world.  The fallback image is a 400 x 400
    canvas filled with (30, 30, 50) that carries 20 shapes.  Each shape is
    made of seven draws of the random source, one for each of its random
    choices: the position on each axis in 0..400, the size in 20..80, the
    three colour channels in 100..200, and the kind, ellipse or rectangle;
    the alpha is 150.  Every choice is uniform in this sense: every shape
    of these ranges comes from some draws, and two runs of draws give the
    same shape exactly when each draw agrees with its counterpart modulo
    the number of values of its choice, so that every value of a choice is
    the image of one residue of its own draw. *)
Theorem failure_falls_back (extract_stage : json -> M cues)
    (visualization_stage : cues -> M string) (body : result json)
    (w w1 : world) (e : exn) :
  emotion_image_try py_str extract_stage visualization_stage body w
  = (Raise e, w1) ->
  (exists w2,
      generate_emotion_image_with png_encode b64encode py_str
        extract_stage visualization_stage body w
      = (Ok (mkResponse
               (data_uri png_encode b64encode
                  (fallback_image (tape w1) (cursor w1)))
               fallback_description), w2) /\
      tape w2 = tape w1 /\ cursor w2 = (140 + cursor w1)%nat) /\
  (forall w0, exists w2,
      generate_fallback_image png_encode b64encode w0
      = (Ok (data_uri png_encode b64encode
               (fallback_image (tape w0) (cursor w0))), w2) /\
      tape w2 = tape w0 /\ cursor w2 = (140 + cursor w0)%nat) /\
  (forall t c, fallback_picture (fallback_image t c)) /\
  (forall op, fallback_op op <-> exists d, fallback_shape d = op) /\
  (forall d d', fallback_shape d = fallback_shape d' <-> same_residues d d').
Proof.
  intros Hraise.
  split; [|split; [apply generate_fallback_image_run|]].
  - destruct (generate_fallback_image_run w1) as (w2 & E & Ht & Hc).
    exists w2. split; [|split; assumption].
    unfold generate_emotion_image_with, try_except. rewrite Hraise.
    unfold emotion_image_except, bind. rewrite E. reflexivity.
  - split; [apply fallback_image_picture|].
    split; [apply fallback_shape_onto|apply fallback_shape_one_to_one].
Qed.

End Pipeline.

(** ** Concrete runs *)

Lemma blur_not_encoded_witness :
  Double.literal (4 # 10) < chaotic (mkCues 0 0 0 0 1 0) /\
  exists im w1 w2,
    generate_abstract_visualization png0 b640 (mkCues 0 0 0 0 1 0) world0
    = (Ok (data_uri png0 b640 im), w1) /\
    visualization_without_filters png0 b640 (mkCues 0 0 0 0 1 0) world0
    = (Ok (data_uri png0 b640 im), w2) /\
    (exists ops, img_edits im = map Paint ops) /\
    nth_error (heap w1) (List.length (heap world0)) = Some im /\
    In (filtered im (GaussianBlur 1)) (heap w1).
Proof.
  split; [reflexivity|].
  apply (blur_not_encoded png0 b640 (mkCues 0 0 0 0 1 0) world0).
  reflexivity.
Defined.

Lemma failure_falls_back_witness :
  emotion_image_try str0
    (fun analysis => lift (extract_emotional_cues_of analysis))
    (generate_abstract_visualization png0 b640) bad_request world0
  = (Raise AttributeError, world0) /\
  exists w2,
    generate_emotion_image png0 b640 str0 bad_request world0
    = (Ok (mkResponse (data_uri png0 b640 (fallback_image tape0 0))
             fallback_description), w2) /\
    tape w2 = tape0 /\ cursor w2 = 140%nat.
Proof.
  split; [reflexivity|].
  exact (proj1 (failure_falls_back png0 b640 str0
                  (fun analysis => lift (extract_emotional_cues_of analysis))
                  (generate_abstract_visualization png0 b640)
                  bad_request world0 world0 AttributeError eq_refl)).
Defined.

(** * Further properties *)

(** ** The cue vector *)

(** X1.  Every value of an extracted vector lies between 0 and 1. *)
Theorem extract_unit_interval (analysis : string) :
  exists c, extract_emotional_cues analysis = Ok c /\ in_unit c.
Proof.
  destruct (extract_valid analysis) as (c & E & _ & Hu & _). eauto.
Qed.

Lemma count_scan_absent (sub s : string) (skip : nat) :
  Str.contains sub s = false -> Str.count_scan sub skip s = 0%nat.
Proof.
  revert skip. induction s as [|ch s IH]; intros skip H; [reflexivity|].
  cbn [Str.contains] in H. apply orb_false_iff in H. destruct H as [Hp Hc].
  cbn [Str.count_scan]. destruct skip as [|k]; [rewrite Hp|]; now apply IH.
Qed.

Lemma count_absent (sub s : string) :
  Str.contains sub s = false -> Str.count s sub = 0%nat.
Proof.
  intros H. destruct sub as [|ch sub].
  - destruct s; discriminate.
  - now apply count_scan_absent.
Qed.

(** X2.  The test [if term in text] of the four scans changes nothing: each
    accumulator is the sum of [text.count(term)] over its list, because a
    term that does not occur is counted 0 times. *)
Theorem scan_terms_sum_counts (text : string) (terms : list string)
    (acc : Z) :
  scan_terms text terms acc = sum_counts text terms acc.
Proof.
  unfold scan_terms, sum_counts. revert acc.
  induction terms as [|t ts IH]; intros acc; [reflexivity|].
  cbn [fold_left]. destruct (Str.contains t text) eqn:E.
  - apply IH.
  - rewrite (count_absent _ _ E), Z.add_0_r. apply IH.
Qed.

(** ** The drawing loop *)

Lemma clamp255_near (base d : Z) :
  (-50 <= d <= 50)%Z ->
  (Z.abs (clamp255 (base + d) - clamp255 base) <= 50)%Z.
Proof. unfold clamp255. lia. Qed.

(** X3.  Every shape of a pass lies at a position of the canvas, has a size
    of 10..100, an alpha of 100..200 and colour channels of 0..255, each
    within 50 of the (clamped) channel of the base colour. *)
Theorem shapes_in_range (draw : ref) (width height : Z) (c : cues)
    (base_r base_g base_b : Z) :
  (0 <= width)%Z -> (0 <= height)%Z ->
  wp draw
    (draw_emotional_shapes draw width height c (base_r, base_g, base_b))
    (fun shapes _ =>
       Forall (fun s =>
         let '(r, g, b, a) := shape_color s in
         (0 <= shape_x s <= width)%Z /\ (0 <= shape_y s <= height)%Z /\
         (10 <= shape_size s <= 100)%Z /\ (100 <= a <= 200)%Z /\
         (0 <= r <= 255)%Z /\ (0 <= g <= 255)%Z /\ (0 <= b <= 255)%Z /\
         (Z.abs (r - clamp255 base_r) <= 50)%Z /\
         (Z.abs (g - clamp255 base_g) <= 50)%Z /\
         (Z.abs (b - clamp255 base_b) <= 50)%Z) shapes).
Proof.
  intros Hw Hh.
  eapply wp_conseq; [now apply draw_emotional_shapes_spec|].
  intros shapes ops (_ & opss & _ & HF).
  eapply Forall2_left; [|exact HF].
  intros s o (_ & Hr & _). unfold shape_in_range in Hr.
  destruct (shape_color s) as [[[r g] b] a].
  destruct Hr as (Hx & Hy & Hs & (dr & Hdr & ->) & (dg & Hdg & ->)
                  & (db & Hdb & ->) & Ha).
  repeat split; try lia; try apply clamp255_range;
    now apply clamp255_near.
Qed.

Lemma shapes_in_range_witness :
  ((0 <= 400)%Z /\ (0 <= 400)%Z) /\
  wp 0%nat
    (draw_emotional_shapes 0%nat 400 400 (mkCues 1 0 0 0 0 0) (255, 204, 0)%Z)
    (fun shapes _ =>
       Forall (fun s =>
         let '(r, g, b, a) := shape_color s in
         (0 <= shape_x s <= 400)%Z /\ (0 <= shape_y s <= 400)%Z /\
         (10 <= shape_size s <= 100)%Z /\ (100 <= a <= 200)%Z /\
         (0 <= r <= 255)%Z /\ (0 <= g <= 255)%Z /\ (0 <= b <= 255)%Z /\
         (Z.abs (r - clamp255 255) <= 50)%Z /\
         (Z.abs (g - clamp255 204) <= 50)%Z /\
         (Z.abs (b - clamp255 0) <= 50)%Z) shapes).
Proof.
  split; [split; discriminate|].
  apply (shapes_in_range 0%nat 400 400 (mkCues 1 0 0 0 0 0) 255 204 0);
    discriminate.
Defined.

(** X4.  When chaotic does not exceed 0.3 and focused does, every shape of
    the pass is of the focused type: three unfilled ellipses of outline
    width 2 around the square of the shape, each 10 wider on every side
    than the one before. *)
Theorem focused_when_not_chaotic (draw : ref) (width height : Z) (c : cues)
    (base_color : rgb) :
  chaotic c <= Double.literal (3 # 10) ->
  Double.literal (3 # 10) < focused c ->
  (0 <= width)%Z -> (0 <= height)%Z ->
  wp draw (draw_emotional_shapes draw width height c base_color)
    (fun shapes ops =>
       Forall (fun s => shape_kind s = focused_rings) shapes /\
       ops = List.concat
               (map (fun s => [ring s 0; ring s 1; ring s 2]) shapes)).
Proof.
  intros Hc Hf Hw Hh.
  eapply wp_conseq; [now apply draw_emotional_shapes_spec|].
  intros shapes ops (_ & opss & -> & HF).
  apply Qgtb_false in Hc. apply Qgtb_true in Hf.
  induction HF as [|s o shapes opss (Hk & _ & Hr) _ [IH1 IH2]].
  - split; [constructor|reflexivity].
  - unfold expected_kind in Hk. rewrite Hc, Hf in Hk.
    unfold renders in Hr. rewrite Hk in Hr. subst o.
    split; [now constructor|].
    cbn [map List.concat]. now rewrite IH2.
Qed.

Lemma focused_when_not_chaotic_witness :
  (chaotic (mkCues 0 0 0 0 (1 # 4) (3 # 4)) <= Double.literal (3 # 10) /\
   Double.literal (3 # 10) < focused (mkCues 0 0 0 0 (1 # 4) (3 # 4)) /\
   (0 <= 400)%Z /\ (0 <= 400)%Z) /\
  wp 0%nat
    (draw_emotional_shapes 0%nat 400 400 (mkCues 0 0 0 0 (1 # 4) (3 # 4))
       (0, 0, 0)%Z)
    (fun shapes ops =>
       Forall (fun s => shape_kind s = focused_rings) shapes /\
       ops = List.concat
               (map (fun s => [ring s 0; ring s 1; ring s 2]) shapes)).
Proof.
  split; [repeat split; vm_compute; first [reflexivity|discriminate]|].
  apply (focused_when_not_chaotic 0%nat 400 400
           (mkCues 0 0 0 0 (1 # 4) (3 # 4)) (0, 0, 0)%Z);
    vm_compute; first [reflexivity|discriminate].
Defined.

(** ** The pipeline on a text *)

Lemma num_shapes_bounds (c : cues) :
  0 <= energetic c <= 1 -> (10 <= num_shapes c <= 50)%Z.
Proof.
  intros [H0 H1].
  destruct (num_shapes_floor c H0) as (_ & _ & _ & _ & Hu).
  now destruct (Hu H1).
Qed.

Section TextPipeline.

Variable png_encode : image -> string.
Variable b64encode : string -> string.
Variable py_str : json -> string.

(** The run of the pipeline, with the shapes of the drawing loop. *)
Lemma visualization_runs_shapes (c : cues) (w : world) :
  exists shapes opss w2,
    let im := add_paints blank_canvas (List.concat opss) in
    let blurred :=
      if Qgtb (chaotic c) (Double.literal (4 # 10))
      then [filtered im (GaussianBlur 1)]
      else [] in
    let last := match blurred with b :: _ => b | [] => im end in
    let smoothed :=
      if Qgtb (calm c) (Double.literal (6 # 10))
      then [filtered last SMOOTH]
      else [] in
    generate_abstract_visualization png_encode b64encode c w
    = (Ok (data_uri png_encode b64encode im),
       mkWorld (tape w2) (cursor w2) (heap w2 ++ blurred ++ smoothed)) /\
    visualization_without_filters png_encode b64encode c w
    = (Ok (data_uri png_encode b64encode im), w2) /\
    List.length shapes = Z.to_nat (num_shapes c) /\
    Forall2 (drawn_shape c 400 400 (calculate_base_color c)) shapes opss.
Proof.
  destruct (new_spec "RGB" (400, 400)%Z (0, 0, 0)%Z w) as (w1 & E1 & H1).
  destruct (draw_emotional_shapes_spec (List.length (heap w)) 400 400 c
              (calculate_base_color c) ltac:(lia) ltac:(lia) w1 _ H1)
    as (shapes & ops & w2 & E2 & H2 & Hlen & opss & -> & HF).
  pose proof (apply_emotional_filters_spec _ c w2 _ H2) as E3.
  cbv zeta in E3.
  exists shapes, opss, w2. cbv zeta.
  assert (Hlt : (List.length (heap w) < List.length (heap w2))%nat).
  { apply nth_error_Some. rewrite H2. discriminate. }
  repeat split; trivial.
  - unfold generate_abstract_visualization, Pillow.Draw.
    unfold bind at 1. rewrite E1.
    unfold bind at 1. unfold ret at 1.
    unfold bind at 1. rewrite E2.
    unfold bind at 1. fold blank_canvas in E3. rewrite E3.
    unfold bind at 1. unfold save_png, bind, Pillow.deref.
    cbn [heap]. rewrite nth_error_app1, H2 by exact Hlt.
    reflexivity.
  - unfold visualization_without_filters, Pillow.Draw.
    unfold bind at 1. rewrite E1.
    unfold bind at 1. unfold ret at 1.
    unfold bind at 1. rewrite E2.
    unfold bind at 1. unfold save_png, bind, Pillow.deref.
    rewrite H2. reflexivity.
Qed.

Lemma text_picture_of_shapes (c : cues) (shapes : list shape)
    (opss : list (list draw_op)) :
  in_unit c -> chaotic c == 0 -> focused c == 0 ->
  List.length shapes = Z.to_nat (num_shapes c) ->
  Forall2 (drawn_shape c 400 400 (calculate_base_color c)) shapes opss ->
  text_picture (add_paints blank_canvas (List.concat opss)).
Proof.
  intros (_ & _ & He & _) Hc Hf Hlen HF.
  assert (Hc' : chaotic c <= Double.literal (3 # 10))
    by (rewrite Hc; apply literal_nonneg; discriminate).
  assert (Hf' : focused c <= Double.literal (3 # 10))
    by (rewrite Hf; apply literal_nonneg; discriminate).
  destruct (trio_calls c 400 400 _ shapes opss Hc' Hf' HF) as [Hl Hops].
  pose proof (num_shapes_bounds c He) as Hn.
  unfold text_picture, blank_canvas.
  cbn [add_paints img_mode img_size img_fill img_edits app].
  repeat split. exists (List.concat opss).
  split; [reflexivity|]. split; [lia|exact Hops].
Qed.

(** The pipeline on a vector as the extraction returns them. *)
Lemma text_pipeline_run (c : cues) :
  in_unit c -> chaotic c == 0 -> focused c == 0 ->
  forall w, exists im w',
    generate_abstract_visualization png_encode b64encode c w
    = (Ok (data_uri png_encode b64encode im), w') /\
    text_picture im.
Proof.
  intros Hu Hc Hf w.
  destruct (visualization_runs_shapes c w)
    as (shapes & opss & w2 & Hrun).
  cbv zeta in Hrun. destruct Hrun as (E1 & _ & Hlen & HF).
  eexists _, _. split; [exact E1|].
  now apply (text_picture_of_shapes c shapes opss).
Qed.

(** X5.  For every text the pipeline returns the data URI of a black
    400 x 400 canvas that carries between 10 and 50 drawing calls, each a
    filled ellipse, rectangle or triangle on a square of side 10..100 at a
    position of the canvas; it never raises. *)
Theorem text_visualization (analysis : string) :
  exists c,
    extract_emotional_cues analysis = Ok c /\
    forall w, exists im w',
      generate_abstract_visualization png_encode b64encode c w
      = (Ok (data_uri png_encode b64encode im), w') /\
      text_picture im.
Proof.
  destruct (extract_valid analysis) as (c & E & _ & Hu & Hc & Hf).
  exists c. split; [exact E|]. now apply text_pipeline_run.
Qed.

(** X6.  For a text whose calm share exceeds 0.6 the filter stage builds
    the smoothed copy of the canvas, but what is encoded is the canvas
    without it: the output is that of the pipeline without the filter
    stage, and the stage consumes no random draw. *)
Theorem smooth_not_encoded (analysis : string) (c : cues) (w : world) :
  extract_emotional_cues analysis = Ok c -> 6 # 10 < calm c ->
  exists im w1 w2,
    generate_abstract_visualization png_encode b64encode c w
    = (Ok (data_uri png_encode b64encode im), w1) /\
    visualization_without_filters png_encode b64encode c w
    = (Ok (data_uri png_encode b64encode im), w2) /\
    text_picture im /\
    tape w1 = tape w2 /\ cursor w1 = cursor w2 /\
    heap w1 = heap w2 ++ [filtered im SMOOTH].
Proof.
  intros E Hk.
  destruct (extract_valid analysis) as (c1 & E1 & _ & Hu & Hc & Hf).
  rewrite E in E1. inversion E1. subst c1.
  destruct (visualization_runs_shapes c w)
    as (shapes & opss & w2 & Hrun).
  cbv zeta in Hrun.
  assert (Hb : Qgtb (chaotic c) (Double.literal (4 # 10)) = false)
    by (apply zero_below_literal; [exact Hc|discriminate]).
  apply gt_literal_6 in Hk. rewrite Hb, Hk in Hrun.
  destruct Hrun as (R1 & R2 & Hlen & HF).
  eexists _, _, w2. split; [exact R1|]. split; [exact R2|].
  split; [now apply (text_picture_of_shapes c shapes opss)|].
  now cbn.
Qed.

End TextPipeline.

Lemma smooth_not_encoded_witness :
  (extract_emotional_cues "Calm." = Ok (mkCues 0 0 0 1 0 0) /\
   6 # 10 < calm (mkCues 0 0 0 1 0 0))
  /\
  exists im w1 w2,
    generate_abstract_visualization png0 b640 (mkCues 0 0 0 1 0 0) world0
    = (Ok (data_uri png0 b640 im), w1) /\
    visualization_without_filters png0 b640 (mkCues 0 0 0 1 0 0) world0
    = (Ok (data_uri png0 b640 im), w2) /\
    text_picture im /\
    tape w1 = tape w2 /\ cursor w1 = cursor w2 /\
    heap w1 = heap w2 ++ [filtered im SMOOTH].
Proof.
  split; [split; vm_compute; reflexivity|].
  apply (smooth_not_encoded png0 b640 "Calm."); vm_compute; reflexivity.
Defined.

(** ** The handler of the image requests *)

Section ImageHandler.

Variable png_encode : image -> string.
Variable b64encode : string -> string.
Variable py_str : json -> string.

Lemma emotion_image_fallback (body : result json) (w w1 : world) (e : exn) :
  emotion_image_try py_str
    (fun analysis => lift (extract_emotional_cues_of analysis))
    (generate_abstract_visualization png_encode b64encode) body w
  = (Raise e, w1) ->
  exists im w2,
    generate_emotion_image png_encode b64encode py_str body w
    = (Ok (mkResponse (data_uri png_encode b64encode im)
             fallback_description), w2) /\
    fallback_picture im.
Proof.
  intros Hraise.
  destruct (generate_fallback_image_spec png_encode b64encode w1)
    as (im & w2 & E & Him).
  exists im, w2. split; [|exact Him].
  unfold generate_emotion_image, generate_emotion_image_with, try_except.
  rewrite Hraise. unfold emotion_image_except, bind. rewrite E. reflexivity.
Qed.

Lemma emotion_image_main (fields : list (string * json)) (s : string)
    (w : world) :
  request_analysis fields = JStr s ->
  exists im w2,
    generate_emotion_image png_encode b64encode py_str (Ok (JObj fields)) w
    = (Ok (mkResponse (data_uri png_encode b64encode im)
             ("Abstract visualization of your emotional state regarding "
              ++ format_value py_str (request_life_area fields))%string),
       w2) /\
    text_picture im.
Proof.
  intros Ha.
  destruct (extract_valid s) as (c & E & _ & Hu & Hc & Hf).
  destruct (text_pipeline_run png_encode b64encode c Hu Hc Hf w)
    as (im & w2 & Ev & Him).
  exists im, w2. split; [|exact Him].
  unfold generate_emotion_image, generate_emotion_image_with, try_except,
    emotion_image_try.
  unfold bind at 1. unfold lift at 1.
  unfold bind at 1. unfold lift at 1. cbn [dict_get].
  unfold bind at 1. unfold lift at 1.
  fold (request_analysis fields). rewrite Ha.
  unfold bind at 1. unfold lift at 1. cbn [extract_emotional_cues_of].
  rewrite E.
  unfold bind at 1. rewrite Ev. reflexivity.
Qed.

Lemma not_well_formed_raise (e : exn) : ~ well_formed_request (Raise e).
Proof. intros (fields & H & _). discriminate. Qed.

Lemma not_well_formed_data (data : json) :
  (forall fields, data <> JObj fields) -> ~ well_formed_request (Ok data).
Proof. intros Hd (fields & H & _). inversion H. now apply (Hd fields). Qed.

Lemma not_well_formed_analysis (fields : list (string * json)) (v : json) :
  assoc "analysis" fields = Some v -> (forall s, v <> JStr s) ->
  ~ well_formed_request (Ok (JObj fields)).
Proof.
  intros Ha Hv (fields' & H & Hw). inversion H. subst fields'.
  rewrite Ha in Hw. destruct Hw as [Hw|(s & Hw)]; [discriminate|].
  inversion Hw. now apply (Hv s).
Qed.

(** X7.  The handler of the image requests never raises.  A request whose
    body is a JSON object with a string (or no) [analysis] is answered by
    the main pipeline: a black canvas with 10 to 50 filled shapes and the
    description of its life area, ["general life"] when the key is absent.
    Every other request (no JSON, a body that is not an object, an
    [analysis] that is not a string) is answered with the fallback image
    and the fallback description. *)
Theorem emotion_image_answers (body : result json) (w : world) :
  exists r w',
    generate_emotion_image png_encode b64encode py_str body w = (Ok r, w') /\
    ((exists fields im,
         well_formed_request body /\ body = Ok (JObj fields) /\
         imageData r = data_uri png_encode b64encode im /\
         text_picture im /\
         description r
         = ("Abstract visualization of your emotional state regarding "
            ++ format_value py_str (request_life_area fields))%string) \/
     (exists im,
         ~ well_formed_request body /\
         imageData r = data_uri png_encode b64encode im /\
         fallback_picture im /\
         description r = fallback_description)).
Proof.
  assert (Hfb : forall e,
             emotion_image_try py_str
               (fun analysis => lift (extract_emotional_cues_of analysis))
               (generate_abstract_visualization png_encode b64encode) body w
             = (Raise e, w) ->
             ~ well_formed_request body ->
             exists r w',
               generate_emotion_image png_encode b64encode py_str body w
               = (Ok r, w') /\
               ((exists fields im,
                    well_formed_request body /\ body = Ok (JObj fields) /\
                    imageData r = data_uri png_encode b64encode im /\
                    text_picture im /\
                    description r
                    = ("Abstract visualization of your emotional state regarding "
                       ++ format_value py_str
                            (request_life_area fields))%string)
                \/
                (exists im,
                    ~ well_formed_request body /\
                    imageData r = data_uri png_encode b64encode im /\
                    fallback_picture im /\
                    description r = fallback_description))).
  { intros e Hraise Hnw.
    destruct (emotion_image_fallback body w w e Hraise)
      as (im & w2 & E & Him).
    eexists _, _. split; [exact E|]. right. exists im. auto. }
  assert (Hmain : forall fields s,
             body = Ok (JObj fields) -> request_analysis fields = JStr s ->
             well_formed_request body ->
             exists r w',
               generate_emotion_image png_encode b64encode py_str body w
               = (Ok r, w') /\
               ((exists fields im,
                    well_formed_request body /\ body = Ok (JObj fields) /\
                    imageData r = data_uri png_encode b64encode im /\
                    text_picture im /\
                    description r
                    = ("Abstract visualization of your emotional state regarding "
                       ++ format_value py_str
                            (request_life_area fields))%string)
                \/
                (exists im,
                    ~ well_formed_request body /\
                    imageData r = data_uri png_encode b64encode im /\
                    fallback_picture im /\
                    description r = fallback_description))).
  { intros fields s -> Ha Hwf.
    destruct (emotion_image_main fields s w Ha) as (im & w2 & E & Him).
    eexists _, _. split; [exact E|]. left. exists fields, im. auto. }
  destruct body as [data|e].
  - destruct data as [| b | n | s | l | fields];
      try (apply (Hfb AttributeError);
           [reflexivity|apply not_well_formed_data; discriminate]).
    destruct (assoc "analysis" fields) as [v|] eqn:Ea.
    + destruct v as [| b | n | s | l | fs];
        try (apply (Hfb AttributeError);
             [unfold emotion_image_try, bind, lift; cbn [dict_get];
              rewrite Ea; reflexivity
             |apply (not_well_formed_analysis _ _ Ea); discriminate]).
      apply (Hmain fields s); [reflexivity| |].
      * unfold request_analysis. now rewrite Ea.
      * exists fields. split; [reflexivity|]. right. now exists s.
    + apply (Hmain fields ""%string); [reflexivity| |].
      * unfold request_analysis. now rewrite Ea.
      * exists fields. split; [reflexivity|]. now left.
  - apply (Hfb e); [reflexivity|apply not_well_formed_raise].
Qed.

End ImageHandler.

(** ** Parsing the questions *)

Lemma all_have_keys_true (l : list json) :
  all_have_keys l = Ok true <-> Forall has_both_keys l.
Proof.
  induction l as [|q l IH]; simpl.
  - split; [constructor|reflexivity].
  - split; intros H.
    + destruct (contains_key "question" q) as [[|]|e] eqn:E1; simpl in H;
        try discriminate.
      destruct (contains_key "options" q) as [[|]|e] eqn:E2; simpl in H;
        try discriminate.
      constructor; [split; assumption|apply IH, H].
    + inversion H as [|? ? [H1 H2] Hl]; subst.
      rewrite H1. simpl. rewrite H2. simpl. apply IH, Hl.
Qed.

Lemma fallback_questions_valid (py_str : json -> string) (life_area : json) :
  List.length (get_fallback_questions py_str life_area) = 5%nat /\
  Forall has_both_keys (get_fallback_questions py_str life_area).
Proof.
  split; [reflexivity|].
  unfold get_fallback_questions. repeat constructor.
Qed.

Lemma Forall_firstn {A : Type} (P : A -> Prop) (n : nat) (l : list A) :
  Forall P l -> Forall P (firstn n l).
Proof.
  intros H. revert n. induction H; intros [|n]; simpl; constructor; auto.
Qed.

Lemma find_from_absent (sub s : string) (i : Z) :
  Str.contains sub s = false -> Py.find_from sub s i = (-1)%Z.
Proof.
  revert i. induction s as [|c s IH]; intros i H;
    cbn [Str.contains] in H; apply orb_false_iff in H; destruct H as [Hp Hc];
    cbn [Py.find_from]; rewrite Hp; [reflexivity|now apply IH].
Qed.

Section Parsing.

Variable py_str : json -> string.
Variable re_sub_fences : string -> string.
Variable json_loads : string -> result json.

(** What the [try] block returns has passed the validation. *)
Lemma parsed_questions_valid (text : json) (qs : list json) :
  parse_questions_try re_sub_fences json_loads text = Ok (Some qs) ->
  List.length qs = 5%nat /\ Forall has_both_keys qs.
Proof.
  intros E. unfold parse_questions_try in E.
  destruct text as [| | |t| |]; try discriminate.
  destruct (negb _ && negb _); [|discriminate].
  destruct (json_loads _) as [[| | | |l|]|e]; cbn [rbind] in E;
    try discriminate.
  destruct (5 <=? List.length l)%nat eqn:Hlen; [|discriminate].
  destruct (all_have_keys l) as [[|]|e] eqn:Hall; cbn [rbind] in E;
    try discriminate.
  replace qs with (firstn 5 l) by congruence.
  apply Nat.leb_le in Hlen.
  apply all_have_keys_true in Hall. split.
  - apply firstn_length_le. exact Hlen.
  - now apply Forall_firstn.
Qed.

(** X8.  Whatever the text, whatever [re.sub] and [json.loads] return or
    raise, [parse_questions_with_options] returns exactly five entries, and
    each of them passes the two membership tests of the validation
    (['question' in q] and ['options' in q]). *)
Theorem parse_returns_five_valid (text : json) :
  List.length
    (parse_questions_with_options py_str re_sub_fences json_loads text)
  = 5%nat /\
  Forall has_both_keys
    (parse_questions_with_options py_str re_sub_fences json_loads text).
Proof.
  unfold parse_questions_with_options.
  destruct (parse_questions_try re_sub_fences json_loads text)
    as [[qs|]|e] eqn:E; try apply fallback_questions_valid.
  now apply (parsed_questions_valid text).
Qed.

(** X9.  A text that is not a string, or a string without an opening
    bracket, gives the fallback questions of ["selected area"];
    [json.loads] has no part in it. *)
Theorem parse_without_bracket (text : json) :
  (forall t, text = JStr t -> Str.contains "[" t = false) ->
  parse_questions_with_options py_str re_sub_fences json_loads text
  = get_fallback_questions py_str (JStr "selected area").
Proof.
  intros H. unfold parse_questions_with_options, parse_questions_try.
  destruct text as [| | |t| |]; try reflexivity.
  unfold Py.find. rewrite (find_from_absent _ _ _ (H t eq_refl)).
  reflexivity.
Qed.

(** X10.  The validation looks at the whole list, not at the five entries
    that are returned: a reply whose list passes is answered with its first
    five entries, and a reply with one entry anywhere, also after the
    fifth, that lacks a key gives the fallback questions instead. *)
Theorem parse_validates_whole_list (t : string) (l : list json) :
  Str.contains "[" t = true ->
  json_loads
    (re_sub_fences (Py.slice t (Py.find t "[") (Py.rfind t "]" + 1)))
  = Ok (JList l) ->
  (5 <= List.length l)%nat ->
  (Forall has_both_keys l ->
   parse_questions_with_options py_str re_sub_fences json_loads (JStr t)
   = firstn 5 l) /\
  (Exists (fun q => contains_key "question" q = Ok false \/
                    contains_key "options" q = Ok false) l ->
   parse_questions_with_options py_str re_sub_fences json_loads (JStr t)
   = get_fallback_questions py_str (JStr "selected area")).
Proof.
  intros Hc Hl Hlen.
  assert (Hfind : (Py.find t "[" =? -1)%Z = false).
  { apply Z.eqb_neq. unfold Py.find.
    assert (G : forall s i, (0 <= i)%Z -> Str.contains "[" s = true ->
                            (0 <= Py.find_from "[" s i)%Z).
    { clear. induction s as [|c s IH]; intros i Hi H;
        cbn [Str.contains] in H; cbn [Py.find_from];
        destruct (prefix "[" _); try lia; try discriminate.
      apply IH; [lia|exact H]. }
    pose proof (G t 0%Z ltac:(lia) Hc). lia. }
  assert (Hrfind : (Py.rfind t "]" + 1 =? -1)%Z = false).
  { apply Z.eqb_neq. unfold Py.rfind.
    assert (G : forall s i, (0 <= i)%Z -> (-1 <= Py.rfind_from "]" s i)%Z).
    { clear. induction s as [|c s IH]; intros i Hi; cbn [Py.rfind_from].
      - simpl. lia.
      - specialize (IH (i + 1)%Z ltac:(lia)).
        destruct (0 <=? Py.rfind_from "]" s (i + 1))%Z; [lia|].
        destruct (prefix "]" _); lia. }
    pose proof (G t 0%Z ltac:(lia)). lia. }
  apply Nat.leb_le in Hlen.
  split; intros H;
    unfold parse_questions_with_options, parse_questions_try;
    rewrite Hfind, Hrfind; cbn [negb andb]; cbv zeta; rewrite Hl;
    cbn [rbind]; rewrite Hlen.
  - apply all_have_keys_true in H. rewrite H. reflexivity.
  - destruct (all_have_keys l) as [[|]|e] eqn:Hall; try reflexivity.
    exfalso. apply all_have_keys_true in Hall.
    apply Exists_exists in H. destruct H as (q & Hq & Hbad).
    rewrite Forall_forall in Hall. destruct (Hall q Hq) as [H1 H2].
    destruct Hbad as [Hbad|Hbad]; congruence.
Qed.

End Parsing.

(** ** The fallback analysis *)

Lemma ratio_gt (p t a : Z) (b : BinNums.positive) :
  (0 < t)%Z ->
  Qgtb (inject_Z p / inject_Z t) (a # b) = (a * t <? Zpos b * p)%Z.
Proof.
  intros Ht. destruct t as [|t|t]; try lia.
  destruct (a * Z.pos t <? Z.pos b * p)%Z eqn:E.
  - apply Qgtb_true. apply Z.ltb_lt in E.
    unfold Qlt, Qdiv, Qmult, Qinv, inject_Z. simpl. lia.
  - apply Qgtb_false. apply Z.ltb_ge in E.
    unfold Qle, Qdiv, Qmult, Qinv, inject_Z. simpl. lia.
Qed.

Lemma sentiment_of_counts (pc ta : Z) :
  (0 <= ta)%Z -> sentiment_of pc ta = sentiment_by_counts pc ta.
Proof.
  intros Hta. unfold sentiment_of, sentiment_by_counts.
  destruct (ta =? 0)%Z eqn:E0.
  - apply Z.eqb_eq in E0. subst ta. reflexivity.
  - apply Z.eqb_neq in E0.
    assert (Hpos : (0 < ta)%Z) by lia.
    apply Z.ltb_lt in Hpos. rewrite Hpos. apply Z.ltb_lt in Hpos.
    now rewrite !ratio_gt.
Qed.

Section FallbackAnalysis.

Variable py_str : json -> string.
Variable limit : nat.

Lemma count_answers_counts (items : list (string * json)) (pc ta : Z) :
  (forall kv, In kv (question_items items) ->
              exists b, positive_answer limit (snd kv) = Ok b) ->
  count_answers limit items pc ta
  = Ok ((pc + Z.of_nat (List.length
                          (List.filter (answered_high limit)
                             (question_items items))))%Z,
        (ta + Z.of_nat (List.length (question_items items)))%Z).
Proof.
  revert pc ta. induction items as [|[k v] items IH]; intros pc ta H.
  - simpl. now rewrite !Z.add_0_r.
  - cbn [count_answers question_items List.filter fst] in *.
    destruct (Py.startswith k "question") eqn:Ek.
    + destruct (H (k, v) (or_introl eq_refl)) as [b Hb].
      cbn [snd] in Hb. rewrite Hb. cbn [rbind].
      rewrite IH by (intros kv Hkv; apply H; now right).
      cbn [List.filter List.length]. unfold answered_high at 2.
      cbn [snd]. rewrite Hb.
      fold (question_items items).
      destruct b; cbn [List.length]; f_equal; f_equal; lia.
    + apply IH. exact H.
Qed.

(** X11.  When every entry under a question key has a usable answer, the
    fallback analysis is the fixed text with the sentiment that the share
    of the answers of 4 or more decides: more than 70 percent gives
    "generally positive", more than 40 percent "mixed", anything less
    "generally challenging"; with no such entry at all the sentiment is
    "mixed" and nothing is divided by zero. *)
Theorem fallback_analysis_sentiment (life_area questions_data : json)
    (fields : list (string * json)) :
  (forall kv, In kv (question_items fields) ->
              exists b, positive_answer limit (snd kv) = Ok b) ->
  get_fallback_analysis py_str limit life_area (JObj fields) questions_data
  = Ok (fallback_analysis_text (format_value py_str life_area)
          (sentiment_by_counts
             (Z.of_nat (List.length
                          (List.filter (answered_high limit)
                             (question_items fields))))
             (Z.of_nat (List.length (question_items fields))))).
Proof.
  intros H. unfold get_fallback_analysis. cbn [dict_items rbind].
  rewrite (count_answers_counts fields 0 0 H). cbn [rbind].
  rewrite !Z.add_0_l, sentiment_of_counts by lia. reflexivity.
Qed.

Lemma count_answers_raises (pre post : list (string * json)) (k : string)
    (v : json) (e : exn) (pc ta : Z) :
  (forall kv, In kv (question_items pre) ->
              exists b, positive_answer limit (snd kv) = Ok b) ->
  Py.startswith k "question" = true ->
  positive_answer limit v = Raise e ->
  count_answers limit (pre ++ (k, v) :: post) pc ta = Raise e.
Proof.
  revert pc ta. induction pre as [|[k' v'] pre IH]; intros pc ta H Hk Hv.
  - cbn [app count_answers]. rewrite Hk, Hv. reflexivity.
  - cbn [app count_answers question_items List.filter fst] in *.
    destruct (Py.startswith k' "question") eqn:Ek.
    + destruct (H (k', v') (or_introl eq_refl)) as [b Hb].
      cbn [snd] in Hb. rewrite Hb. cbn [rbind].
      apply IH; trivial. intros kv Hkv. apply H. now right.
    + now apply IH.
Qed.

(** X12.  The first entry under a question key whose answer cannot be
    read makes [get_fallback_analysis] raise the error of that entry (a
    [KeyError] when the entry is a dict without ['answer']), and a
    [responses] that is not a dict makes it raise [AttributeError]. *)
Theorem fallback_analysis_raises (life_area questions_data : json)
    (pre post : list (string * json)) (k : string) (v : json) (e : exn) :
  (forall kv, In kv (question_items pre) ->
              exists b, positive_answer limit (snd kv) = Ok b) ->
  Py.startswith k "question" = true ->
  positive_answer limit v = Raise e ->
  get_fallback_analysis py_str limit life_area
    (JObj (pre ++ (k, v) :: post)) questions_data
  = Raise e /\
  (forall fields,
      assoc "answer" fields = None ->
      positive_answer limit (JObj fields) = Raise KeyError) /\
  (forall responses,
      (forall fields, responses <> JObj fields) ->
      get_fallback_analysis py_str limit life_area responses questions_data
      = Raise AttributeError).
Proof.
  intros H Hk Hv. split; [|split].
  - unfold get_fallback_analysis. cbn [dict_items rbind].
    now rewrite (count_answers_raises pre post k v e 0 0 H Hk Hv).
  - intros fields Ha. unfold positive_answer. cbn [getitem_key].
    now rewrite Ha.
  - intros responses Hr. unfold get_fallback_analysis.
    destruct responses; try reflexivity. now destruct (Hr fields).
Qed.

End FallbackAnalysis.

(** ** The cues of the fallback analysis *)

Lemma lower_app (a b : string) :
  Str.lower (a ++ b)%string = (Str.lower a ++ Str.lower b)%string.
Proof. induction a as [|c a IH]; simpl; [reflexivity|now rewrite IH]. Qed.

Lemma prefix_app (t a b : string) :
  prefix t a = true -> prefix t (a ++ b)%string = true.
Proof.
  revert a. induction t as [|c t IH]; intros a H;
    [destruct (a ++ b)%string; reflexivity|].
  destruct a as [|c' a]; [discriminate|].
  simpl in *. destruct (ascii_dec c c'); [now apply IH|discriminate].
Qed.

Lemma contains_app_l (t a b : string) :
  Str.contains t a = true -> Str.contains t (a ++ b)%string = true.
Proof.
  induction a as [|c a IH]; intros H.
  - cbn [Str.contains] in H. rewrite orb_false_r in H.
    destruct t; [|discriminate]. destruct b; reflexivity.
  - cbn [Str.contains] in H. apply orb_true_iff in H.
    change (String c a ++ b)%string with (String c (a ++ b)%string).
    cbn [Str.contains]. apply orb_true_iff. destruct H as [H|H].
    + left. exact (prefix_app t (String c a) b H).
    + right. now apply IH.
Qed.

Lemma contains_app_r (t a b : string) :
  Str.contains t b = true -> Str.contains t (a ++ b)%string = true.
Proof.
  intros H. induction a as [|c a IH]; [exact H|].
  change (String c a ++ b)%string with (String c (a ++ b)%string).
  cbn [Str.contains]. rewrite IH. apply orb_true_r.
Qed.

Lemma append_empty_r (s : string) : (s ++ "")%string = s.
Proof. induction s as [|c s IH]; simpl; [reflexivity|now rewrite IH]. Qed.

Lemma concat_contains (t x : string) (l : list string) :
  In x l -> Str.contains t (Str.lower x) = true ->
  Str.contains t (Str.lower (String.concat "" l)) = true.
Proof.
  intros Hin Hx. induction l as [|y l IH]; [destruct Hin|].
  assert (E : String.concat "" (y :: l)
              = (y ++ String.concat "" l)%string).
  { destruct l; [now rewrite append_empty_r|reflexivity]. }
  rewrite E, lower_app. destruct Hin as [->|Hin].
  - now apply contains_app_l.
  - apply contains_app_r. now apply IH.
Qed.

Lemma fallback_text_markers (area sentiment : string) :
  Str.contains "positive"
    (Str.lower (fallback_analysis_text area sentiment)) = true /\
  Str.contains "blocker"
    (Str.lower (fallback_analysis_text area sentiment)) = true.
Proof.
  unfold fallback_analysis_text.
  split; eapply concat_contains;
    try (do 4 right; left; reflexivity); vm_compute; reflexivity.
Qed.

Lemma count_scan_le (sub s : string) (skip : nat) :
  (Str.count_scan sub skip s <= String.length s)%nat.
Proof.
  revert skip. induction s as [|ch s IH]; intros skip; [simpl; lia|].
  cbn [Str.count_scan String.length].
  destruct skip as [|k]; [destruct (prefix sub (String ch s))|].
  - specialize (IH (String.length sub - 1)%nat). lia.
  - specialize (IH 0%nat). lia.
  - specialize (IH k). lia.
Qed.

Lemma count_le (s sub : string) :
  (Str.count s sub <= S (String.length s))%nat.
Proof.
  destruct sub as [|ch sub]; [simpl; lia|].
  pose proof (count_scan_le (String ch sub) s 0). unfold Str.count. lia.
Qed.

Lemma scan_terms_le (text : string) (terms : list string) (acc : Z) :
  (scan_terms text terms acc
   <= acc + Z.of_nat (List.length terms)
            * (Z.of_nat (String.length text) + 1))%Z.
Proof.
  unfold scan_terms. revert acc.
  induction terms as [|t ts IH]; intros acc; [simpl; lia|].
  cbn [fold_left List.length]. rewrite Nat2Z.inj_succ.
  pose proof (count_le text t) as Hc.
  destruct (Str.contains t text).
  - specialize (IH (acc + Z.of_nat (Str.count text t))%Z). nia.
  - specialize (IH acc). nia.
Qed.

Lemma lower_length (s : string) :
  String.length (Str.lower s) = String.length s.
Proof. induction s as [|c s IH]; simpl; [reflexivity|now rewrite IH]. Qed.

(** The total of the counts of a text that is shorter than 2^63
    characters, as every Python string is, lies below 2^69. *)
Lemma total_bound (analysis : string) :
  (Z.of_nat (String.length analysis) < 2 ^ 63)%Z ->
  sum_values (raw_cues (Str.lower analysis)) <= 590295810358705651712.
Proof.
  intros Hlen. set (text := Str.lower analysis).
  pose proof (scan_terms_le text positive_terms 0) as Hp.
  pose proof (scan_terms_le text negative_terms 0) as Hn.
  pose proof (scan_terms_le text energetic_terms 0) as He.
  pose proof (scan_terms_le text calm_terms 0) as Hk.
  unfold text in Hp, Hn, He, Hk. rewrite lower_length in Hp, Hn, He, Hk.
  cbn [List.length positive_terms negative_terms energetic_terms calm_terms]
    in Hp, Hn, He, Hk.
  unfold sum_values, raw_cues.
  cbn [positive negative energetic calm chaotic focused].
  rewrite !Qplus_0_r, Qplus_0_l, <- !inject_Z_plus.
  change 590295810358705651712 with (inject_Z 590295810358705651712).
  rewrite <- Zle_Qle. subst text.
  change (Z.of_nat 10) with 10%Z in Hp, Hn.
  change (Z.of_nat 7) with 7%Z in He, Hk.
  change (2 ^ 63)%Z with 9223372036854775808%Z in Hlen. lia.
Qed.

(** A share of at least one count in a total below 2^69 is a double above
    zero. *)
Lemma share_positive (a t : Q) :
  1 <= a -> 0 < t -> t <= 590295810358705651712 -> 0 < Double.div a t.
Proof.
  intros Ha Ht Hb. unfold Double.div.
  pose proof (pow2_pos (-69)) as Hpos.
  apply Qlt_le_trans with (Double.pow2 (-69)); [exact Hpos|].
  apply round_ge_pow2; [lia|].
  apply Qle_shift_div_l; [exact Ht|].
  change (Double.pow2 (-69)) with (1 # 590295810358705651712). lra.
Qed.

(** X13.  Whatever the life area and the answers, the text of the
    fallback analysis is never free of markers: fed to the extraction, as
    the image request does with an analysis, it gives a vector with a
    positive and a negative share above 0, whose values sum to 1 within
    one unit in the last place.  The text is shorter than 2^63 characters,
    as every Python string is. *)
Theorem fallback_analysis_cues (py_str : json -> string) (limit : nat)
    (life_area responses questions_data : json) (text : string) :
  get_fallback_analysis py_str limit life_area responses questions_data
  = Ok text ->
  (Z.of_nat (String.length text) < 2 ^ 63)%Z ->
  exists c,
    extract_emotional_cues text = Ok c /\
    0 < positive c /\ 0 < negative c /\
    Qabs (sum_values c - 1) <= Double.pow2 (-52).
Proof.
  intros Hget Hlen.
  assert (Htext : exists area sentiment,
             text = fallback_analysis_text area sentiment).
  { unfold get_fallback_analysis in Hget.
    destruct (dict_items responses) as [items|e]; [|discriminate].
    cbn [rbind] in Hget.
    destruct (count_answers limit items 0 0) as [[pc ta]|e];
      [|discriminate].
    cbn [rbind] in Hget. inversion Hget. eauto. }
  destruct Htext as (area & sentiment & Etext).
  destruct (fallback_text_markers area sentiment) as [Hp Hn].
  rewrite <- Etext in Hp, Hn. clear Etext Hget.
  assert (Hpos : (0 < scan_terms (Str.lower text) positive_terms 0)%Z).
  { apply scan_terms_pos. exists "positive"%string.
    split; [now left|exact Hp]. }
  assert (Hneg : (0 < scan_terms (Str.lower text) negative_terms 0)%Z).
  { apply scan_terms_pos. exists "blocker"%string.
    split; [simpl; tauto|exact Hn]. }
  pose proof (raw_cues_nonneg (Str.lower text)) as Hnn.
  destruct (raw_cues_untouched (Str.lower text)) as [Ex Ef].
  pose proof (total_bound text Hlen) as Hb.
  assert (Hp' : 1 <= positive (raw_cues (Str.lower text))).
  { cbn [raw_cues positive]. change 1 with (inject_Z 1).
    rewrite <- Zle_Qle. lia. }
  assert (Hn' : 1 <= negative (raw_cues (Str.lower text))).
  { cbn [raw_cues negative]. change 1 with (inject_Z 1).
    rewrite <- Zle_Qle. lia. }
  assert (Ht : 0 < sum_values (raw_cues (Str.lower text))).
  { destruct Hnn as (_ & _ & He & Hk & Hx & Hf).
    unfold sum_values. lra. }
  destruct (extract_cases text) as [[Hle _]|[_ E]].
  - exfalso. apply (Qlt_not_le _ _ Ht Hle).
  - destruct (normalized_sum _ Hnn Ex Ef Ht) as [_ Hs]. cbv zeta in Hs.
    rewrite E. eexists. split; [reflexivity|].
    cbn [positive negative].
    split; [now apply share_positive|].
    split; [now apply share_positive|exact Hs].
Qed.

(** ** The handlers of the questions and of the analysis *)

Section TextHandlers.

Variable py_str : json -> string.
Variable limit : nat.
Variable re_sub_fences : string -> string.
Variable json_loads : string -> result json.
Variable gemini_api_key : option string.
Variable post_questions_prompt : json -> result http_response.
Variable post_analysis_prompt : json -> string -> result http_response.

(** X14.  Every request whose body is a JSON object is answered with
    exactly five questions, each with its ['question'] and its
    ['options'], whatever the key, the reply of the API and the parsers
    do; when the key is missing or the request to the API fails, they are
    the fallback questions worded for the life area of the request. *)
Theorem questions_always_five (fields : list (string * json)) :
  (exists qs,
      generate_questions py_str re_sub_fences json_loads gemini_api_key
        post_questions_prompt (Ok (JObj fields))
      = Ok (JObj [("questions", JList qs)]) /\
      List.length qs = 5%nat /\ Forall has_both_keys qs) /\
  (no_api_key gemini_api_key = true \/
   (exists e, rbind (post_questions_prompt (request_life_area fields))
                (reply_of py_str) = Raise e) ->
   generate_questions py_str re_sub_fences json_loads gemini_api_key
        post_questions_prompt (Ok (JObj fields))
   = Ok (JObj [("questions",
                JList (get_fallback_questions py_str
                         (request_life_area fields)))])).
Proof.
  unfold generate_questions.
  cbn [rbind dict_get]. fold (request_life_area fields).
  set (life := request_life_area fields).
  pose proof (fallback_questions_valid py_str life) as [Hl Hv].
  split.
  - destruct (no_api_key gemini_api_key).
    + eexists. split; [reflexivity|]. now split.
    + destruct (post_questions_prompt life) as [response|e]; cbn [rbind];
        [|eexists; split; [reflexivity|now split]].
      destruct (reply_of py_str response) as [text|e]; cbn [rbind];
        [|eexists; split; [reflexivity|now split]].
      eexists. split; [reflexivity|].
      unfold parse_questions_with_options.
      destruct (parse_questions_try re_sub_fences json_loads text)
        as [[qs|]|e'] eqn:E; try apply fallback_questions_valid.
      now apply (parsed_questions_valid re_sub_fences json_loads text).
  - intros [Hkey|(e & He)].
    + now rewrite Hkey.
    + destruct (no_api_key gemini_api_key); [reflexivity|].
      destruct (post_questions_prompt life) as [response|e']; cbn [rbind] in *;
        [|reflexivity].
      now rewrite He.
Qed.

(** X15.  When [request.get_json()] raises or returns something that is
    not a JSON object, the two handlers do not answer with a fallback:
    their [except] blocks use names that the [try] block has not bound
    yet, and [UnboundLocalError] leaves the handler. *)
Theorem handlers_unbound_names (body : result json) :
  (forall fields, body <> Ok (JObj fields)) ->
  generate_questions py_str re_sub_fences json_loads gemini_api_key
    post_questions_prompt body = Raise UnboundLocalError /\
  generate_analysis py_str limit gemini_api_key post_analysis_prompt body
  = Raise UnboundLocalError.
Proof.
  intros H.
  unfold generate_questions, generate_analysis, analysis_arguments.
  destruct body as [data|e]; [|split; reflexivity].
  destruct data; try (split; reflexivity).
  now destruct (H fields).
Qed.

Lemma analysis_arguments_object (fields : list (string * json)) :
  analysis_arguments (Ok (JObj fields))
  = Ok (request_life_area fields, request_responses fields,
        request_questions fields).
Proof. reflexivity. Qed.

(** X16.  For a JSON-object request on whose answers the fallback analysis
    can be written, the handler of the analysis never raises: it answers
    with the text of the API or with the fallback analysis, and with the
    fallback analysis when no key is configured or when the responses
    cannot be formatted or the request to the API fails. *)
Theorem analysis_answers (fields : list (string * json)) (text : string) :
  get_fallback_analysis py_str limit (request_life_area fields)
    (request_responses fields) (request_questions fields)
  = Ok text ->
  (exists v, generate_analysis py_str limit gemini_api_key post_analysis_prompt
        (Ok (JObj fields))
             = Ok (JObj [("analysis", v)])) /\
  (no_api_key gemini_api_key = true ->
   generate_analysis py_str limit gemini_api_key post_analysis_prompt
        (Ok (JObj fields))
   = Ok (JObj [("analysis", JStr text)])) /\
  (forall e,
      rbind (dict_items (request_responses fields)) (fun items =>
      rbind (format_responses py_str limit items (request_questions fields)
               ("QUESTIONS AND ANSWERS:" ++ newline ++ newline)%string)
        (fun response_text =>
      rbind (post_analysis_prompt (request_life_area fields) response_text)
        (reply_of py_str)))
      = Raise e ->
      generate_analysis py_str limit gemini_api_key post_analysis_prompt
        (Ok (JObj fields))
      = Ok (JObj [("analysis", JStr text)])).
Proof.
  intros Hfb.
  unfold generate_analysis.
  rewrite analysis_arguments_object. cbv zeta. rewrite Hfb. cbn [rbind].
  split; [|split].
  - destruct (no_api_key gemini_api_key); [eexists; reflexivity|].
    destruct (dict_items (request_responses fields)) as [items|e];
      cbn [rbind]; [|eexists; reflexivity].
    destruct (format_responses _ _ _ _ _) as [rt|e];
      cbn [rbind]; [|eexists; reflexivity].
    destruct (post_analysis_prompt _ _) as [resp|e];
      cbn [rbind]; [|eexists; reflexivity].
    destruct (reply_of py_str resp) as [a|e];
      cbn [rbind]; eexists; reflexivity.
  - intros Hkey. now rewrite Hkey.
  - intros e He.
    destruct (no_api_key gemini_api_key); [reflexivity|].
    destruct (dict_items (request_responses fields)) as [items|e'];
      cbn [rbind] in *; [|reflexivity].
    destruct (format_responses _ _ _ _ _) as [rt|e'];
      cbn [rbind] in *; [|reflexivity].
    destruct (post_analysis_prompt _ _) as [resp|e'];
      cbn [rbind] in *; [|reflexivity].
    now rewrite He.
Qed.

(** X17.  The [except] block of the handler of the analysis calls
    [get_fallback_analysis] on the same arguments again: without a key, an
    error of [get_fallback_analysis] leaves the handler, and a [responses]
    that is not a dict makes the handler raise [AttributeError] whatever
    the key and the API. *)
Theorem analysis_error_escapes (fields : list (string * json)) :
  (forall e,
      no_api_key gemini_api_key = true ->
      get_fallback_analysis py_str limit (request_life_area fields)
        (request_responses fields) (request_questions fields)
      = Raise e ->
      generate_analysis py_str limit gemini_api_key post_analysis_prompt
        (Ok (JObj fields)) = Raise e) /\
  ((forall items, request_responses fields <> JObj items) ->
   generate_analysis py_str limit gemini_api_key post_analysis_prompt
        (Ok (JObj fields)) = Raise AttributeError).
Proof.
  unfold generate_analysis.
  rewrite analysis_arguments_object. cbv zeta. split.
  - intros e Hkey Hfb. now rewrite Hkey, Hfb.
  - intros Hr.
    assert (Hd : dict_items (request_responses fields)
                 = Raise AttributeError).
    { destruct (request_responses fields) as [| | | | |items];
        try reflexivity. now destruct (Hr items). }
    unfold get_fallback_analysis. rewrite Hd. cbn [rbind].
    now destruct (no_api_key gemini_api_key).
Qed.

End TextHandlers.

(** ** Digits that [int] refuses *)

Lemma digit_not_space (c : ascii) :
  Py.is_digit c = true -> Py.is_space c = false.
Proof.
  destruct c as [[] [] [] [] [] [] [] []]; vm_compute; congruence.
Qed.

Lemma digit_not_underscore (c : ascii) :
  Py.is_digit c = true -> Ascii.eqb c "_" = false.
Proof.
  destruct c as [[] [] [] [] [] [] [] []]; vm_compute; congruence.
Qed.

Lemma digit_not_sign (c : ascii) (d : string) :
  Py.is_digit c = true ->
  match String c d with
  | String "-"%char d' => (true, d')
  | String "+"%char d' => (false, d')
  | _ => (false, String c d)
  end = (false, String c d).
Proof.
  destruct c as [[] [] [] [] [] [] [] []]; vm_compute; congruence.
Qed.

Lemma digits_not_stripped (s : string) :
  Py.all_chars Py.is_digit s = true ->
  Py.lstrip s = s /\ Py.rstrip s = s.
Proof.
  induction s as [|c s IH]; [split; reflexivity|].
  cbn [Py.all_chars]. intros H. apply andb_true_iff in H.
  destruct H as [Hc Hs]. pose proof (digit_not_space c Hc) as Hsp.
  destruct (IH Hs) as [_ Hr]. split.
  - cbn [Py.lstrip]. now rewrite Hsp.
  - cbn [Py.rstrip]. rewrite Hr, Hsp. now destruct s.
Qed.

Lemma parse_digits_refuses (s : string) (acc : Z) (need_digit : bool) :
  Py.all_chars Py.is_digit s = true ->
  Py.all_chars Py.is_decimal s = false ->
  Py.parse_digits s acc need_digit = None.
Proof.
  revert acc need_digit. induction s as [|c s IH]; intros acc nd Hd Hn;
    [discriminate|].
  cbn [Py.all_chars] in Hd, Hn. apply andb_true_iff in Hd.
  destruct Hd as [Hc Hs]. cbn [Py.parse_digits].
  destruct (Py.is_decimal c).
  - apply IH; assumption.
  - now rewrite (digit_not_underscore c Hc).
Qed.

(** X18.  An answer on which [isdigit] holds is not always a number for
    [int]: when it has a digit character that is not a decimal digit (a
    superscript 1, 2 or 3) [int] raises, and [get_fallback_analysis]
    raises [ValueError] at that entry. *)
Theorem superscript_answer_raises (py_str : json -> string) (limit : nat)
    (life_area questions_data : json) (key s : string)
    (others : list (string * json)) (post : list (string * json)) :
  Py.startswith key "question" = true ->
  Py.isdigit s = true ->
  Py.all_chars Py.is_decimal s = false ->
  get_fallback_analysis py_str limit life_area
    (JObj ((key, JObj (("answer", JStr s) :: others)) :: post))
    questions_data
  = Raise ValueError.
Proof.
  intros Hk Hd Hn.
  assert (Hall : Py.all_chars Py.is_digit s = true).
  { destruct s; [discriminate|exact Hd]. }
  assert (Hint : Py.int_of_str limit s = Raise ValueError).
  { unfold Py.int_of_str.
    destruct (digits_not_stripped s Hall) as [Hl Hr]. rewrite Hl, Hr.
    destruct s as [|c d]; [discriminate|].
    cbn [Py.all_chars] in Hall. apply andb_true_iff in Hall.
    rewrite (digit_not_sign c d (proj1 Hall)).
    rewrite parse_digits_refuses; trivial. }
  unfold get_fallback_analysis. cbn [dict_items rbind count_answers].
  rewrite Hk. unfold positive_answer. cbn [getitem_key assoc].
  rewrite String.eqb_refl. cbn [rbind]. rewrite Hd, Hint. reflexivity.
Qed.

(** ** Runs of the text service *)

Example find_slice_example :
  Py.find "say [1, 2] and [3] ok" "[" = 4%Z /\
  Py.rfind "say [1, 2] and [3] ok" "]" = 17%Z /\
  Py.slice "say [1, 2] and [3] ok" 4 18 = "[1, 2] and [3]"%string /\
  Py.slice "] [" 2 1 = ""%string.
Proof. repeat split. Qed.

Example int_of_str_examples :
  Py.int_of_str 4300 " 42 " = Ok 42%Z /\
  Py.int_of_str 4300 "-7" = Ok (-7)%Z /\
  Py.int_of_str 4300 "+1_000" = Ok 1000%Z /\
  Py.int_of_str 4300 "" = Raise ValueError /\
  Py.int_of_str 4300 "1__0" = Raise ValueError /\
  Py.int_of_str 4300 "_1" = Raise ValueError /\
  Py.int_of_str 4300 "1_" = Raise ValueError /\
  Py.int_of_str 4300 "- 1" = Raise ValueError /\
  Py.int_of_str 2 "123" = Raise ValueError /\
  Py.int_of_str 0 "123" = Ok 123%Z /\
  Py.int_of_str 4300 superscript_two = Raise ValueError.
Proof. repeat split. Qed.

(** The separators U+001C..U+001F are no white space for [int]; U+0085
    and U+00A0 are. *)
Example int_of_str_separators :
  Py.int_of_str 4300 (String "028"%char "1") = Raise ValueError /\
  Py.int_of_str 4300 (String "028"%char "-1") = Raise ValueError /\
  Py.int_of_str 4300 ("7" ++ String "031"%char "") = Raise ValueError /\
  Py.int_of_str 4300 (String "133"%char "7") = Ok 7%Z /\
  Py.int_of_str 4300 ("7" ++ String "160"%char "") = Ok 7%Z /\
  Py.int_of_str 4300 (String "009"%char "7" ++ String "010"%char "")
  = Ok 7%Z.
Proof. repeat split. Qed.

(** With the API up, a request with the key [question1] is answered with
    the text of the API; the key with the separator U+001C makes the
    formatting raise, and the answer is the fallback analysis. *)
Example separator_key_falls_back :
  generate_analysis str0 4300 (Some "key") post_analysis_up
    (analysis_request "question1")
  = Ok (JObj [("analysis", JStr "All is well.")]) /\
  format_responses str0 4300
    [(separator_key, JObj [("answer", JStr "4")])]
    (JList [entry0; entry0]) ""
  = Raise ValueError /\
  generate_analysis str0 4300 (Some "key") post_analysis_up
    (analysis_request separator_key)
  = Ok (JObj [("analysis",
               JStr (fallback_analysis_text "general life"
                       "generally positive"))]).
Proof. repeat split. Qed.

Example replace_example :
  Py.replace_scan "question" "" 0 "question12" = "12"%string /\
  Py.replace_scan "aa" "b" 0 "aaaaa" = "bba"%string.
Proof. split; reflexivity. Qed.

Example getitem_index_examples :
  getitem_index (JList [JNum 1; JNum 2; JNum 3]) (-1) = Ok (JNum 3) /\
  getitem_index (JList [JNum 1; JNum 2; JNum 3]) 3 = Raise IndexError /\
  getitem_index (JList []) (-1) = Raise IndexError /\
  getitem_index (JStr "ab") 1 = Ok (JStr "b") /\
  getitem_index (JObj [("0", JNum 1)]) 0 = Raise KeyError /\
  getitem_index JNull 0 = Raise TypeError.
Proof. repeat split. Qed.

Lemma parse_without_bracket_witness :
  (forall t, JStr "no list in here" = JStr t -> Str.contains "[" t = false)
  /\
  parse_questions_with_options str0 sub0 loads_six (JStr "no list in here")
  = get_fallback_questions str0 (JStr "selected area").
Proof.
  assert (H : forall t, JStr "no list in here" = JStr t ->
                        Str.contains "[" t = false).
  { intros t E. inversion E. reflexivity. }
  split; [exact H|].
  exact (parse_without_bracket str0 sub0 loads_six _ H).
Defined.

Lemma parse_validates_whole_list_witness :
  (Str.contains "[" "reply: [...]" = true /\
   loads_six
     (sub0 (Py.slice "reply: [...]" (Py.find "reply: [...]" "[")
              (Py.rfind "reply: [...]" "]" + 1)))
   = Ok (JList six_entries) /\
   (5 <= List.length six_entries)%nat) /\
  ((Forall has_both_keys six_entries ->
    parse_questions_with_options str0 sub0 loads_six (JStr "reply: [...]")
    = firstn 5 six_entries) /\
   (Exists (fun q => contains_key "question" q = Ok false \/
                     contains_key "options" q = Ok false) six_entries ->
    parse_questions_with_options str0 sub0 loads_six (JStr "reply: [...]")
    = get_fallback_questions str0 (JStr "selected area"))).
Proof.
  split.
  - repeat split. simpl. lia.
  - apply (parse_validates_whole_list str0 sub0 loads_six "reply: [...]").
    + reflexivity.
    + reflexivity.
    + simpl. lia.
Defined.

Lemma three_answers_readable :
  forall kv, In kv (question_items three_answers) ->
             exists b, positive_answer 4300 (snd kv) = Ok b.
Proof.
  intros kv H. simpl in H.
  destruct H as [<-|[<-|[<-|[]]]]; eexists; reflexivity.
Defined.

Lemma fallback_analysis_sentiment_witness :
  (forall kv, In kv (question_items three_answers) ->
              exists b, positive_answer 4300 (snd kv) = Ok b) /\
  get_fallback_analysis str0 4300 (JStr "work") (JObj three_answers)
    (JList [])
  = Ok (fallback_analysis_text "work" "mixed").
Proof.
  split; [exact three_answers_readable|].
  exact (fallback_analysis_sentiment str0 4300 (JStr "work") (JList [])
           three_answers three_answers_readable).
Defined.

Lemma no_items_readable :
  forall kv, In kv (question_items []) ->
             exists b, positive_answer 4300 (snd kv) = Ok b.
Proof. intros kv []. Defined.

Lemma fallback_analysis_raises_witness :
  ((forall kv, In kv (question_items []) ->
               exists b, positive_answer 4300 (snd kv) = Ok b) /\
   Py.startswith "question0" "question" = true /\
   positive_answer 4300 (JObj []) = Raise KeyError) /\
  (get_fallback_analysis str0 4300 (JStr "work")
     (JObj ([] ++ ("question0", JObj []) :: three_answers)) (JList [])
   = Raise KeyError /\
   (forall fields,
       assoc "answer" fields = None ->
       positive_answer 4300 (JObj fields) = Raise KeyError) /\
   (forall responses,
       (forall fields, responses <> JObj fields) ->
       get_fallback_analysis str0 4300 (JStr "work") responses (JList [])
       = Raise AttributeError)).
Proof.
  split.
  - split; [exact no_items_readable|split; reflexivity].
  - exact (fallback_analysis_raises str0 4300 (JStr "work") (JList [])
             [] three_answers "question0" (JObj []) KeyError
             no_items_readable eq_refl eq_refl).
Defined.

Lemma fallback_analysis_cues_witness :
  (get_fallback_analysis str0 4300 (JStr "work") (JObj []) (JList [])
   = Ok (fallback_analysis_text "work" "mixed") /\
   (Z.of_nat (String.length (fallback_analysis_text "work" "mixed"))
    < 2 ^ 63)%Z) /\
  exists c,
    extract_emotional_cues (fallback_analysis_text "work" "mixed") = Ok c /\
    0 < positive c /\ 0 < negative c /\
    Qabs (sum_values c - 1) <= Double.pow2 (-52).
Proof.
  split; [split; reflexivity|].
  exact (fallback_analysis_cues str0 4300 (JStr "work") (JObj []) (JList [])
           (fallback_analysis_text "work" "mixed") eq_refl eq_refl).
Defined.

Lemma null_body_not_object :
  forall fields, Ok JNull <> Ok (JObj fields).
Proof. intros fields H. discriminate H. Defined.

Lemma handlers_unbound_names_witness :
  (forall fields, Ok JNull <> Ok (JObj fields)) /\
  (generate_questions str0 sub0 loads_six None post_down (Ok JNull)
   = Raise UnboundLocalError /\
   generate_analysis str0 4300 None post_analysis_down (Ok JNull)
   = Raise UnboundLocalError).
Proof.
  split; [exact null_body_not_object|].
  exact (handlers_unbound_names str0 4300 sub0 loads_six None post_down
           post_analysis_down (Ok JNull) null_body_not_object).
Defined.

Lemma analysis_answers_witness :
  get_fallback_analysis str0 4300
    (request_life_area [("responses", JObj three_answers)])
    (request_responses [("responses", JObj three_answers)])
    (request_questions [("responses", JObj three_answers)])
  = Ok (fallback_analysis_text "general life" "mixed") /\
  generate_analysis str0 4300 (Some "key") post_analysis_down
    (Ok (JObj [("responses", JObj three_answers)]))
  = Ok (JObj [("analysis",
               JStr (fallback_analysis_text "general life" "mixed"))]).
Proof.
  split; [reflexivity|].
  refine (proj2 (proj2
            (analysis_answers str0 4300 (Some "key"%string)
               post_analysis_down [("responses", JObj three_answers)]
               (fallback_analysis_text "general life" "mixed") eq_refl))
            (OtherError "ConnectionError") _).
  reflexivity.
Defined.

Lemma superscript_answer_raises_witness :
  (Py.startswith "question0" "question" = true /\
   Py.isdigit superscript_two = true /\
   Py.all_chars Py.is_decimal superscript_two = false) /\
  get_fallback_analysis str0 4300 (JStr "work")
    (JObj [("question0", JObj [("answer", JStr superscript_two)])])
    (JList [])
  = Raise ValueError.
Proof.
  split; [repeat split|].
  exact (superscript_answer_raises str0 4300 (JStr "work") (JList [])
           "question0" superscript_two [] [] eq_refl eq_refl eq_refl).
Defined.

(** ** Requests without markers *)

Lemma extract_marker_free (analysis : string) :
  marker_free analysis -> extract_emotional_cues analysis = Ok zero_cues.
Proof.
  intros H. unfold extract_emotional_cues.
  rewrite (marker_free_raw _ H). reflexivity.
Qed.

Lemma dark_ops (shapes : list shape) (opss : list (list draw_op)) :
  Forall2 (drawn_shape zero_cues 400 400 (0, 0, 0)%Z) shapes opss ->
  List.length (List.concat opss) = List.length shapes /\
  Forall dark_op (List.concat opss).
Proof.
  intros HF.
  apply concat_singletons; [symmetry; exact (Forall2_length HF)|].
  induction HF as [|s o shapes opss (Hk & Hr & Ho) _ IH]; constructor;
    [|exact IH].
  unfold expected_kind in Hk.
  change (chaotic zero_cues) with 0 in Hk.
  change (focused zero_cues) with 0 in Hk.
  rewrite (zero_below_literal 0 (3 # 10)) in Hk
    by (reflexivity || discriminate).
  unfold shape_in_range in Hr.
  destruct (shape_color s) as [[[r g] b] a] eqn:Ecol.
  destruct Hr as (Hx & Hy & Hs & (dr & Hdr & Er) & (dg & Hdg & Eg)
                  & (db & Hdb & Eb) & Ha).
  unfold clamp255 in Er, Eg, Eb.
  unfold renders in Ho. rewrite Ecol in Ho.
  destruct Hk as [Hk|[Hk|Hk]]; rewrite Hk in Ho; subst o;
    (eexists; split; [reflexivity|]);
    exists (shape_x s), (shape_y s), (shape_size s), r, g, b, a;
    unfold square; repeat split; try lia; auto.
Qed.

Section EmptyRequests.

Variable png_encode : image -> string.
Variable b64encode : string -> string.
Variable py_str : json -> string.

(** X19.  A request without [analysis], or with an analysis in which no
    marker occurs, is answered by the main pipeline with exactly ten
    shapes, each filled with a colour within 50 of black; the description
    names the life area of the request, ["general life"] when the request
    has none. *)
Theorem marker_free_request (fields : list (string * json)) (w : world) :
  (assoc "analysis" fields = None \/
   exists s, assoc "analysis" fields = Some (JStr s) /\ marker_free s) ->
  exists im w',
    generate_emotion_image png_encode b64encode py_str (Ok (JObj fields)) w
    = (Ok (mkResponse (data_uri png_encode b64encode im)
             ("Abstract visualization of your emotional state regarding "
              ++ format_value py_str (request_life_area fields))%string),
       w') /\
    img_fill im = (0, 0, 0)%Z /\
    (exists ops,
        img_edits im = map Paint ops /\
        List.length ops = 10%nat /\ Forall dark_op ops) /\
    (assoc "lifeArea" fields = None ->
     format_value py_str (request_life_area fields) = "general life"%string).
Proof.
  intros Hreq.
  assert (Hs : exists s, request_analysis fields = JStr s /\ marker_free s).
  { unfold request_analysis.
    destruct Hreq as [Hn|(s & Hsome & Hfree)].
    - rewrite Hn. exists ""%string. split; [reflexivity|].
      apply marker_free_check. vm_compute. reflexivity.
    - rewrite Hsome. eauto. }
  destruct Hs as (s & Ha & Hfree).
  pose proof (extract_marker_free s Hfree) as E.
  destruct (visualization_runs_shapes png_encode b64encode zero_cues w)
    as (shapes & opss & w2 & Hrun).
  cbv zeta in Hrun. destruct Hrun as (Ev & _ & Hlen & HF).
  change (calculate_base_color zero_cues) with (0, 0, 0)%Z in HF.
  destruct (dark_ops shapes opss HF) as [Hl Hdark].
  eexists _, _. split; [|split; [|split]].
  - unfold generate_emotion_image, generate_emotion_image_with, try_except,
      emotion_image_try.
    unfold bind at 1. unfold lift at 1.
    unfold bind at 1. unfold lift at 1. cbn [dict_get].
    unfold bind at 1. unfold lift at 1.
    fold (request_analysis fields). rewrite Ha.
    unfold bind at 1. unfold lift at 1. cbn [extract_emotional_cues_of].
    rewrite E.
    unfold bind at 1. rewrite Ev. reflexivity.
  - reflexivity.
  - exists (List.concat opss). split; [reflexivity|].
    split; [|exact Hdark]. rewrite Hl, Hlen. reflexivity.
  - intros Hn. unfold request_life_area. now rewrite Hn.
Qed.

End EmptyRequests.

Lemma marker_free_request_witness :
  (assoc "analysis" [] = None \/
   exists s, assoc "analysis" [] = Some (JStr s) /\ marker_free s) /\
  exists im w',
    generate_emotion_image png0 b640 str0 (Ok (JObj [])) world0
    = (Ok (mkResponse (data_uri png0 b640 im)
             ("Abstract visualization of your emotional state regarding "
              ++ format_value str0 (request_life_area []))%string),
       w') /\
    img_fill im = (0, 0, 0)%Z /\
    (exists ops,
        img_edits im = map Paint ops /\
        List.length ops = 10%nat /\ Forall dark_op ops) /\
    (assoc "lifeArea" [] = None ->
     format_value str0 (request_life_area []) = "general life"%string).
Proof.
  split; [left; reflexivity|].
  apply (marker_free_request png0 b640 str0 [] world0).
  left. reflexivity.
Defined.

(** ** The text that is handed to [json.loads] *)

Lemma prefix_char (c d : ascii) (s : string) :
  prefix (String c EmptyString) (String d s)
  = if ascii_dec c d then true else false.
Proof. simpl. destruct (ascii_dec c d); [now destruct s|reflexivity]. Qed.

Lemma contains_char_cons (c d : ascii) (s : string) :
  Str.contains (String c EmptyString) (String d s)
  = (if ascii_dec c d then true else false)
    || Str.contains (String c EmptyString) s.
Proof. cbn [Str.contains]. now rewrite prefix_char. Qed.

Lemma find_split (c : ascii) (s : string) (i : Z) :
  Str.contains (String c EmptyString) s = true ->
  exists pre rest,
    s = (pre ++ String c rest)%string /\
    Str.contains (String c EmptyString) pre = false /\
    Py.find_from (String c EmptyString) s i
    = (i + Z.of_nat (String.length pre))%Z.
Proof.
  revert i. induction s as [|d s IH]; intros i H; [discriminate|].
  rewrite contains_char_cons in H. cbn [Py.find_from]. rewrite prefix_char.
  destruct (ascii_dec c d) as [<-|Hcd].
  - exists EmptyString, s. repeat split. simpl. lia.
  - cbn [orb] in H. destruct (IH (i + 1)%Z H) as (pre & rest & -> & Hp & Hf).
    exists (String d pre), rest. split; [reflexivity|]. split.
    + rewrite contains_char_cons, Hp.
      destruct (ascii_dec c d); [contradiction|reflexivity].
    + rewrite Hf. cbn [String.length]. lia.
Qed.

Lemma rfind_absent (c : ascii) (s : string) (i : Z) :
  (0 <= i)%Z -> (Py.rfind_from (String c EmptyString) s i < 0)%Z ->
  Str.contains (String c EmptyString) s = false.
Proof.
  revert i. induction s as [|d s IH]; intros i Hi H; [reflexivity|].
  cbn [Py.rfind_from] in H. rewrite prefix_char in H.
  rewrite contains_char_cons.
  destruct (0 <=? Py.rfind_from (String c EmptyString) s (i + 1))%Z eqn:E.
  - apply Z.leb_le in E. lia.
  - apply Z.leb_gt in E.
    rewrite (IH (i + 1)%Z ltac:(lia) E).
    destruct (ascii_dec c d); [lia|reflexivity].
Qed.

Lemma rfind_split (c : ascii) (s : string) (i : Z) :
  (0 <= i)%Z -> (0 <= Py.rfind_from (String c EmptyString) s i)%Z ->
  exists pre post,
    s = (pre ++ String c post)%string /\
    Str.contains (String c EmptyString) post = false /\
    Py.rfind_from (String c EmptyString) s i
    = (i + Z.of_nat (String.length pre))%Z.
Proof.
  revert i. induction s as [|d s IH]; intros i Hi H;
    [simpl in H; lia|].
  cbn [Py.rfind_from] in *. rewrite prefix_char in *.
  destruct (0 <=? Py.rfind_from (String c EmptyString) s (i + 1))%Z eqn:E.
  - apply Z.leb_le in E.
    destruct (IH (i + 1)%Z ltac:(lia) E) as (pre & post & -> & Hp & Hf).
    exists (String d pre), post. split; [reflexivity|]. split; [exact Hp|].
    rewrite Hf. cbn [String.length]. lia.
  - apply Z.leb_gt in E.
    destruct (ascii_dec c d) as [<-|Hcd]; [|lia].
    exists EmptyString, s. split; [reflexivity|]. split.
    + exact (rfind_absent c s (i + 1)%Z ltac:(lia) E).
    + simpl. lia.
Qed.

Lemma app_split_shorter (p1 x p2 y : string) :
  (p1 ++ x)%string = (p2 ++ y)%string ->
  (String.length p1 < String.length p2)%nat ->
  exists m, p2 = (p1 ++ m)%string /\ x = (m ++ y)%string /\ m <> EmptyString.
Proof.
  revert p2. induction p1 as [|c p1 IH]; intros p2 E Hlen.
  - exists p2. repeat split; trivial.
    intros ->. simpl in Hlen. lia.
  - destruct p2 as [|d p2]; [simpl in Hlen; lia|].
    simpl in E. inversion E. subst d.
    destruct (IH p2 H1 ltac:(simpl in Hlen; lia)) as (m & -> & -> & Hm).
    exists m. repeat split; trivial.
Qed.

Lemma substring_skip (p s : string) (n : nat) :
  substring (String.length p) n (p ++ s) = substring 0 n s.
Proof. induction p as [|c p IH]; [reflexivity|exact IH]. Qed.

Lemma substring_take (b q : string) :
  substring 0 (String.length b) (b ++ q) = b.
Proof.
  induction b as [|c b IH]; [now destruct q|].
  simpl. now rewrite IH.
Qed.

Lemma append_assoc3 (a b c : string) :
  (a ++ b ++ c)%string = ((a ++ b) ++ c)%string.
Proof. induction a as [|x a IH]; simpl; [reflexivity|now rewrite IH]. Qed.

Lemma length_append (a b : string) :
  String.length (a ++ b) = (String.length a + String.length b)%nat.
Proof. induction a as [|c a IH]; simpl; [reflexivity|now rewrite IH]. Qed.

(** X20.  When the last closing bracket of the text comes after its first
    opening bracket, the text that [parse_questions_with_options] cuts out
    for [json.loads] runs from that opening bracket to that closing
    bracket: what precedes it holds no opening bracket, what follows it no
    closing one.  When the last closing bracket comes before the first
    opening one, or there is none, the text cut out is empty. *)
Theorem parse_slice_brackets (t : string) :
  Str.contains "[" t = true ->
  ((Py.find t "[" < Py.rfind t "]")%Z ->
   exists pre mid post,
     t = (pre ++ "[" ++ mid ++ "]" ++ post)%string /\
     Py.slice t (Py.find t "[") (Py.rfind t "]" + 1)
     = ("[" ++ mid ++ "]")%string /\
     Str.contains "[" pre = false /\ Str.contains "]" post = false) /\
  ((Py.rfind t "]" < Py.find t "[")%Z ->
   Py.slice t (Py.find t "[") (Py.rfind t "]" + 1) = ""%string).
Proof.
  intros Hc. unfold Py.find, Py.rfind.
  destruct (find_split "[" t 0 Hc) as (p1 & r1 & E1 & Hp1 & Hf).
  rewrite Hf. split.
  - intros Hlt.
    destruct (rfind_split "]" t 0 ltac:(lia) ltac:(lia))
      as (p2 & q2 & E2 & Hq2 & Hr).
    rewrite Hr in *.
    assert (E : (p1 ++ String "[" r1)%string = (p2 ++ String "]" q2)%string)
      by congruence.
    destruct (app_split_shorter _ _ _ _ E ltac:(lia)) as (m & -> & Em & Hm).
    destruct m as [|c mid]; [contradiction|].
    simpl in Em. inversion Em. subst c r1.
    exists p1, mid, q2. split; [|split; [|split; assumption]].
    + rewrite E2. clear. induction p1 as [|c p1 IH]; simpl;
        [reflexivity|now rewrite IH].
    + unfold Py.slice. rewrite E1.
      replace (Z.to_nat (0 + Z.of_nat (String.length p1)))
        with (String.length p1) by lia.
      rewrite substring_skip.
      replace (Z.to_nat _)
        with (String.length ("[" ++ mid ++ "]")%string).
      * replace (String "[" (mid ++ String "]" q2))%string
          with (("[" ++ mid ++ "]") ++ q2)%string
          by (simpl; now rewrite <- append_assoc3).
        apply substring_take.
      * rewrite length_append in Hlt. cbn [String.length append] in *.
        rewrite !length_append. cbn [String.length]. lia.
  - intros Hlt. unfold Py.slice.
    replace (Z.to_nat (Py.rfind_from "]" t 0 + 1
                       - (0 + Z.of_nat (String.length p1))))
      with 0%nat by lia.
    generalize (Z.to_nat (0 + Z.of_nat (String.length p1))). clear.
    intros n. revert n. induction t as [|c t IH]; intros [|n]; simpl; auto.
Qed.

Lemma parse_slice_brackets_witness :
  Str.contains "[" "Sure: [1, [2]] done" = true /\
  (Py.find "Sure: [1, [2]] done" "[" < Py.rfind "Sure: [1, [2]] done" "]")%Z
  /\
  exists pre mid post,
    "Sure: [1, [2]] done"%string
    = (pre ++ "[" ++ mid ++ "]" ++ post)%string /\
    Py.slice "Sure: [1, [2]] done" (Py.find "Sure: [1, [2]] done" "[")
      (Py.rfind "Sure: [1, [2]] done" "]" + 1)
    = ("[" ++ mid ++ "]")%string /\
    Str.contains "[" pre = false /\ Str.contains "]" post = false.
Proof.
  split; [reflexivity|]. split; [reflexivity|].
  apply (proj1 (parse_slice_brackets "Sure: [1, [2]] done" eq_refl)).
  reflexivity.
Defined.

(** ** The index of a question key *)

(** X21.  The loop that formats the responses tests the index of a
    question key only from above ([q_index < len(questions_data)]): a
    negative index of at least [-len] passes the test and selects the
    question counted from the end of the list, and an index below [-len]
    passes it too and raises [IndexError]. *)
Theorem negative_question_index (py_str : json -> string) (limit : nat)
    (key : string) (value : json) (questions : list json) (i : Z)
    (response_text : string) :
  Py.startswith key "question" = true ->
  Py.int_of_str limit (Py.replace_scan "question" "" 0 key) = Ok i ->
  (i < 0)%Z ->
  ((- Z.of_nat (List.length questions) <= i)%Z ->
   forall q question_text answer,
     nth_error questions (Z.to_nat (i + Z.of_nat (List.length questions)))
     = Some q ->
     getitem_key q "question" = Ok question_text ->
     getitem_key value "answer" = Ok answer ->
     format_responses py_str limit [(key, value)] (JList questions)
       response_text
     = Ok (response_text ++ "Q: " ++ format_value py_str question_text
           ++ newline ++ "A: " ++ format_value py_str answer
           ++ newline ++ newline)%string) /\
  ((i < - Z.of_nat (List.length questions))%Z ->
   format_responses py_str limit [(key, value)] (JList questions)
     response_text
   = Raise IndexError).
Proof.
  intros Hk Hi Hneg.
  assert (Hlt : (i <? Z.of_nat (List.length questions))%Z = true)
    by (apply Z.ltb_lt; lia).
  split.
  - intros Hlo q qt a Hq Hqt Ha.
    cbn [format_responses]. rewrite Hk, Hi. cbn [rbind py_len].
    rewrite Hlt. cbn [getitem_index].
    replace (- Z.of_nat (List.length questions) <=? i)%Z with true
      by (symmetry; apply Z.leb_le; lia).
    rewrite Hlt. cbn [andb].
    replace (i <? 0)%Z with true by (symmetry; apply Z.ltb_lt; lia).
    rewrite Hq. cbn [rbind]. rewrite Hqt. cbn [rbind]. rewrite Ha.
    reflexivity.
  - intros Hlo.
    cbn [format_responses]. rewrite Hk, Hi. cbn [rbind py_len].
    rewrite Hlt. cbn [getitem_index].
    replace (- Z.of_nat (List.length questions) <=? i)%Z with false
      by (symmetry; apply Z.leb_gt; lia).
    reflexivity.
Qed.

Lemma negative_question_index_witness :
  (Py.startswith "question-1" "question" = true /\
   Py.int_of_str 4300 (Py.replace_scan "question" "" 0 "question-1")
   = Ok (-1)%Z /\
   (-1 < 0)%Z) /\
  format_responses str0 4300
    [("question-1", JObj [("answer", JStr "4")])]
    (JList [entry0; JObj [("question", JStr "Last one?")]]) "head "
  = Ok ("head Q: Last one?" ++ newline ++ "A: 4" ++ newline ++ newline)%string.
Proof.
  split; [repeat split|].
  refine (proj1 (negative_question_index str0 4300 "question-1"
                   (JObj [("answer", JStr "4")])
                   [entry0; JObj [("question", JStr "Last one?")]]
                   (-1) "head " eq_refl eq_refl eq_refl)
            _ (JObj [("question", JStr "Last one?")])
            (JStr "Last one?") (JStr "4") eq_refl eq_refl eq_refl).
  simpl. lia.
Defined.
